(** * bbc_simple core: a shallow embedding of [bbc_core.py]

    The development follows [src/bbc_simple/core/bbc_core.py]: the search
    result classification, the bounded traversal of the transaction graph,
    transaction admission, the signature fan-out and the command dispatcher
    with its connection loop.

    Python values are dynamically typed, so messages are finite maps from
    keys to a small universe of values.  Exceptions are explicit results.
    The collaborators that are not part of the sources (storage, crypto,
    routing table, wire codec) appear as records of functions or as logged
    events. *)

From Stdlib Require Import ZArith List.
From stdpp Require Import base decidable option list gmap strings.

Local Open Scope Z_scope.
Local Open Scope string_scope.
Local Open Scope list_scope.

(** ** Python values *)

(** A Python [bytes] object. *)
Abbreviation bytes := string (only parsing).

(** Modelled from the spec: [bbclib.py], which defines [MsgType], is not
    part of the sources.  These are the message types that the embedded
    part of the dispatcher receives or sends, named as [bbc_core.py] and
    the command table of the spec name them; their numeric codes are not
    needed, only their distinctness. *)
Module MsgType.
Inductive t :=
| REQUEST_SEARCH_TRANSACTION | RESPONSE_SEARCH_TRANSACTION
| REQUEST_SEARCH_WITH_CONDITIONS | RESPONSE_SEARCH_WITH_CONDITIONS
| REQUEST_COUNT_TRANSACTIONS | RESPONSE_COUNT_TRANSACTIONS
| REQUEST_TRAVERSE_TRANSACTIONS | RESPONSE_TRAVERSE_TRANSACTIONS
| REQUEST_GATHER_SIGNATURE | RESPONSE_GATHER_SIGNATURE
| REQUEST_SIGNATURE
| REQUEST_INSERT | RESPONSE_INSERT
| MESSAGE | REGISTER | UNREGISTER.
End MsgType.

(** Modelled from the spec: [bbc_error.py] is not part of the sources.  The
    status codes are kept symbolic ([ESUCCESS] is 0 and the errors are
    negative, which this development does not use). *)
Inductive ErrorCode :=
| ESUCCESS | EINVALID_COMMAND | ENOTRANSACTION | EBADTRANSACTION | EOTHER.

Inductive Value :=
| VNone
| VBool (b : bool)
| VInt (z : Z)
| VBytes (b : bytes)
| VStr (s : string)
| VMsgType (c : MsgType.t)
| VError (e : ErrorCode)
| VList (l : list bytes)
| VTree (t : list (list bytes)).

#[global] Instance MsgType_eq_dec : EqDecision MsgType.t.
Proof. solve_decision. Defined.
#[global] Instance ErrorCode_eq_dec : EqDecision ErrorCode.
Proof. solve_decision. Defined.
#[global] Instance Value_eq_dec : EqDecision Value.
Proof. solve_decision. Defined.

(** Lists are the only unhashable values of the universe. *)
Definition hashable (v : Value) : bool :=
  match v with
  | VList _ | VTree _ => false
  | _ => true
  end.

(** [int(v)] for the values Python accepts where an integer is compared or
    iterated over: integers and booleans. *)
Definition as_int (v : Value) : option Z :=
  match v with
  | VInt z => Some z
  | VBool b => Some (if b then 1 else 0)
  | _ => None
  end.

(** [v == 1]. *)
Definition eq_one (v : Value) : bool :=
  match v with
  | VInt z => bool_decide (z = 1)
  | VBool b => b
  | _ => false
  end.

(** Modelled from the spec: [message_key_types.py], which defines
    [KeyType], is not part of the sources.  Each key used by the core is
    named by its attribute name; the wire encoding is not needed. *)
Module KeyType.
Definition domain_id := "domain_id".
Definition command := "command".
Definition destination_user_id := "destination_user_id".
Definition destination_user_ids := "destination_user_ids".
Definition source_user_id := "source_user_id".
Definition query_id := "query_id".
Definition status := "status".
Definition reason := "reason".
Definition transaction_id := "transaction_id".
Definition transaction_data := "transaction_data".
Definition compromised_transaction_data := "compromised_transaction_data".
Definition transactions := "transactions".
Definition compromised_transactions := "compromised_transactions".
Definition asset_group_id := "asset_group_id".
Definition asset_id := "asset_id".
Definition user_id := "user_id".
Definition count := "count".
Definition direction := "direction".
Definition hop_count := "hop_count".
Definition transaction_tree := "transaction_tree".
Definition all_included := "all_included".
Definition hint := "hint".
Definition is_anycast := "is_anycast".
Definition anycast_ttl := "anycast_ttl".
Definition on_multinodes := "on_multinodes".
End KeyType.

(** A message: a Python [dict] from keys to values. *)
Abbreviation Msg := (gmap string Value) (only parsing).

Inductive Exn := KeyError | TypeError | AttributeError | IndexError | OverflowError.

#[global] Instance Exn_eq_dec : EqDecision Exn.
Proof. solve_decision. Defined.

Definition VERSION := "bbc_simple v0.1".
Definition DEFAULT_ANYCAST_TTL : Z := 5.
Definition TX_TRAVERSAL_MAX : nat := 30.

(** ** Collaborators *)

(** A parsed transaction, as the core sees it: its [transaction_id]
    attribute (the digest recomputed from the content) and its serialized
    bytes [transaction_data]. *)
Record BBcTransaction := {
  transaction_id : bytes;
  transaction_data : bytes;
}.

(** Modelled from the spec: [bbclib.py] is not part of the sources.
    [validate] returns the triple (valid, valid asset ids, invalid asset
    ids), which is also how [validate_transaction] below unpacks it;
    [deserialize] gives the parsed object or fails; [digest] recomputes the
    transaction id. *)
Record Bbclib := {
  deserialize : Value → option BBcTransaction;
  digest : BBcTransaction → bytes;
  validate_transaction_object : BBcTransaction → bool * list bytes * list bytes;
}.

(** The truth value Python gives a tuple: false for the empty tuple only. *)
Definition tuple_truth (arity : nat) : bool := negb (arity =? 0)%nat.

(** The truth value of a result of [validate_transaction_object] used as a
    condition: that of a tuple of three components. *)
Definition truth_of_validation (r : bool * list bytes * list bytes) : bool :=
  tuple_truth 3.

(** A row of the topology table: [topology[1]] is the base transaction,
    [topology[2]] the transaction it points to. *)
Definition Topology : Type := Z * bytes * bytes.

(** Modelled from the spec: the storage module is not part of the sources.
    This is the storage handle of a domain
    ([self.networking.domains[d]['data']]) with the methods [bbc_core.py]
    calls; [search_transaction] is split in two, by transaction id and by
    conditions.  A [dict] result is the list of its items in iteration
    order; [None] is [None]. *)
Record DataHandler := {
  search_transaction : Value → option (list (bytes * BBcTransaction));
  search_transaction_by_condition :
    Value → Value → Value → Value → Value → option (list (bytes * BBcTransaction));
  count_transactions_in : Value → Value → Value → Value;
  search_transaction_topology : Value → bool → option (list Topology);
  get_asset_info : BBcTransaction → list (bytes * bytes * bytes);
  insert_transaction_in : Value → BBcTransaction → option (list bytes);
}.

(** ** Search result classification *)

(** [d.setdefault(k, list()).append(x)] on a dict whose values under [k]
    are lists. *)
Definition setdefault_append (k : string) (x : bytes) (d : Msg) : Msg :=
  match d !! k with
  | Some (VList l) => <[k := VList (l ++ [x])]> d
  | Some _ => d
  | None => <[k := VList [x]]> d
  end.

Definition classify (lib : Bbclib) (response_info : Msg)
    (item : bytes * BBcTransaction) : Msg :=
  let '(txid, txobj) := item in
  if bool_decide (txid ≠ transaction_id txobj) then
    setdefault_append KeyType.compromised_transactions (transaction_data txobj) response_info
  else if truth_of_validation (validate_transaction_object lib txobj) then
    setdefault_append KeyType.transactions (transaction_data txobj) response_info
  else
    setdefault_append KeyType.compromised_transactions (transaction_data txobj) response_info.

Definition _create_search_result (lib : Bbclib)
    (txobj_dict : list (bytes * BBcTransaction)) : Msg :=
  fold_left (classify lib) txobj_dict ∅.

(** ** Graph traversal engine *)

(** The calls the traversal makes on the storage handle. *)
Inductive StorageCall :=
| call_search_transaction (txid : Value)
| call_get_asset_info (txobj : BBcTransaction)
| call_search_transaction_topology (txid : Value) (traverse_to_past : bool).

#[global] Instance BBcTransaction_eq_dec : EqDecision BBcTransaction.
Proof. solve_decision. Defined.
#[global] Instance StorageCall_eq_dec : EqDecision StorageCall.
Proof. solve_decision. Defined.

(** The local variables of [_traverse_transactions].  [txids] lists the keys
    of the dict of that name.  [calls], [hops] and [layers] are not
    variables of the source: they record the storage calls made so far, the
    number of layers whose processing was entered, and the value of
    [tx_brothers] at the end of each layer, empty or not. *)
Record Walk := {
  tx_count : nat;
  txids : list Value;
  current_txids : list Value;
  include_all_flag : bool;
  txtree : list (list bytes);
  tx_brothers : list bytes;
  next_txids : list Value;
  calls : list StorageCall;
  hops : nat;
  layers : list (list bytes);
}.

Definition log_call (c : StorageCall) (w : Walk) : Walk :=
  {| tx_count := tx_count w; txids := txids w; current_txids := current_txids w;
     include_all_flag := include_all_flag w; txtree := txtree w;
     tx_brothers := tx_brothers w; next_txids := next_txids w;
     calls := calls w ++ [c]; hops := hops w; layers := layers w |}.

(** [tx_count += 1; txids[txid] = True]. *)
Definition mark_visited (txid : Value) (w : Walk) : Walk :=
  {| tx_count := S (tx_count w); txids := txids w ++ [txid];
     current_txids := current_txids w;
     include_all_flag := include_all_flag w; txtree := txtree w;
     tx_brothers := tx_brothers w; next_txids := next_txids w;
     calls := calls w; hops := hops w; layers := layers w |}.

(** [tx_brothers.append(data)]. *)
Definition add_brother (data : bytes) (w : Walk) : Walk :=
  {| tx_count := tx_count w; txids := txids w; current_txids := current_txids w;
     include_all_flag := include_all_flag w; txtree := txtree w;
     tx_brothers := tx_brothers w ++ [data]; next_txids := next_txids w;
     calls := calls w; hops := hops w; layers := layers w |}.

(** [next_txids.append(next_txid)]. *)
Definition add_next (next_txid : Value) (w : Walk) : Walk :=
  {| tx_count := tx_count w; txids := txids w; current_txids := current_txids w;
     include_all_flag := include_all_flag w; txtree := txtree w;
     tx_brothers := tx_brothers w; next_txids := next_txids w ++ [next_txid];
     calls := calls w; hops := hops w; layers := layers w |}.

(** [tx_brothers = list(); next_txids = list()]. *)
Definition begin_layer (w : Walk) : Walk :=
  {| tx_count := tx_count w; txids := txids w; current_txids := current_txids w;
     include_all_flag := include_all_flag w; txtree := txtree w;
     tx_brothers := []; next_txids := [];
     calls := calls w; hops := hops w; layers := layers w |}.

(** [include_all_flag = False]. *)
Definition clear_flag (w : Walk) : Walk :=
  {| tx_count := tx_count w; txids := txids w; current_txids := current_txids w;
     include_all_flag := false; txtree := txtree w;
     tx_brothers := tx_brothers w; next_txids := next_txids w;
     calls := calls w; hops := hops w; layers := layers w |}.

Definition count_hop (w : Walk) : Walk :=
  {| tx_count := tx_count w; txids := txids w; current_txids := current_txids w;
     include_all_flag := include_all_flag w; txtree := txtree w;
     tx_brothers := tx_brothers w; next_txids := next_txids w;
     calls := calls w; hops := S (hops w); layers := layers w |}.

(** [if len(tx_brothers) > 0: txtree.append(tx_brothers)] and then
    [current_txids = next_txids]. *)
Definition end_layer (w : Walk) : Walk :=
  {| tx_count := tx_count w; txids := txids w; current_txids := next_txids w;
     include_all_flag := include_all_flag w;
     txtree := if (0 <? length (tx_brothers w))%nat
               then txtree w ++ [tx_brothers w] else txtree w;
     tx_brothers := tx_brothers w; next_txids := next_txids w;
     calls := calls w; hops := hops w;
     layers := layers w ++ [tx_brothers w] |}.

(** Lookup in a dict given by its items. *)
Fixpoint items_get (items : list (bytes * BBcTransaction)) (key : bytes)
    : option BBcTransaction :=
  match items with
  | [] => None
  | (k, v) :: rest => if bool_decide (k = key) then Some v else items_get rest key
  end.

(** [ret_txobj[txid]]: [None] stands for [KeyError]. *)
Definition dict_get (ret_txobj : list (bytes * BBcTransaction)) (txid : Value)
    : option BBcTransaction :=
  match txid with
  | VBytes b => items_get ret_txobj b
  | _ => None
  end.

(** One pass of the loop over [dh.get_asset_info(...)]; the result is the
    value of [flag] when the loop is left. *)
Fixpoint asset_filter (asset_group_id user_id : Value)
    (infos : list (bytes * bytes * bytes)) (flag : bool) : bool :=
  match infos with
  | [] => flag
  | (asgid, _, uid) :: rest =>
      let flag := true in
      let flag :=
        if bool_decide (asset_group_id ≠ VNone) && bool_decide (VBytes asgid ≠ asset_group_id)
        then false else flag in
      let flag :=
        if bool_decide (user_id ≠ VNone) && bool_decide (VBytes uid ≠ user_id)
        then false else flag in
      if flag then flag else asset_filter asset_group_id user_id rest flag
  end.

(** The body of [for topology in ret]. *)
Definition expand (traverse_to_past : bool) (w : Walk) (topology : Topology) : Walk :=
  let '(_, base, point_to) := topology in
  let next_txid := VBytes (if traverse_to_past then point_to else base) in
  if bool_decide (next_txid ∉ txids w) then add_next next_txid w else w.

(** The body of [for txid in current_txids].  The second component is the
    exception raised, if any. *)
Definition visit (dh : DataHandler) (asset_group_id user_id : Value)
    (traverse_to_past : bool) (w : Walk) (txid : Value) : Walk * option Exn :=
  if negb (hashable txid) then (w, Some TypeError)
  else if bool_decide (txid ∈ txids w) then (w, None)
  else
    let w := log_call (call_search_transaction txid) (mark_visited txid w) in
    match search_transaction dh txid with
    | None => (w, None)
    | Some ret_txobj =>
        if (length ret_txobj =? 0)%nat then (w, None)
        else
          match dict_get ret_txobj txid with
          | None => (w, Some KeyError)
          | Some txobj =>
              let filtering :=
                bool_decide (asset_group_id ≠ VNone) || bool_decide (user_id ≠ VNone) in
              let w := if filtering then log_call (call_get_asset_info txobj) w else w in
              if filtering
                 && negb (asset_filter asset_group_id user_id (get_asset_info dh txobj) false)
              then (w, None)
              else
                let w := add_brother (transaction_data txobj) w in
                let w := log_call (call_search_transaction_topology txid traverse_to_past) w in
                match search_transaction_topology dh txid traverse_to_past with
                | None => (w, None)
                | Some ret => (fold_left (expand traverse_to_past) ret w, None)
                end
          end
    end.

Fixpoint visit_all (dh : DataHandler) (asset_group_id user_id : Value)
    (traverse_to_past : bool) (w : Walk) (ids : list Value) : Walk * option Exn :=
  match ids with
  | [] => (w, None)
  | txid :: rest =>
      match visit dh asset_group_id user_id traverse_to_past w txid with
      | (w', None) => visit_all dh asset_group_id user_id traverse_to_past w' rest
      | raised => raised
      end
  end.

(** [for i in range(n)]: the layers still to go. *)
Fixpoint traverse_loop (dh : DataHandler) (asset_group_id user_id : Value)
    (traverse_to_past : bool) (n : nat) (w : Walk) : Walk * option Exn :=
  match n with
  | O => (w, None)
  | S n' =>
      let w := begin_layer w in
      if (TX_TRAVERSAL_MAX <? tx_count w + length (current_txids w))%nat then
        (clear_flag w, None)
      else
        match visit_all dh asset_group_id user_id traverse_to_past
                (count_hop w) (current_txids w) with
        | (w', None) =>
            traverse_loop dh asset_group_id user_id traverse_to_past n' (end_layer w')
        | raised => raised
        end
  end.

Definition initial_walk (transaction_id : Value) : Walk :=
  {| tx_count := 0; txids := []; current_txids := [transaction_id];
     include_all_flag := true; txtree := [];
     tx_brothers := []; next_txids := []; calls := []; hops := 0; layers := [] |}.

(** The part of [_traverse_transactions] after the storage handle is
    found, for an integer [hop_count]. *)
Definition traverse (dh : DataHandler)
    (transaction_id asset_group_id user_id direction : Value) (hop_count : Z)
    : Walk * option Exn :=
  let traverse_to_past := eq_one direction in
  let w := initial_walk transaction_id in
  let '(hop_count, w) :=
    if (Z.of_nat (TX_TRAVERSAL_MAX * 2) <? hop_count)%Z
    then (Z.of_nat (TX_TRAVERSAL_MAX * 2), clear_flag w)
    else (hop_count, w) in
  traverse_loop dh asset_group_id user_id traverse_to_past (Z.to_nat hop_count) w.

(** ** The core service *)

Definition Socket := nat.

(** Modelled from the spec: [bbc_network.py] and [user_message_routing.py]
    are not part of the sources.  A domain of [self.networking.domains]
    has its storage handle, its display name and, for its user routing
    table, what [send_message_to_user] answers for a message. *)
Record Domain := {
  data : DataHandler;
  name : string;
  delivers : Msg → bool;
}.

Record BBcCoreService := {
  domains : gmap string Domain;
  lib : Bbclib;
}.

(** What the service does to its collaborators, in order.  A message is
    recorded as it is when it is handed over. *)
Inductive Event :=
| ev_stats_increment (category item : string)
| ev_stats_decrement (category item : string)
| ev_send_message_to_user (domain_id : bytes) (msg : Msg) (delivered : bool)
| ev_dummy_send_message_to_user (domain_id : Value) (msg : Msg)
| ev_direct_send_to_user (socket : Socket) (msg : Msg)
| ev_register_user (dummy : bool) (domain_id user_id : Value) (socket : Socket)
    (on_multiple_nodes : Value)
| ev_unregister_user (dummy : bool) (domain_id user_id : Value) (socket : Socket)
| ev_storage (domain_id : bytes) (c : StorageCall)
| ev_search_by_condition (domain_id : bytes)
    (asset_group_id asset_id user_id direction count : Value)
| ev_count_transactions (domain_id : bytes) (asset_group_id asset_id user_id : Value)
| ev_insert_transaction (domain_id : bytes) (txdata : Value)
| ev_broadcast_notification_message (domain_id : bytes) (msg : bytes)
| ev_socket_closed (socket : Socket).

Inductive Res (A : Type) :=
| Ok (a : A)
| Raise (e : Exn).
Arguments Ok {A} a.
Arguments Raise {A} e.

(** Computations of the service: they extend the log of events and return a
    value or raise. *)
Definition M (A : Type) : Type := list Event → Res A * list Event.

Definition ret {A} (a : A) : M A := λ log, (Ok a, log).
Definition raise {A} (e : Exn) : M A := λ log, (Raise e, log).
Definition bind {A B} (c : M A) (k : A → M B) : M B :=
  λ log, match c log with
         | (Ok a, log') => k a log'
         | (Raise e, log') => (Raise e, log')
         end.
Definition emit (e : Event) : M unit := λ log, (Ok tt, log ++ [e]).
Definition emit_all (es : list Event) : M unit := λ log, (Ok tt, log ++ es).

Notation "'do' x <- c ; k" := (bind c (λ x, k))
  (at level 10, x name, c at level 100, k at level 200).
Notation "'do' ' p <- c ; k" := (bind c (λ x, match x with p => k end))
  (at level 10, p pattern, c at level 100, k at level 200).
Notation "c ;; k" := (bind c (λ _, k))
  (at level 100, k at level 200, right associativity).

(** [dat[key]]. *)
Definition getitem (dat : Msg) (key : string) : M Value :=
  match dat !! key with
  | Some v => ret v
  | None => raise KeyError
  end.

(** [dat.get(key, dflt)]. *)
Definition get (dat : Msg) (key : string) (dflt : Value) : Value :=
  default dflt (dat !! key).

(** [domain_id in self.networking.domains]. *)
Definition domains_contains (core : BBcCoreService) (domain_id : Value) : M bool :=
  if negb (hashable domain_id) then raise TypeError
  else match domain_id with
       | VBytes b => ret (bool_decide (is_Some (domains core !! b)))
       | _ => ret false
       end.

(** [self.networking.domains[domain_id]], with the key as bytes. *)
Definition domains_getitem (core : BBcCoreService) (domain_id : Value)
    : M (bytes * Domain) :=
  if negb (hashable domain_id) then raise TypeError
  else match domain_id with
       | VBytes b =>
           match domains core !! b with
           | Some d => ret (b, d)
           | None => raise KeyError
           end
       | _ => raise KeyError
       end.

(** The three kinds of [umr] in [_process]: [None], the routing table of a
    registered domain, or a [UserMessageRoutingDummy]. *)
Inductive Umr :=
| umr_None
| umr_of_domain (domain_id : bytes) (d : Domain)
| umr_dummy (domain_id : Value).

(** [umr.send_message_to_user(msg)]; the caller drops the answer. *)
Definition send_message_to_user (umr : Umr) (msg : Msg) : M unit :=
  match umr with
  | umr_None => raise AttributeError
  | umr_of_domain b d => emit (ev_send_message_to_user b msg (delivers d msg))
  | umr_dummy v => emit (ev_dummy_send_message_to_user v msg)
  end.

Definition direct_send_to_user (socket : Socket) (msg : Msg) : M unit :=
  emit (ev_direct_send_to_user socket msg).

Definition update_stats_increment (category item : string) : M unit :=
  emit (ev_stats_increment category item).

Definition _make_message_structure (domain_id : Value) (cmd : MsgType.t)
    (dstid qid : Value) : Msg :=
  <[KeyType.status := VError ESUCCESS]>
  (<[KeyType.query_id := qid]>
  (<[KeyType.destination_user_id := dstid]>
  (<[KeyType.command := VMsgType cmd]>
  (<[KeyType.domain_id := domain_id]> ∅)))).

(** [_error_reply]: the message is changed in place, so the changed message
    is returned with the answer. *)
Definition _error_reply (core : BBcCoreService) (msg : Msg) (err_code : ErrorCode)
    (txt : string) : M (bool * Msg) :=
  let msg := <[KeyType.status := VError err_code]> msg in
  let msg := <[KeyType.reason := VStr txt]> msg in
  do domain_id <- getitem msg KeyType.domain_id;
  do known <- domains_contains core domain_id;
  if known then
    do '(b, d) <- domains_getitem core domain_id;
    send_message_to_user (umr_of_domain b d) msg;;
    ret (true, msg)
  else ret (false, msg).

(** [_param_check] for a list of keys. *)
Fixpoint _param_check (core : BBcCoreService) (param : list string) (dat : Msg)
    : M bool :=
  match param with
  | [] => ret true
  | p :: rest =>
      if bool_decide (dat !! p = None) then
        _error_reply core dat EINVALID_COMMAND "lack of mandatory params";;
        ret false
      else _param_check core rest dat
  end.

(** *** Transaction admission *)

Definition validate_transaction (core : BBcCoreService) (txdata : Value)
    : M (option BBcTransaction) :=
  match deserialize (lib core) txdata with
  | None =>
      update_stats_increment "transaction" "invalid";;
      ret None
  | Some txobj =>
      let txobj := {| transaction_id := digest (lib core) txobj;
                      transaction_data := transaction_data txobj |} in
      let '(flag, valid_asset, invalid_asset) :=
        validate_transaction_object (lib core) txobj in
      if flag then ret (Some txobj)
      else
        update_stats_increment "transaction" "invalid";;
        ret None
  end.

(** [int(n).to_bytes(1, 'big')]. *)
Definition to_bytes_1 (n : nat) : M bytes :=
  if (n <? 256)%nat then ret (String (Ascii.ascii_of_nat n) EmptyString)
  else raise OverflowError.

Definition send_inserted_notification (core : BBcCoreService) (domain_id : bytes)
    (asset_group_ids : list bytes) (transaction_id : bytes) : M unit :=
  do l1 <- to_bytes_1 (String.length transaction_id);
  do l2 <- to_bytes_1 (String.length domain_id);
  do l3 <- to_bytes_1 (length asset_group_ids);
  let msg := l1 +:+ l2 +:+ transaction_id +:+ domain_id +:+ l3
             +:+ fold_left (λ acc a, acc +:+ a) asset_group_ids "" in
  emit (ev_broadcast_notification_message domain_id msg).

(** The result is a reason ([str]) or a record ([dict]). *)
Definition insert_transaction (core : BBcCoreService) (domain_id txdata : Value)
    : M (string + Msg) :=
  update_stats_increment "transaction" "insert_count";;
  if bool_decide (domain_id = VNone) then
    update_stats_increment "transaction" "insert_fail_count";;
    ret (inl "Set up the domain, first!")
  else
    do txobj <- validate_transaction core txdata;
    match txobj with
    | None =>
        update_stats_increment "transaction" "insert_fail_count";;
        ret (inl "Bad transaction format")
    | Some txobj =>
        do '(b, d) <- domains_getitem core domain_id;
        emit (ev_insert_transaction b txdata);;
        match insert_transaction_in (data d) txdata txobj with
        | None =>
            update_stats_increment "transaction" "insert_fail_count";;
            ret (inl "Failed to insert a transaction into the ledger")
        | Some asset_group_ids =>
            send_inserted_notification core b asset_group_ids (transaction_id txobj);;
            ret (inr (<[KeyType.transaction_id := VBytes (transaction_id txobj)]> ∅))
        end
    end.

(** *** Signature gathering *)

(** The elements a [for] loop sees in a value; [None] stands for
    [TypeError] (the value is not iterable). *)
Definition iterate (v : Value) : option (list Value) :=
  match v with
  | VList l => Some (VBytes <$> l)
  | VTree t => Some (VList <$> t)
  | VBytes b => Some ((λ c, VInt (Z.of_nat (Ascii.nat_of_ascii c))) <$> String.list_ascii_of_string b)
  | VStr s => Some ((λ c, VStr (String c EmptyString)) <$> String.list_ascii_of_string s)
  | _ => None
  end.

(** The body of [for dst in destinations]; [msg] is one object changed in
    place along the loop, so it is threaded through. *)
Definition sign_request (umr : Umr) (dat : Msg) (msg : Msg) (dst : Value) : M Msg :=
  do src <- getitem dat KeyType.source_user_id;
  if bool_decide (dst = src) then ret msg
  else
    let msg := <[KeyType.destination_user_id := dst]> msg in
    let msg := match dat !! KeyType.hint with
               | Some h => <[KeyType.hint := h]> msg
               | None => msg
               end in
    do txdata <- getitem dat KeyType.transaction_data;
    let msg := <[KeyType.transaction_data := txdata]> msg in
    let msg := match dat !! KeyType.transactions with
               | Some txs => <[KeyType.transactions := txs]> msg
               | None => msg
               end in
    send_message_to_user umr msg;;
    ret msg.

Fixpoint sign_requests (umr : Umr) (dat : Msg) (msg : Msg) (destinations : list Value)
    : M Msg :=
  match destinations with
  | [] => ret msg
  | dst :: rest =>
      do msg <- sign_request umr dat msg dst;
      sign_requests umr dat msg rest
  end.

Definition _distribute_transaction_to_gather_signatures (core : BBcCoreService)
    (domain_id : Value) (dat : Msg) : M bool :=
  do destinations <- getitem dat KeyType.destination_user_ids;
  do qid <- getitem dat KeyType.query_id;
  let msg := _make_message_structure domain_id MsgType.REQUEST_SIGNATURE VNone qid in
  do src <- getitem dat KeyType.source_user_id;
  let msg := <[KeyType.source_user_id := src]> msg in
  do '(b, d) <- domains_getitem core domain_id;
  match iterate destinations with
  | None => raise TypeError
  | Some dsts =>
      sign_requests (umr_of_domain b d) dat msg dsts;;
      ret true
  end.

(** *** Search *)

(** [response_info[single] = response_info[plural][0]] followed by
    [del response_info[plural]]. *)
Definition unwrap_first (plural single : string) (response_info : Msg) : M Msg :=
  match response_info !! plural with
  | Some (VList (x :: _)) => ret (delete plural (<[single := VBytes x]> response_info))
  | Some (VList []) => raise IndexError
  | Some _ => raise TypeError
  | None => raise KeyError
  end.

Definition _search_transaction_by_txid (core : BBcCoreService)
    (domain_id transaction_id : Value) : M (option Msg) :=
  update_stats_increment "transaction" "search_count";;
  if bool_decide (domain_id = VNone) then ret None
  else if bool_decide (transaction_id = VNone) then ret None
  else
    do '(b, d) <- domains_getitem core domain_id;
    emit (ev_storage b (call_search_transaction transaction_id));;
    match search_transaction (data d) transaction_id with
    | None => ret None
    | Some ret_txobj =>
        if (length ret_txobj =? 0)%nat then ret None
        else
          let response_info := _create_search_result (lib core) ret_txobj in
          let response_info := <[KeyType.transaction_id := transaction_id]> response_info in
          if bool_decide (is_Some (response_info !! KeyType.transactions)) then
            do r <- unwrap_first KeyType.transactions KeyType.transaction_data response_info;
            ret (Some r)
          else if bool_decide (is_Some (response_info !! KeyType.compromised_transactions)) then
            do r <- unwrap_first KeyType.compromised_transactions
                      KeyType.compromised_transaction_data response_info;
            ret (Some r)
          else ret (Some response_info)
    end.

Definition search_transaction_with_condition (core : BBcCoreService)
    (domain_id asset_group_id asset_id user_id direction count : Value) : M (option Msg) :=
  if bool_decide (domain_id = VNone) then ret None
  else
    do '(b, d) <- domains_getitem core domain_id;
    emit (ev_search_by_condition b asset_group_id asset_id user_id direction count);;
    match search_transaction_by_condition (data d)
            asset_group_id asset_id user_id direction count with
    | None => ret None
    | Some ret_txobj =>
        if (length ret_txobj =? 0)%nat then ret None
        else ret (Some (_create_search_result (lib core) ret_txobj))
    end.

Definition count_transactions (core : BBcCoreService)
    (domain_id asset_group_id asset_id user_id : Value) : M Value :=
  if bool_decide (domain_id = VNone) then ret VNone
  else
    do '(b, d) <- domains_getitem core domain_id;
    emit (ev_count_transactions b asset_group_id asset_id user_id);;
    ret (count_transactions_in (data d) asset_group_id asset_id user_id).

(** *** Traversal *)

(** [_traverse_transactions]: [None], or the pair of [include_all_flag] and
    [txtree].  The storage calls of the walk are logged as events, also
    when the walk raises. *)
Definition _traverse_transactions (core : BBcCoreService)
    (domain_id transaction_id asset_group_id user_id direction hop_count : Value)
    : M (option (bool * list (list bytes))) :=
  update_stats_increment "transaction" "search_count";;
  if bool_decide (domain_id = VNone) then ret None
  else if bool_decide (transaction_id = VNone) then ret None
  else
    do '(b, d) <- domains_getitem core domain_id;
    match as_int hop_count with
    | None => raise TypeError
    | Some hop_count =>
        let '(w, raised) :=
          traverse (data d) transaction_id asset_group_id user_id direction hop_count in
        emit_all (ev_storage b <$> calls w);;
        match raised with
        | Some e => raise e
        | None => ret (Some (include_all_flag w, txtree w))
        end
    end.

(** *** The dispatcher *)

Definition register_user (umr : Umr) (user_id : Value) (socket : Socket)
    (on_multiple_nodes : Value) : M unit :=
  match umr with
  | umr_None => raise AttributeError
  | umr_of_domain b _ => emit (ev_register_user false (VBytes b) user_id socket on_multiple_nodes)
  | umr_dummy v => emit (ev_register_user true v user_id socket on_multiple_nodes)
  end.

Definition unregister_user (umr : Umr) (user_id : Value) (socket : Socket) : M unit :=
  match umr with
  | umr_None => raise AttributeError
  | umr_of_domain b _ => emit (ev_unregister_user false (VBytes b) user_id socket)
  | umr_dummy v => emit (ev_unregister_user true v user_id socket)
  end.

(** [if not self._error_reply(msg=retmsg, ...): direct_send_to_user(socket, retmsg)]. *)
Definition error_reply_or_direct (core : BBcCoreService) (socket : Socket)
    (retmsg : Msg) (err_code : ErrorCode) (txt : string) : M unit :=
  do '(sent, retmsg) <- _error_reply core retmsg err_code txt;
  if sent then ret tt else direct_send_to_user socket retmsg.

(** [binascii.b2a_hex(v[:n])] in a log line: only its failure matters. *)
Definition b2a_hex_prefix (v : Value) : M unit :=
  match v with
  | VBytes _ => ret tt
  | _ => raise TypeError
  end.

(** The value of [umr] at the head of [_process]. *)
Definition resolve_umr (core : BBcCoreService) (domain_id : Value) : M Umr :=
  if bool_decide (domain_id = VNone) then ret umr_None
  else
    do known <- domains_contains core domain_id;
    if known then
      do '(b, d) <- domains_getitem core domain_id;
      ret (umr_of_domain b d)
    else ret (umr_dummy domain_id).

(** The branches of [_process], one definition for each command.  Each
    takes the values [_process] has computed when it reaches the branch:
    [umr] and [domain_id]. *)
Definition Processed : Type := bool * option (Value * Value).

Definition on_search_transaction (core : BBcCoreService) (socket : Socket)
    (umr : Umr) (domain_id : Value) (dat : Msg) : M Processed :=
  do ok <- _param_check core [KeyType.domain_id; KeyType.transaction_id] dat;
  if negb ok then ret (false, None)
  else
    do src <- getitem dat KeyType.source_user_id;
    do qid <- getitem dat KeyType.query_id;
    let retmsg := _make_message_structure domain_id
                    MsgType.RESPONSE_SEARCH_TRANSACTION src qid in
    do txid <- getitem dat KeyType.transaction_id;
    do txinfo <- _search_transaction_by_txid core domain_id txid;
    match txinfo with
    | None =>
        error_reply_or_direct core socket retmsg ENOTRANSACTION
          "Cannot find transaction";;
        ret (false, None)
    | Some txinfo =>
        let retmsg :=
          if bool_decide (is_Some (txinfo !! KeyType.compromised_transaction_data))
          then <[KeyType.status := VError EBADTRANSACTION]> retmsg else retmsg in
        let retmsg := txinfo ∪ retmsg in
        send_message_to_user umr retmsg;;
        ret (false, None)
    end.

Definition on_search_with_conditions (core : BBcCoreService) (socket : Socket)
    (umr : Umr) (domain_id : Value) (dat : Msg) : M Processed :=
  do ok <- _param_check core [KeyType.domain_id] dat;
  if negb ok then ret (false, None)
  else
    do src <- getitem dat KeyType.source_user_id;
    do qid <- getitem dat KeyType.query_id;
    let retmsg := _make_message_structure domain_id
                    MsgType.RESPONSE_SEARCH_WITH_CONDITIONS src qid in
    do txinfo <- search_transaction_with_condition core domain_id
                   (get dat KeyType.asset_group_id VNone)
                   (get dat KeyType.asset_id VNone)
                   (get dat KeyType.user_id VNone)
                   (get dat KeyType.direction (VInt 0))
                   (get dat KeyType.count (VInt 1));
    match txinfo with
    | Some txinfo =>
        if bool_decide (is_Some (txinfo !! KeyType.transactions)) then
          send_message_to_user umr (txinfo ∪ retmsg);;
          ret (false, None)
        else
          error_reply_or_direct core socket retmsg ENOTRANSACTION
            "Cannot find transaction";;
          ret (false, None)
    | None =>
        error_reply_or_direct core socket retmsg ENOTRANSACTION
          "Cannot find transaction";;
        ret (false, None)
    end.

Definition on_count_transactions (core : BBcCoreService) (socket : Socket)
    (umr : Umr) (domain_id : Value) (dat : Msg) : M Processed :=
  do ok <- _param_check core [KeyType.domain_id] dat;
  if negb ok then ret (false, None)
  else
    do src <- getitem dat KeyType.source_user_id;
    do qid <- getitem dat KeyType.query_id;
    let retmsg := _make_message_structure domain_id
                    MsgType.RESPONSE_COUNT_TRANSACTIONS src qid in
    do count <- count_transactions core domain_id
                  (get dat KeyType.asset_group_id VNone)
                  (get dat KeyType.asset_id VNone)
                  (get dat KeyType.user_id VNone);
    send_message_to_user umr (<[KeyType.count := count]> retmsg);;
    ret (false, None).

Definition on_traverse_transactions (core : BBcCoreService) (socket : Socket)
    (umr : Umr) (domain_id : Value) (dat : Msg) : M Processed :=
  do ok <- _param_check core [KeyType.domain_id; KeyType.transaction_id;
                              KeyType.direction; KeyType.hop_count] dat;
  if negb ok then ret (false, None)
  else
    do src <- getitem dat KeyType.source_user_id;
    do qid <- getitem dat KeyType.query_id;
    let retmsg := _make_message_structure domain_id
                    MsgType.RESPONSE_TRAVERSE_TRANSACTIONS src qid in
    do txid <- getitem dat KeyType.transaction_id;
    let retmsg := <[KeyType.transaction_id := txid]> retmsg in
    let asset_group_id := get dat KeyType.asset_group_id VNone in
    let user_id := get dat KeyType.user_id VNone in
    do direction <- getitem dat KeyType.direction;
    do hop_count <- getitem dat KeyType.hop_count;
    do r <- _traverse_transactions core domain_id txid asset_group_id user_id
              direction hop_count;
    match r with
    | None => raise TypeError
    | Some (all_included, txtree) =>
        if (length txtree =? 0)%nat then
          error_reply_or_direct core socket retmsg ENOTRANSACTION
            "Cannot find transaction";;
          ret (false, None)
        else
          let retmsg := <[KeyType.transaction_tree := VTree txtree]> retmsg in
          let retmsg := <[KeyType.all_included := VBool all_included]> retmsg in
          send_message_to_user umr retmsg;;
          ret (false, None)
    end.

Definition on_gather_signature (core : BBcCoreService) (socket : Socket)
    (umr : Umr) (domain_id : Value) (dat : Msg) : M Processed :=
  do ok <- _param_check core [KeyType.domain_id; KeyType.transaction_data] dat;
  if negb ok then ret (false, None)
  else
    do d <- getitem dat KeyType.domain_id;
    do forwarded <- _distribute_transaction_to_gather_signatures core d dat;
    if negb forwarded then
      do src <- getitem dat KeyType.source_user_id;
      do qid <- getitem dat KeyType.query_id;
      let retmsg := _make_message_structure domain_id
                      MsgType.RESPONSE_GATHER_SIGNATURE src qid in
      error_reply_or_direct core socket retmsg EINVALID_COMMAND
        "Fail to forward transaction";;
      ret (false, None)
    else ret (false, None).

Definition on_insert (core : BBcCoreService) (socket : Socket)
    (umr : Umr) (domain_id : Value) (dat : Msg) : M Processed :=
  do ok <- _param_check core [KeyType.domain_id; KeyType.transaction_data] dat;
  if negb ok then ret (false, None)
  else
    do transaction_data <- getitem dat KeyType.transaction_data;
    do src <- getitem dat KeyType.source_user_id;
    do qid <- getitem dat KeyType.query_id;
    let retmsg := _make_message_structure domain_id MsgType.RESPONSE_INSERT src qid in
    do d <- getitem dat KeyType.domain_id;
    do r <- insert_transaction core d transaction_data;
    match r with
    | inl reason =>
        error_reply_or_direct core socket retmsg EINVALID_COMMAND reason;;
        ret (false, None)
    | inr record =>
        send_message_to_user umr (record ∪ retmsg);;
        ret (false, None)
    end.

Definition on_message (core : BBcCoreService) (socket : Socket)
    (umr : Umr) (domain_id : Value) (dat : Msg) : M Processed :=
  do ok <- _param_check core [KeyType.domain_id; KeyType.source_user_id;
                              KeyType.destination_user_id] dat;
  if negb ok then ret (false, None)
  else
    let dat := if bool_decide (is_Some (dat !! KeyType.is_anycast))
               then <[KeyType.anycast_ttl := VInt DEFAULT_ANYCAST_TTL]> dat
               else dat in
    send_message_to_user umr dat;;
    ret (false, None).

Definition on_register (core : BBcCoreService) (socket : Socket)
    (umr : Umr) (domain_id : Value) (dat : Msg) : M Processed :=
  if bool_decide (domain_id = VNone) then ret (false, None)
  else
    do ok <- _param_check core [KeyType.domain_id; KeyType.source_user_id] dat;
    if negb ok then ret (false, None)
    else
      do user_id <- getitem dat KeyType.source_user_id;
      b2a_hex_prefix domain_id;;
      b2a_hex_prefix user_id;;
      register_user umr user_id socket (get dat KeyType.on_multinodes (VBool false));;
      ret (false, Some (domain_id, user_id)).

Definition on_unregister (core : BBcCoreService) (socket : Socket)
    (umr : Umr) (domain_id : Value) (dat : Msg) : M Processed :=
  match umr with
  | umr_None => ret (true, None)
  | _ =>
      do user_id <- getitem dat KeyType.source_user_id;
      unregister_user umr user_id socket;;
      ret (true, None)
  end.

(** The chain of [if cmd == ...] of [_process], for the commands of
    [MsgType.t]: the nine branches embedded here, and the final [else]
    for the commands of [MsgType.t] that [_process] has no branch for.
    The branches of the other commands (RESPONSE_SIGNATURE, the
    notification requests, the GET requests, SETUP_DOMAIN, CLOSE_DOMAIN,
    GET_STORED_MESSAGES) work on collaborators that are not in the
    sources and are not embedded: what is proved of [dispatch] is proved
    of [_process] for the commands of [MsgType.t] only. *)
Definition dispatch (core : BBcCoreService) (socket : Socket)
    (umr : Umr) (domain_id : Value) (dat : Msg) (cmd : Value) : M Processed :=
  match cmd with
  | VMsgType MsgType.REQUEST_SEARCH_TRANSACTION =>
      on_search_transaction core socket umr domain_id dat
  | VMsgType MsgType.REQUEST_SEARCH_WITH_CONDITIONS =>
      on_search_with_conditions core socket umr domain_id dat
  | VMsgType MsgType.REQUEST_COUNT_TRANSACTIONS =>
      on_count_transactions core socket umr domain_id dat
  | VMsgType MsgType.REQUEST_TRAVERSE_TRANSACTIONS =>
      on_traverse_transactions core socket umr domain_id dat
  | VMsgType MsgType.REQUEST_GATHER_SIGNATURE =>
      on_gather_signature core socket umr domain_id dat
  | VMsgType MsgType.REQUEST_INSERT =>
      on_insert core socket umr domain_id dat
  | VMsgType MsgType.MESSAGE =>
      on_message core socket umr domain_id dat
  | VMsgType MsgType.REGISTER =>
      on_register core socket umr domain_id dat
  | VMsgType MsgType.UNREGISTER =>
      on_unregister core socket umr domain_id dat
  | _ => ret (false, None)
  end.

(** [_process]: the result is the pair (disconnection, new user info). *)
Definition _process (core : BBcCoreService) (socket : Socket) (dat : Msg)
    : M Processed :=
  update_stats_increment "client" "num_message_receive";;
  do ok <- _param_check core [KeyType.command; KeyType.source_user_id] dat;
  if negb ok then ret (false, None)
  else
    let domain_id := get dat KeyType.domain_id VNone in
    do umr <- resolve_umr core domain_id;
    do cmd <- getitem dat KeyType.command;
    dispatch core socket umr domain_id dat cmd.

(** *** The connection loop *)

(** The inner [while True] of [_handler] over the messages the parser
    holds: the messages left unparsed, the value of [user_info] and the
    exception raised, if any. *)
Fixpoint parse_loop (core : BBcCoreService) (socket : Socket) (pending : list Msg)
    (user_info : option (Value * Value)) (log : list Event)
    : (list Msg * option (Value * Value) * option Exn) * list Event :=
  match pending with
  | [] => (([], user_info, None), log)
  | msg :: rest =>
      match _process core socket msg log with
      | (Raise e, log) => ((rest, user_info, Some e), log)
      | (Ok (disconnection, new_info), log) =>
          if disconnection then ((rest, user_info, None), log)
          else
            let user_info := match new_info with
                             | Some i => Some i
                             | None => user_info
                             end in
            parse_loop core socket rest user_info log
      end
  end.

(** The outer [while True]: each element of [reads] is a non-empty read,
    given by the messages it completes in the parser; the end of the list
    is the read of length zero. *)
Fixpoint recv_loop (core : BBcCoreService) (socket : Socket) (reads : list (list Msg))
    (pending : list Msg) (user_info : option (Value * Value)) (log : list Event)
    : (option (Value * Value) * option Exn) * list Event :=
  match reads with
  | [] => ((user_info, None), log)
  | buf :: reads =>
      match parse_loop core socket (pending ++ buf) user_info log with
      | ((_, user_info, Some e), log) => ((user_info, Some e), log)
      | ((pending, user_info, None), log) => recv_loop core socket reads pending user_info log
      end
  end.

(** [_handler]: the loop, then the unregistration of the user bound to the
    connection and the closing of the socket.  [ev_socket_closed] records
    that the teardown has reached [socket.shutdown] and [socket.close],
    whose exceptions it swallows; the registry of domains is the one of
    the core for the whole connection. *)
Definition _handler (core : BBcCoreService) (socket : Socket) (reads : list (list Msg))
    : M unit :=
  λ log,
    let log := log ++ [ev_stats_increment "client" "total_num"] in
    let '((user_info, _), log) := recv_loop core socket reads [] None log in
    (match user_info with
     | Some (domain_id, user_id) =>
         do '(b, d) <- domains_getitem core domain_id;
         unregister_user (umr_of_domain b d) user_id socket
     | None => ret tt
     end;;
     emit (ev_socket_closed socket);;
     emit (ev_stats_decrement "client" "total_num")) log.

(** ** Observations on results *)

(** The list a result dict holds under [k] (empty when the key is absent). *)
Definition listed (k : string) (r : Msg) : list bytes :=
  match r !! k with
  | Some (VList l) => l
  | _ => []
  end.

(** What [_create_search_result] maintains of [response_info]: its keys are
    the two classification keys and its values are non-empty lists. *)
Definition lists_only (r : Msg) : Prop :=
  ∀ k v, r !! k = Some v →
    (k = KeyType.transactions ∨ k = KeyType.compromised_transactions)
    ∧ ∃ l, v = VList l ∧ l ≠ [].

(** The items of a search result whose claimed id is the id of the object. *)
Definition agreeing (d : list (bytes * BBcTransaction)) : list (bytes * BBcTransaction) :=
  filter (λ kv, kv.1 = transaction_id kv.2) d.

Definition disagreeing (d : list (bytes * BBcTransaction)) : list (bytes * BBcTransaction) :=
  filter (λ kv, kv.1 ≠ transaction_id kv.2) d.

(** The classification the specification asks for: a match is valid when
    its recomputed id agrees with the id it is stored under and the
    validation of the object succeeds (the flag of its result); it is
    compromised otherwise. *)
Definition valid_matches (lib : Bbclib) (d : list (bytes * BBcTransaction))
    : list (bytes * BBcTransaction) :=
  filter (λ kv, kv.1 = transaction_id kv.2
                ∧ (validate_transaction_object lib kv.2).1.1 = true) d.

Definition compromised_matches (lib : Bbclib) (d : list (bytes * BBcTransaction))
    : list (bytes * BBcTransaction) :=
  filter (λ kv, ¬ (kv.1 = transaction_id kv.2
                   ∧ (validate_transaction_object lib kv.2).1.1 = true)) d.

(** The ids settle the classification of every match of the list: none
    has agreeing ids and a validation that fails. *)
Definition settled_by_ids (lib : Bbclib) (d : list (bytes * BBcTransaction)) : Prop :=
  Forall (λ kv, kv.1 = transaction_id kv.2 →
                (validate_transaction_object lib kv.2).1.1 = true) d.

(** ** Observations on walks *)

(** The transaction ids looked up in storage, in order. *)
Definition searched (cs : list StorageCall) : list Value :=
  omap (λ c, match c with
             | call_search_transaction txid => Some txid
             | _ => None
             end) cs.

(** The transaction ids whose topology rows were fetched, in order. *)
Definition expanded (cs : list StorageCall) : list Value :=
  omap (λ c, match c with
             | call_search_transaction_topology txid _ => Some txid
             | _ => None
             end) cs.

(** What the loops over one layer leave alone: the variables of the outer
    loop. *)
Definition inner_frame (w w' : Walk) : Prop :=
  include_all_flag w' = include_all_flag w ∧ txtree w' = txtree w
  ∧ hops w' = hops w ∧ layers w' = layers w
  ∧ current_txids w' = current_txids w.

(** The bookkeeping of the visited ids: the counter is the size of the
    dict, the dict has the ids looked up in storage, each once, and every
    visited id costs at most three storage calls. *)
Definition walk_inv (w : Walk) : Prop :=
  tx_count w = length (txids w) ∧ NoDup (txids w)
  ∧ searched (calls w) = txids w
  ∧ (length (calls w) ≤ 3 * tx_count w)%nat.

(** A record of [dh.get_asset_info] matches all the filters that are set. *)
Definition asset_matches (asset_group_id user_id : Value)
    (record : bytes * bytes * bytes) : Prop :=
  (asset_group_id = VNone ∨ VBytes record.1.1 = asset_group_id)
  ∧ (user_id = VNone ∨ VBytes record.2 = user_id).

(** The serialized transaction a visit of [txid] adds to the layer: the
    transaction is stored and, when a filter is set, passes it. *)
Definition kept (dh : DataHandler) (asset_group_id user_id : Value) (txid : Value)
    : option bytes :=
  match search_transaction dh txid with
  | Some ret_txobj =>
      if (length ret_txobj =? 0)%nat then None
      else
        match dict_get ret_txobj txid with
        | Some txobj =>
            if (bool_decide (asset_group_id ≠ VNone) || bool_decide (user_id ≠ VNone))
               && negb (asset_filter asset_group_id user_id (get_asset_info dh txobj) false)
            then None
            else Some (transaction_data txobj)
        | None => None
        end
  | None => None
  end.

(** The tree is the list of the layers without its empty tail: once a
    layer is empty, no candidate is left for the layers after it. *)
Definition tree_inv (w : Walk) : Prop :=
  ∃ k, layers w = txtree w ++ replicate k []
       ∧ Forall (λ layer, layer ≠ []) (txtree w)
       ∧ ((0 < k)%nat → current_txids w = []).

(** What the tree and the topology calls of a walk hold: every serialized
    transaction of the tree or of the current layer is kept for a visited
    id, and topology rows were fetched for kept transactions only. *)
Definition kept_for (dh : DataHandler) (asset_group_id user_id : Value)
    (ids : list Value) (data : bytes) : Prop :=
  ∃ id, id ∈ ids ∧ kept dh asset_group_id user_id id = Some data.

Definition kept_inv (dh : DataHandler) (asset_group_id user_id : Value) (w : Walk) : Prop :=
  Forall (λ id, is_Some (kept dh asset_group_id user_id id)) (expanded (calls w))
  ∧ Forall (kept_for dh asset_group_id user_id (txids w)) (tx_brothers w)
  ∧ Forall (Forall (kept_for dh asset_group_id user_id (txids w))) (txtree w).

(** The candidates of a layer that get visited: those not visited before,
    each at its first occurrence. *)
Fixpoint fresh (seen : list Value) (ids : list Value) : list Value :=
  match ids with
  | [] => []
  | id :: rest =>
      if bool_decide (id ∈ seen) then fresh seen rest
      else id :: fresh (seen ++ [id]) rest
  end.

(** The message [_distribute_transaction_to_gather_signatures] hands to the
    routing table for the destination [dst], built on the message [msg]. *)
Definition sign_request_msg (dat : Msg) (txdata : Value) (dst : Value) (msg : Msg) : Msg :=
  let msg := <[KeyType.destination_user_id := dst]> msg in
  let msg := match dat !! KeyType.hint with
             | Some h => <[KeyType.hint := h]> msg
             | None => msg
             end in
  let msg := <[KeyType.transaction_data := txdata]> msg in
  match dat !! KeyType.transactions with
  | Some txs => <[KeyType.transactions := txs]> msg
  | None => msg
  end.

(** ** Example data *)

(** A crypto collaborator that rejects every signature. *)
Definition rejecting_lib : Bbclib :=
  {| deserialize := λ _, None;
     digest := transaction_id;
     validate_transaction_object := λ _, (false, [], []) |}.

(** A crypto collaborator that accepts every transaction; serialized
    transactions are their own id. *)
Definition accepting_lib : Bbclib :=
  {| deserialize := λ v, match v with
                         | VBytes b => Some {| transaction_id := b; transaction_data := b |}
                         | _ => None
                         end;
     digest := transaction_id;
     validate_transaction_object := λ _, (true, [], []) |}.

Definition tx (id : bytes) : BBcTransaction :=
  {| transaction_id := id; transaction_data := "data:" +:+ id |}.

(** A storage holding a finite graph: the stored transactions with their
    asset records, and the topology rows as pairs (base, point_to).
    Looking to the past selects the rows whose base is the transaction,
    looking to the future those that point to it. *)
Record Graph := {
  nodes : list (bytes * list (bytes * bytes * bytes));
  edges : list (bytes * bytes);
}.

Definition graph_rows (g : Graph) (b : bytes) (traverse_to_past : bool) : list Topology :=
  (λ e, (0, e.1, e.2)) <$>
    filter (λ e, (if traverse_to_past then e.1 else e.2) = b) (edges g).

Definition graph_assets (g : Graph) (id : bytes) : list (bytes * bytes * bytes) :=
  default [] (snd <$> head (filter (λ n, n.1 = id) (nodes g))).

Definition graph_dh (g : Graph) : DataHandler :=
  {| search_transaction := λ v,
       match v with
       | VBytes b => if bool_decide (b ∈ (nodes g).*1) then Some [(b, tx b)] else Some []
       | _ => Some []
       end;
     search_transaction_by_condition := λ _ _ _ _ _, None;
     count_transactions_in := λ _ _ _, VInt 0;
     search_transaction_topology := λ v past,
       match v with
       | VBytes b => Some (graph_rows g b past)
       | _ => Some []
       end;
     get_asset_info := λ txobj, graph_assets g (transaction_id txobj);
     insert_transaction_in := λ _ _, None |}.

(** Every id that occurs in the graph. *)
Definition graph_ids (g : Graph) : list bytes :=
  remove_dups ((nodes g).*1 ++ (edges g).*1 ++ (edges g).*2).

(** A re-converging graph of twelve transactions: [A] refers to [B1..B6],
    each of which refers to [C1..C5]. *)
Definition diamond : Graph :=
  let bs := ["B1"; "B2"; "B3"; "B4"; "B5"; "B6"] in
  let cs := ["C1"; "C2"; "C3"; "C4"; "C5"] in
  {| nodes := (λ id, (id, [])) <$> ("A" :: bs ++ cs);
     edges := ((λ b, ("A", b)) <$> bs) ++ (b ← bs; (λ c, (b, c)) <$> cs) |}.

(** [A] carries an asset of group [g1] and refers to [B], which carries an
    asset of group [g2]. *)
Definition two_groups : Graph :=
  {| nodes := [("A", [("g1", "a1", "u1")]); ("B", [("g2", "a2", "u1")])];
     edges := [("A", "B")] |}.

(** A single stored transaction that refers to nothing. *)
Definition lone : Graph :=
  {| nodes := [("A", [("g1", "a1", "u1")])]; edges := [] |}.

(** A core that hosts the domain ["D"] over the storage of a graph. *)
Definition graph_domain (g : Graph) : Domain :=
  {| data := graph_dh g; name := "testdomain"; delivers := λ _, true |}.

Definition graph_core (g : Graph) : BBcCoreService :=
  {| domains := {[ "D" := graph_domain g ]}; lib := accepting_lib |}.

(** Requests of the user ["user1"] on the domain ["D"]. *)
Definition request (cmd : MsgType.t) (fields : list (string * Value)) : Msg :=
  list_to_map ([(KeyType.command, VMsgType cmd);
                (KeyType.source_user_id, VBytes "user1");
                (KeyType.query_id, VBytes "q1");
                (KeyType.domain_id, VBytes "D")] ++ fields).

Definition traverse_request (txid : bytes) (hop_count : Z) : Msg :=
  request MsgType.REQUEST_TRAVERSE_TRANSACTIONS
    [(KeyType.transaction_id, VBytes txid);
     (KeyType.direction, VInt 1);
     (KeyType.hop_count, VInt hop_count)].

(** A core whose domain ["D"] has a routing table that delivers nothing. *)
Definition deaf_core : BBcCoreService :=
  {| domains := {[ "D" := {| data := graph_dh lone; name := "testdomain";
                             delivers := λ _, false |} ]};
     lib := accepting_lib |}.

Definition gather_request : Msg :=
  request MsgType.REQUEST_GATHER_SIGNATURE
    [(KeyType.transaction_data, VBytes "A");
     (KeyType.destination_user_ids, VList ["user1"; "user2"; "user3"])].

(** A core whose domain ["D"] answers every search by conditions with
    [result]. *)
Definition condition_dh (result : option (list (bytes * BBcTransaction))) : DataHandler :=
  {| search_transaction := search_transaction (graph_dh lone);
     search_transaction_by_condition := λ _ _ _ _ _, result;
     count_transactions_in := count_transactions_in (graph_dh lone);
     search_transaction_topology := search_transaction_topology (graph_dh lone);
     get_asset_info := get_asset_info (graph_dh lone);
     insert_transaction_in := insert_transaction_in (graph_dh lone) |}.

Definition condition_domain (result : option (list (bytes * BBcTransaction))) : Domain :=
  {| data := condition_dh result; name := "testdomain"; delivers := λ _, true |}.

Definition condition_core (result : option (list (bytes * BBcTransaction)))
    : BBcCoreService :=
  {| domains := {[ "D" := condition_domain result ]}; lib := accepting_lib |}.

Definition search_request : Msg :=
  request MsgType.REQUEST_SEARCH_WITH_CONDITIONS [(KeyType.asset_group_id, VBytes "g1")].

(** A search by id that lacks its required domain id. *)
Definition search_without_domain : Msg :=
  list_to_map [(KeyType.command, VMsgType MsgType.REQUEST_SEARCH_TRANSACTION);
               (KeyType.source_user_id, VBytes "user1");
               (KeyType.query_id, VBytes "q1");
               (KeyType.transaction_id, VBytes "A")].

(** A search by id on the domain ["X"], which no core of these examples
    hosts, that lacks its required transaction id. *)
Definition search_without_txid_on_X : Msg :=
  list_to_map [(KeyType.command, VMsgType MsgType.REQUEST_SEARCH_TRANSACTION);
               (KeyType.source_user_id, VBytes "user1");
               (KeyType.query_id, VBytes "q1");
               (KeyType.domain_id, VBytes "X")].

(** The same on the hosted domain ["D"]. *)
Definition search_without_txid : Msg :=
  request MsgType.REQUEST_SEARCH_TRANSACTION [].

(** An insertion of the serialized transaction ["T1"] on the domain ["X"]. *)
Definition insert_on_X : Msg :=
  list_to_map [(KeyType.command, VMsgType MsgType.REQUEST_INSERT);
               (KeyType.source_user_id, VBytes "user1");
               (KeyType.query_id, VBytes "q1");
               (KeyType.domain_id, VBytes "X");
               (KeyType.transaction_data, VBytes "T1")].

(** ** Further observations and example data *)

(** A traversal request whose transaction id is [None]. *)
Definition traverse_None_request : Msg :=
  request MsgType.REQUEST_TRAVERSE_TRANSACTIONS
    [(KeyType.transaction_id, VNone);
     (KeyType.direction, VInt 1);
     (KeyType.hop_count, VInt 3)].

(** What [_search_transaction_by_txid] returns for the items the storage
    found: the classification with the transaction id, where the first
    valid transaction, or else the first compromised one, replaces its
    list. *)
Definition unwrapped (lib : Bbclib) (txid : Value)
    (items : list (bytes * BBcTransaction)) : Msg :=
  let info := <[KeyType.transaction_id := txid]> (_create_search_result lib items) in
  match agreeing items, disagreeing items with
  | (_, txobj) :: _, _ =>
      delete KeyType.transactions
        (<[KeyType.transaction_data := VBytes (transaction_data txobj)]> info)
  | [], (_, txobj) :: _ =>
      delete KeyType.compromised_transactions
        (<[KeyType.compromised_transaction_data := VBytes (transaction_data txobj)]> info)
  | [], [] => info
  end.

(** A search by id on the hosted domain ["D"]. *)
Definition search_by_id_request (txid : bytes) : Msg :=
  request MsgType.REQUEST_SEARCH_TRANSACTION [(KeyType.transaction_id, VBytes txid)].

(** The notification record of [send_inserted_notification]: the two
    lengths on one byte each, the transaction id, the domain id, the
    number of asset groups on one byte and the asset group ids. *)
Definition notification_frame (transaction_id domain_id : bytes)
    (asset_group_ids : list bytes) : bytes :=
  String (Ascii.ascii_of_nat (String.length transaction_id))
    (String (Ascii.ascii_of_nat (String.length domain_id))
       (transaction_id +:+ domain_id
        +:+ String (Ascii.ascii_of_nat (length asset_group_ids))
              (fold_right String.append "" asset_group_ids))).

(** The object [validate_transaction] works on after [txobj.digest()]. *)
Definition digested (lib : Bbclib) (parsed : BBcTransaction) : BBcTransaction :=
  {| transaction_id := digest lib parsed; transaction_data := transaction_data parsed |}.

(** A core whose domain ["D"] has a storage that accepts every insertion
    and reports the asset group ["g1"]. *)
Definition ledger_dh : DataHandler :=
  {| search_transaction := search_transaction (graph_dh lone);
     search_transaction_by_condition := search_transaction_by_condition (graph_dh lone);
     count_transactions_in := λ _ _ _, VInt 2;
     search_transaction_topology := search_transaction_topology (graph_dh lone);
     get_asset_info := get_asset_info (graph_dh lone);
     insert_transaction_in := λ _ _, Some ["g1"] |}.

Definition ledger_domain : Domain :=
  {| data := ledger_dh; name := "testdomain"; delivers := λ _, true |}.

Definition ledger_core : BBcCoreService :=
  {| domains := {[ "D" := ledger_domain ]}; lib := accepting_lib |}.

Definition insert_request (txdata : bytes) : Msg :=
  request MsgType.REQUEST_INSERT [(KeyType.transaction_data, VBytes txdata)].

(** An error reply: the message with the status and the reason set. *)
Definition error_marked (msg : Msg) (err_code : ErrorCode) (txt : string) : Msg :=
  <[KeyType.reason := VStr txt]> (<[KeyType.status := VError err_code]> msg).

(** The domain of [self.networking.domains] a value names, if any. *)
Definition hosted (core : BBcCoreService) (domain_id : Value) : option (bytes * Domain) :=
  match domain_id with
  | VBytes b => (λ d, (b, d)) <$> domains core !! b
  | _ => None
  end.

(** The value of [umr] in [_process] for a domain id that is a byte
    string. *)
Definition umr_for (core : BBcCoreService) (b : bytes) : Umr :=
  match domains core !! b with
  | Some d => umr_of_domain b d
  | None => umr_dummy (VBytes b)
  end.

(** The values a computation can return. *)
Definition returns {A} (c : M A) (P : A → Prop) : Prop :=
  ∀ log a log', c log = (Ok a, log') → P a.

(** The events a computation adds to the log, whether it returns or
    raises. *)
Definition emits {A} (c : M A) (Q : Event → Prop) : Prop :=
  ∀ log, ∃ evs, (c log).2 = log ++ evs ∧ Forall Q evs.

(** The events of the dispatcher on a connection: everything but the
    closing of a socket and the decrement of a counter, with direct
    sends on the socket of the connection only. *)
Definition service_event (socket : Socket) (e : Event) : Prop :=
  match e with
  | ev_socket_closed _ => False
  | ev_stats_decrement _ _ => False
  | ev_direct_send_to_user s _ => s = socket
  | _ => True
  end.

(** The events of a REQUEST_GATHER_SIGNATURE: the receive counter, a
    REQUEST_SIGNATURE handed to a routing table, or the request itself
    handed back to a routing table as lacking a mandatory key. *)
Definition gather_event (dat : Msg) (e : Event) : Prop :=
  match e with
  | ev_stats_increment category item => category = "client" ∧ item = "num_message_receive"
  | ev_send_message_to_user _ msg _ =>
      msg !! KeyType.command = Some (VMsgType MsgType.REQUEST_SIGNATURE)
      ∨ msg = error_marked dat EINVALID_COMMAND "lack of mandatory params"
  | _ => False
  end.

(** A message whose command is REGISTER. *)
Definition registers (m : Msg) : Prop :=
  m !! KeyType.command = Some (VMsgType MsgType.REGISTER).

(** A message whose command, when it has one, is a command of
    [MsgType.t]: one of the nine that [dispatch] embeds, or one that
    [_process] has no branch for. *)
Definition embedded (m : Msg) : Prop :=
  ∀ cmd, m !! KeyType.command = Some cmd → ∃ t, cmd = VMsgType t.

(** A registration of the user ["user1"] on a domain. *)
Definition register_request (domain_id : bytes) : Msg :=
  list_to_map [(KeyType.command, VMsgType MsgType.REGISTER);
               (KeyType.source_user_id, VBytes "user1");
               (KeyType.domain_id, VBytes domain_id)].

(** A message for ["user2"] on the hosted domain ["D"] that says it is
    not an anycast. *)
Definition message_request : Msg :=
  request MsgType.MESSAGE
    [(KeyType.destination_user_id, VBytes "user2");
     (KeyType.is_anycast, VBool false)].

Definition count_request : Msg :=
  request MsgType.REQUEST_COUNT_TRANSACTIONS [(KeyType.asset_group_id, VBytes "g1")].

(** An insertion whose domain id is [None]. *)
Definition insert_on_None : Msg :=
  list_to_map [(KeyType.command, VMsgType MsgType.REQUEST_INSERT);
               (KeyType.source_user_id, VBytes "user1");
               (KeyType.query_id, VBytes "q1");
               (KeyType.domain_id, VNone);
               (KeyType.transaction_data, VBytes "T1")].

(** * Properties *)

(** ** Search result classification *)

Lemma lists_only_empty : lists_only ∅.
Proof. intros k v H. by rewrite lookup_empty in H. Qed.

Lemma setdefault_append_lists_only k x r :
  k = KeyType.transactions ∨ k = KeyType.compromised_transactions →
  lists_only r → lists_only (setdefault_append k x r).
Proof.
  intros Hk Hr k' v. unfold setdefault_append.
  destruct (r !! k) as [[]|] eqn:E; try apply Hr.
  - rewrite lookup_insert. case_decide; [|apply Hr]. intros [= <-]. subst k'.
    split; [done|]. eexists. split; [done|]. by destruct l.
  - rewrite lookup_insert. case_decide; [|apply Hr]. intros [= <-]. subst k'.
    split; [done|]. eexists. split; [done|]. done.
Qed.

Lemma setdefault_append_listed k x r :
  lists_only r → listed k (setdefault_append k x r) = listed k r ++ [x].
Proof.
  intros Hr. unfold listed, setdefault_append.
  destruct (r !! k) as [v|] eqn:E.
  - destruct (Hr _ _ E) as (_ & l & -> & _). by rewrite lookup_insert_eq.
  - by rewrite lookup_insert_eq.
Qed.

Lemma setdefault_append_listed_ne k k' x r :
  k ≠ k' → listed k' (setdefault_append k x r) = listed k' r.
Proof.
  intros Hne. unfold listed, setdefault_append.
  destruct (r !! k) as [[]|] eqn:E; try done; by rewrite lookup_insert_ne.
Qed.

Lemma classify_lists_only lib r item :
  lists_only r → lists_only (classify lib r item).
Proof.
  intros Hr. destruct item as [txid txobj]. unfold classify.
  repeat case_match; apply setdefault_append_lists_only; auto.
Qed.

(** The branch on the validation result is always taken: a transaction
    whose ids agree is appended to the valid list. *)
Lemma classify_agreeing lib r txid txobj :
  txid = transaction_id txobj →
  classify lib r (txid, txobj) =
    setdefault_append KeyType.transactions (transaction_data txobj) r.
Proof.
  intros ->. unfold classify. rewrite bool_decide_eq_false_2 by (intros H; by apply H).
  reflexivity.
Qed.

Lemma classify_disagreeing lib r txid txobj :
  txid ≠ transaction_id txobj →
  classify lib r (txid, txobj) =
    setdefault_append KeyType.compromised_transactions (transaction_data txobj) r.
Proof. intros H. unfold classify. by rewrite bool_decide_eq_true_2. Qed.

Lemma fold_classify_listed lib d r :
  lists_only r →
  lists_only (fold_left (classify lib) d r)
  ∧ listed KeyType.transactions (fold_left (classify lib) d r)
    = listed KeyType.transactions r ++ ((transaction_data ∘ snd) <$> agreeing d)
  ∧ listed KeyType.compromised_transactions (fold_left (classify lib) d r)
    = listed KeyType.compromised_transactions r
      ++ ((transaction_data ∘ snd) <$> disagreeing d).
Proof.
  revert r. induction d as [|[txid txobj] d IH]; intros r Hr; cbn [fold_left].
  - unfold agreeing, disagreeing. simpl. by rewrite !app_nil_r.
  - destruct (IH (classify lib r (txid, txobj))) as (Hl & Ht & Hc);
      [by apply classify_lists_only|].
    split; [done|]. rewrite Ht, Hc. unfold agreeing, disagreeing.
    rewrite !filter_cons. cbn [fst snd].
    destruct (decide (txid = transaction_id txobj)) as [Heq|Hne].
    + rewrite classify_agreeing by done.
      rewrite setdefault_append_listed by done.
      rewrite setdefault_append_listed_ne by done.
      rewrite decide_False by (intros H; by apply H).
      simpl. by rewrite <- !app_assoc.
    + rewrite classify_disagreeing by done.
      rewrite setdefault_append_listed by done.
      rewrite setdefault_append_listed_ne by done.
      rewrite decide_True by done.
      simpl. by rewrite <- !app_assoc.
Qed.

(** What [_create_search_result] lists under the valid key: the data of
    every pair whose ids agree, whatever the signature validation says. *)
Lemma create_search_result_transactions lib d :
  listed KeyType.transactions (_create_search_result lib d)
  = (transaction_data ∘ snd) <$> agreeing d.
Proof.
  destruct (fold_classify_listed lib d ∅ lists_only_empty) as (_ & H & _).
  unfold _create_search_result. rewrite H. reflexivity.
Qed.

(** What it lists under the compromised key: the data of every pair whose
    ids differ, and of no other. *)
Lemma create_search_result_compromised lib d :
  listed KeyType.compromised_transactions (_create_search_result lib d)
  = (transaction_data ∘ snd) <$> disagreeing d.
Proof.
  destruct (fold_classify_listed lib d ∅ lists_only_empty) as (_ & _ & H).
  unfold _create_search_result. rewrite H. reflexivity.
Qed.

(** C1 (the code at the failing input): a stored transaction whose id
    agrees with the claimed id but whose signature validation fails is
    reported under the valid key [transactions], and nothing is reported
    under [compromised_transactions]: the three-component result of the
    validation is used as a condition, so the branch for a failed
    validation is never taken. *)
Theorem C1_failed_validation_listed_valid :
  validate_transaction_object rejecting_lib (tx "T1") = (false, [], [])
  ∧ _create_search_result rejecting_lib [("T1", tx "T1")]
    = {[ KeyType.transactions := VList [transaction_data (tx "T1")] ]}
  ∧ _create_search_result rejecting_lib [("T1", tx "T1")]
      !! KeyType.compromised_transactions = None.
Proof. split; [reflexivity|]. split; by vm_compute. Qed.

(** ** The traversal: bookkeeping *)

Lemma inner_frame_refl w : inner_frame w w.
Proof. by repeat split. Qed.

Lemma inner_frame_trans w1 w2 w3 :
  inner_frame w1 w2 → inner_frame w2 w3 → inner_frame w1 w3.
Proof. unfold inner_frame. intros (?&?&?&?&?) (?&?&?&?&?). repeat split; congruence. Qed.

Lemma searched_app cs cs' : searched (cs ++ cs') = searched cs ++ searched cs'.
Proof. unfold searched. apply omap_app. Qed.

Lemma expanded_app cs cs' : expanded (cs ++ cs') = expanded cs ++ expanded cs'.
Proof. unfold expanded. apply omap_app. Qed.

(** The loop over the topology rows only appends to [next_txids]. *)
Lemma expand_rows past rows w :
  let w' := fold_left (expand past) rows w in
  inner_frame w w' ∧ tx_count w' = tx_count w ∧ txids w' = txids w
  ∧ calls w' = calls w ∧ tx_brothers w' = tx_brothers w
  ∧ ∃ more, next_txids w' = next_txids w ++ more.
Proof.
  revert w. induction rows as [|[[i base] point_to] rows IH]; intros w; cbn [fold_left].
  - repeat split; try done. exists []. by rewrite app_nil_r.
  - destruct (IH (expand past w (i, base, point_to))) as (Hf & Hc & Ht & Hcs & Hb & more & Hn).
    cbv zeta. unfold expand in *.
    case_bool_decide; simpl in *.
    + destruct Hf as (?&?&?&?&?). repeat split; try done.
      exists (VBytes (if past then point_to else base) :: more).
      rewrite Hn. by rewrite <- app_assoc.
    + repeat split; try done; try apply Hf. by exists more.
Qed.

Lemma visit_frame dh ag uid past w txid :
  inner_frame w (visit dh ag uid past w txid).1.
Proof.
  unfold visit.
  repeat (case_match; try apply inner_frame_refl); simpl;
    try (by repeat split);
    try (eapply inner_frame_trans; [|apply expand_rows]; by repeat split).
Qed.

Lemma visit_all_frame dh ag uid past ids w :
  inner_frame w (visit_all dh ag uid past w ids).1.
Proof.
  revert w. induction ids as [|txid ids IH]; intros w; simpl.
  - apply inner_frame_refl.
  - pose proof (visit_frame dh ag uid past w txid) as Hv.
    destruct (visit dh ag uid past w txid) as [w' [e|]]; simpl in *; [done|].
    eapply inner_frame_trans; [exact Hv|apply IH].
Qed.

Lemma expand_rows_tx_count past rows w :
  tx_count (fold_left (expand past) rows w) = tx_count w.
Proof. apply (expand_rows past rows w). Qed.

Lemma expand_rows_txids past rows w :
  txids (fold_left (expand past) rows w) = txids w.
Proof. apply (expand_rows past rows w). Qed.

Lemma expand_rows_calls past rows w :
  calls (fold_left (expand past) rows w) = calls w.
Proof. apply (expand_rows past rows w). Qed.

Lemma expand_rows_tx_brothers past rows w :
  tx_brothers (fold_left (expand past) rows w) = tx_brothers w.
Proof. apply (expand_rows past rows w). Qed.

Ltac through_rows :=
  rewrite ?expand_rows_tx_count, ?expand_rows_txids, ?expand_rows_calls,
    ?expand_rows_tx_brothers.

Lemma NoDup_snoc_fresh (l : list Value) (x : Value) :
  NoDup l → x ∉ l → NoDup (l ++ [x]).
Proof.
  intros Hl Hx. apply NoDup_app. split; [done|]. split; [|apply NoDup_singleton].
  intros y Hy Hy'. apply list_elem_of_singleton in Hy'. by subst.
Qed.

Lemma visit_inv dh ag uid past w txid :
  walk_inv w → walk_inv (visit dh ag uid past w txid).1.
Proof.
  intros (Hc & Hn & Hs & Hl). unfold visit.
  repeat (case_match; try (by repeat split)); simpl.
  all: match goal with H : bool_decide (_ ∈ _) = false |- _ =>
         apply bool_decide_eq_false in H end.
  all: unfold walk_inv; through_rows; simpl;
    rewrite ?searched_app, ?length_app; simpl;
    rewrite ?app_nil_r, ?Hs, ?length_app; simpl.
  all: split; [lia|]; split; [by apply NoDup_snoc_fresh|]; split; [done|]; lia.
Qed.

Lemma visit_tx_count dh ag uid past w txid :
  (tx_count w ≤ tx_count (visit dh ag uid past w txid).1 ≤ S (tx_count w))%nat.
Proof.
  unfold visit. repeat (case_match; try (simpl; lia)); simpl; through_rows; simpl; lia.
Qed.

Lemma visit_all_inv dh ag uid past ids w :
  walk_inv w → walk_inv (visit_all dh ag uid past w ids).1.
Proof.
  revert w. induction ids as [|txid ids IH]; intros w Hw; simpl; [done|].
  pose proof (visit_inv dh ag uid past w txid Hw) as Hv.
  destruct (visit dh ag uid past w txid) as [w' [e|]]; simpl in *; [done|].
  by apply IH.
Qed.

Lemma visit_all_tx_count dh ag uid past ids w :
  (tx_count w ≤ tx_count (visit_all dh ag uid past w ids).1 ≤ tx_count w + length ids)%nat.
Proof.
  revert w. induction ids as [|txid ids IH]; intros w; simpl; [lia|].
  pose proof (visit_tx_count dh ag uid past w txid) as Hv.
  destruct (visit dh ag uid past w txid) as [w' [e|]]; simpl in *; [lia|].
  specialize (IH w'). lia.
Qed.

Lemma walk_inv_ext w w' :
  tx_count w' = tx_count w → txids w' = txids w → calls w' = calls w →
  walk_inv w → walk_inv w'.
Proof. unfold walk_inv. intros -> -> ->. done. Qed.

(** Candidates for the next layer come only from transactions that joined
    the current layer. *)
Lemma visit_barren dh ag uid past w txid :
  (tx_brothers w = [] → next_txids w = []) →
  let w' := (visit dh ag uid past w txid).1 in
  tx_brothers w' = [] → next_txids w' = [].
Proof.
  intros Hw. unfold visit.
  repeat (case_match; try done); simpl; through_rows; simpl; try done.
  all: intros Hb; by apply app_nil in Hb as [_ [=]].
Qed.

Lemma visit_all_barren dh ag uid past ids w :
  (tx_brothers w = [] → next_txids w = []) →
  let w' := (visit_all dh ag uid past w ids).1 in
  tx_brothers w' = [] → next_txids w' = [].
Proof.
  revert w. induction ids as [|txid ids IH]; intros w Hw; simpl; [done|].
  pose proof (visit_barren dh ag uid past w txid Hw) as Hv.
  destruct (visit dh ag uid past w txid) as [w' [e|]]; simpl in *; [done|].
  by apply IH.
Qed.

(** The visited count stays within [TX_TRAVERSAL_MAX] and at most [n] more
    layers are entered. *)
Lemma traverse_loop_inv dh ag uid past n w :
  walk_inv w → (tx_count w ≤ TX_TRAVERSAL_MAX)%nat →
  let w' := (traverse_loop dh ag uid past n w).1 in
  walk_inv w' ∧ (tx_count w' ≤ TX_TRAVERSAL_MAX)%nat
  ∧ (hops w ≤ hops w' ≤ hops w + n)%nat.
Proof.
  revert w. induction n as [|n IH]; intros w Hw Hc; cbn [traverse_loop].
  - simpl. split; [done|]. split; [done|]. lia.
  - cbv zeta. destruct (_ <? _)%nat eqn:Hcap.
    + simpl. split; [by apply (walk_inv_ext w)|]. split; [done|]. lia.
    + apply Nat.ltb_ge in Hcap. simpl in Hcap.
      pose proof (visit_all_inv dh ag uid past (current_txids w) (count_hop (begin_layer w))) as Hi.
      pose proof (visit_all_tx_count dh ag uid past (current_txids w) (count_hop (begin_layer w))) as Ht.
      pose proof (visit_all_frame dh ag uid past (current_txids w) (count_hop (begin_layer w))) as Hf.
      simpl in Hi, Ht, Hf. cbn [current_txids begin_layer].
      destruct (visit_all _ _ _ _ _ _) as [w1 [e|]]; simpl in *.
      * destruct Hf as (_ & _ & Hh & _). simpl in Hh.
        split; [by apply Hi, (walk_inv_ext w)|].
        split; lia.
      * destruct Hf as (_ & _ & Hh & _). simpl in Hh.
        destruct (IH (end_layer w1)) as (H1 & H2 & H3).
        -- apply (walk_inv_ext w1); try done. by apply Hi, (walk_inv_ext w).
        -- simpl. lia.
        -- simpl in H3. split; [done|]. split; lia.
Qed.

(** Without an exception, the flag survives exactly when it was set and
    all the [n] layers were entered. *)
Lemma traverse_loop_flag dh ag uid past n w :
  let r := traverse_loop dh ag uid past n w in
  r.2 = None →
  include_all_flag r.1 = include_all_flag w && bool_decide (hops r.1 = (hops w + n)%nat).
Proof.
  revert w. induction n as [|n IH]; intros w; cbn [traverse_loop].
  - simpl. intros _. rewrite bool_decide_eq_true_2 by lia. by rewrite andb_true_r.
  - cbv zeta. destruct (_ <? _)%nat eqn:Hcap.
    + simpl. intros _. rewrite bool_decide_eq_false_2 by lia. by rewrite andb_false_r.
    + pose proof (visit_all_frame dh ag uid past (current_txids w) (count_hop (begin_layer w))) as Hf.
      cbn [current_txids begin_layer].
      destruct (visit_all _ _ _ _ _ _) as [w1 [e|]]; simpl in *; [done|].
      destruct Hf as (Hfl & _ & Hh & _). simpl in Hfl, Hh.
      intros Hr. rewrite (IH (end_layer w1) Hr). simpl. rewrite Hfl, Hh.
      f_equal. apply bool_decide_ext. lia.
Qed.

Lemma traverse_loop_tree dh ag uid past n w :
  tree_inv w → tree_inv (traverse_loop dh ag uid past n w).1.
Proof.
  revert w. induction n as [|n IH]; intros w Hw; cbn [traverse_loop]; [done|].
  cbv zeta. destruct (_ <? _)%nat eqn:Hcap; [done|].
  pose proof (visit_all_frame dh ag uid past (current_txids w) (count_hop (begin_layer w))) as Hf.
  pose proof (visit_all_barren dh ag uid past (current_txids w) (count_hop (begin_layer w))
                (λ _, eq_refl)) as Hb.
  cbn [current_txids begin_layer].
  destruct (visit_all _ _ _ _ _ _) as [w1 [e|]] eqn:Hva; simpl in *;
    destruct Hf as (_ & Htree & _ & Hlay & Hcur); destruct Hw as (k & Hk & Hne & Hk0).
  - exists k. rewrite Htree, Hlay, Hcur. done.
  - apply IH. unfold tree_inv. simpl. rewrite Htree, Hlay.
    destruct (tx_brothers w1) as [|x br] eqn:Hbr; simpl.
    + exists (S k). rewrite replicate_S_end, app_assoc, <- Hk.
      split; [done|]. split; [done|]. intros _. by apply Hb.
    + destruct k as [|k].
      * exists 0%nat. simpl in *. rewrite app_nil_r in *. rewrite Hk.
        split; [done|]. split; [|intros; lia].
        apply Forall_app. split; [done|]. by apply Forall_singleton.
      * rewrite Hk0 in Hva by lia. simpl in Hva. injection Hva as <-. done.
Qed.

Lemma traverse_loop_flag_false dh ag uid past n w :
  include_all_flag w = false →
  include_all_flag (traverse_loop dh ag uid past n w).1 = false.
Proof.
  revert w. induction n as [|n IH]; intros w Hw; cbn [traverse_loop]; [done|].
  cbv zeta. destruct (_ <? _)%nat; [done|].
  pose proof (visit_all_frame dh ag uid past (current_txids w) (count_hop (begin_layer w))) as Hf.
  cbn [current_txids begin_layer].
  destruct (visit_all _ _ _ _ _ _) as [w1 [e|]]; simpl in *;
    destruct Hf as (Hfl & _); simpl in Hfl.
  - congruence.
  - apply IH. simpl. congruence.
Qed.

(** A layer that does not fit is not processed: the loop ends there with
    the flag cleared, and the tree, the visited ids and the storage calls
    are those gathered so far. *)
Lemma traverse_loop_cap dh ag uid past n w :
  (TX_TRAVERSAL_MAX < tx_count w + length (current_txids w))%nat →
  let r := traverse_loop dh ag uid past (S n) w in
  r.2 = None ∧ include_all_flag r.1 = false ∧ txtree r.1 = txtree w
  ∧ txids r.1 = txids w ∧ calls r.1 = calls w ∧ hops r.1 = hops w.
Proof.
  intros Hcap. cbn [traverse_loop]. cbv zeta.
  cbn [tx_count current_txids begin_layer].
  apply Nat.ltb_lt in Hcap. rewrite Hcap. by repeat split.
Qed.

Lemma initial_walk_inv txid : walk_inv (initial_walk txid).
Proof. unfold walk_inv. simpl. split; [done|]. split; [apply NoDup_nil_2|]. split; [done|]. lia. Qed.

Lemma initial_walk_tree txid : tree_inv (initial_walk txid).
Proof. exists 0%nat. simpl. split; [done|]. split; [done|]. lia. Qed.

(** The number of layers the loop is asked for. *)
Lemma traverse_unfold dh txid ag uid dir h :
  traverse dh txid ag uid dir h =
    if (60 <? h)%Z
    then traverse_loop dh ag uid (eq_one dir) 60 (clear_flag (initial_walk txid))
    else traverse_loop dh ag uid (eq_one dir) (Z.to_nat h) (initial_walk txid).
Proof.
  unfold traverse. change (Z.of_nat (TX_TRAVERSAL_MAX * 2)) with 60%Z.
  by destruct (60 <? h)%Z.
Qed.

Lemma traverse_inv dh txid ag uid dir h :
  let w := (traverse dh txid ag uid dir h).1 in
  walk_inv w ∧ (tx_count w ≤ TX_TRAVERSAL_MAX)%nat
  ∧ (hops w ≤ 2 * TX_TRAVERSAL_MAX)%nat ∧ (Z.of_nat (hops w) ≤ Z.max 0 h)%Z.
Proof.
  rewrite traverse_unfold. destruct (60 <? h)%Z eqn:Hh.
  - apply Z.ltb_lt in Hh.
    destruct (traverse_loop_inv dh ag uid (eq_one dir) 60 (clear_flag (initial_walk txid)))
      as (H1 & H2 & H3); [apply initial_walk_inv|simpl; lia|].
    change (hops (clear_flag (initial_walk txid))) with 0%nat in H3.
    split; [done|]. split; [done|]. unfold TX_TRAVERSAL_MAX. lia.
  - apply Z.ltb_ge in Hh.
    destruct (traverse_loop_inv dh ag uid (eq_one dir) (Z.to_nat h) (initial_walk txid))
      as (H1 & H2 & H3); [apply initial_walk_inv|simpl; lia|].
    change (hops (initial_walk txid)) with 0%nat in H3.
    split; [done|]. split; [done|]. unfold TX_TRAVERSAL_MAX. lia.
Qed.

(** ** The service functions on a registered domain *)

(** [_traverse_transactions] on a registered domain, for a start id that
    is not [None] and an integer hop count: it runs the walk, and returns
    its flag and tree unless the walk raises. *)
Lemma traverse_transactions_registered core b d txid ag uid dir h log :
  domains core !! b = Some d → txid ≠ VNone →
  _traverse_transactions core (VBytes b) txid ag uid dir (VInt h) log =
    let r := traverse (data d) txid ag uid dir h in
    (match r.2 with
     | Some e => Raise e
     | None => Ok (Some (include_all_flag r.1, txtree r.1))
     end,
     log ++ [ev_stats_increment "transaction" "search_count"]
         ++ (ev_storage b <$> calls r.1)).
Proof.
  intros Hd Hne. unfold _traverse_transactions, bind, update_stats_increment, emit.
  rewrite bool_decide_eq_false_2 by done.
  rewrite (bool_decide_eq_false_2 (txid = VNone)) by done.
  unfold domains_getitem. simpl. rewrite Hd. unfold ret. simpl.
  destruct (traverse (data d) txid ag uid dir h) as [w [e|]]; simpl;
    unfold emit_all, raise; by rewrite <- app_assoc.
Qed.

(** ** The caps of the traversal *)

(** C2: a call of [_traverse_transactions] on a registered domain with a
    start id that is not [None] runs a walk that looks up at most 30
    transaction ids, all distinct, and enters at most 60 layers; a hop
    count above 60 runs the loop for 60 layers with the flag cleared; and
    a layer whose candidates would take the visited count past 30 is not
    processed: the loop returns there, without raising, with the flag
    cleared and the tree, visited ids and storage calls gathered so far. *)
Theorem C2_traversal_caps core b d txid ag uid dir h log :
  domains core !! b = Some d → txid ≠ VNone →
  let r := traverse (data d) txid ag uid dir h in
  _traverse_transactions core (VBytes b) txid ag uid dir (VInt h) log =
    (match r.2 with
     | Some e => Raise e
     | None => Ok (Some (include_all_flag r.1, txtree r.1))
     end,
     log ++ [ev_stats_increment "transaction" "search_count"]
         ++ (ev_storage b <$> calls r.1))
  ∧ NoDup (txids r.1) ∧ searched (calls r.1) = txids r.1
  ∧ (length (txids r.1) ≤ 30)%nat
  ∧ (hops r.1 ≤ 60)%nat
  ∧ (60 < h →
     r = traverse_loop (data d) ag uid (eq_one dir) 60 (clear_flag (initial_walk txid))
     ∧ include_all_flag r.1 = false)
  ∧ (∀ n w, (30 < tx_count w + length (current_txids w))%nat →
       let r' := traverse_loop (data d) ag uid (eq_one dir) (S n) w in
       r'.2 = None ∧ include_all_flag r'.1 = false ∧ txtree r'.1 = txtree w
       ∧ txids r'.1 = txids w ∧ calls r'.1 = calls w ∧ hops r'.1 = hops w).
Proof.
  intros Hd Hne r.
  split; [by apply traverse_transactions_registered|].
  destruct (traverse_inv (data d) txid ag uid dir h) as ((Hc & Hn & Hs & _) & Hcap & Hh & _).
  fold r in Hc, Hn, Hs, Hcap, Hh.
  split; [done|]. split; [done|].
  split; [rewrite <- Hc; exact Hcap|].
  split; [exact Hh|].
  split.
  - intros Hbig. subst r. rewrite traverse_unfold.
    apply Z.ltb_lt in Hbig. rewrite Hbig. split; [done|].
    by apply traverse_loop_flag_false.
  - intros n w Hw. by apply traverse_loop_cap.
Qed.

Lemma C2_traversal_caps_witness :
  domains (graph_core diamond) !! "D" = Some (graph_domain diamond)
  ∧ VBytes "A" ≠ VNone
  ∧ let r := traverse (graph_dh diamond) (VBytes "A") VNone VNone (VInt 1) 3 in
    NoDup (txids r.1) ∧ (length (txids r.1) ≤ 30)%nat ∧ (hops r.1 ≤ 60)%nat.
Proof.
  assert (H1 : domains (graph_core diamond) !! "D" = Some (graph_domain diamond))
    by reflexivity.
  assert (H2 : VBytes "A" ≠ VNone) by discriminate.
  split; [exact H1|]. split; [exact H2|].
  destruct (C2_traversal_caps (graph_core diamond) "D" (graph_domain diamond)
              (VBytes "A") VNone VNone (VInt 1) 3 [] H1 H2)
    as (_ & Hn & _ & Hl & Hh & _).
  exact (conj Hn (conj Hl Hh)).
Defined.

(** ** Termination, single resolution and the flag *)

Lemma traverse_loop_hops_mono dh ag uid past n w :
  (hops w ≤ hops (traverse_loop dh ag uid past n w).1)%nat.
Proof.
  revert w. induction n as [|n IH]; intros w; cbn [traverse_loop]; [done|].
  cbv zeta. destruct (_ <? _)%nat; [done|].
  pose proof (visit_all_frame dh ag uid past (current_txids w) (count_hop (begin_layer w))) as Hf.
  cbn [current_txids begin_layer].
  destruct (visit_all _ _ _ _ _ _) as [w1 [e|]]; simpl in *;
    destruct Hf as (_ & _ & Hh & _); simpl in Hh.
  - lia.
  - specialize (IH (end_layer w1)). simpl in IH. lia.
Qed.

(** A layer is entered exactly when its candidates, repetitions counted,
    fit under the cap with the ids visited so far. *)
Lemma traverse_loop_enters dh ag uid past n w :
  (hops w < hops (traverse_loop dh ag uid past (S n) w).1)%nat
  ↔ (tx_count w + length (current_txids w) ≤ TX_TRAVERSAL_MAX)%nat.
Proof.
  split.
  - intros Hlt. destruct (decide (tx_count w + length (current_txids w) ≤ TX_TRAVERSAL_MAX)%nat)
      as [|Hno]; [done|].
    destruct (traverse_loop_cap dh ag uid past n w) as (_ & _ & _ & _ & _ & Hh); lia.
  - intros Hfit. cbn [traverse_loop]. cbv zeta.
    cbn [tx_count current_txids begin_layer].
    apply Nat.ltb_ge in Hfit. rewrite Hfit.
    pose proof (visit_all_frame dh ag uid past (current_txids w) (count_hop (begin_layer w))) as Hf.
    destruct (visit_all _ _ _ _ _ _) as [w1 [e|]]; simpl in *;
      destruct Hf as (_ & _ & Hh & _); simpl in Hh.
    + lia.
    + pose proof (traverse_loop_hops_mono dh ag uid past n (end_layer w1)) as Hm.
      simpl in Hm. lia.
Qed.

(** The flag of a walk that does not raise. *)
Lemma traverse_flag dh txid ag uid dir h :
  let r := traverse dh txid ag uid dir h in
  r.2 = None →
  (include_all_flag r.1 = true ↔ (h ≤ 60)%Z ∧ hops r.1 = Z.to_nat h).
Proof.
  cbv zeta. rewrite traverse_unfold. destruct (60 <? h)%Z eqn:Hh.
  - apply Z.ltb_lt in Hh. intros _.
    rewrite traverse_loop_flag_false by done. split; [done|]. lia.
  - apply Z.ltb_ge in Hh. intros Hr.
    rewrite (traverse_loop_flag _ _ _ _ _ _ Hr). simpl.
    rewrite bool_decide_eq_true. tauto.
Qed.

Lemma graph_rows_in_ids g id past row :
  row ∈ graph_rows g id past →
  row.1.2 ∈ graph_ids g ∧ row.2 ∈ graph_ids g.
Proof.
  unfold graph_rows, graph_ids. intros Hrow.
  apply list_elem_of_fmap in Hrow as (e & -> & He).
  apply list_elem_of_filter in He as [_ He]. simpl.
  rewrite !elem_of_remove_dups, !elem_of_app, !list_elem_of_fmap.
  split; [right; left|right; right]; by exists e.
Qed.

(** C7 (counterexample): in the re-converging graph [diamond], whose
    storage holds twelve transaction ids in all, a backward walk of three
    hops from [A] does not raise and yet returns with the flag cleared:
    the second layer lists [C1..C5] once for each of [B1..B6], and these
    thirty candidates are counted against the cap. *)
Lemma C7_reconverging_graph_clears_flag :
  let r := traverse (graph_dh diamond) (VBytes "A") VNone VNone (VInt 1) 3 in
  length (graph_ids diamond) = 12%nat
  ∧ (∀ id past row, row ∈ graph_rows diamond id past →
       row.1.2 ∈ graph_ids diamond ∧ row.2 ∈ graph_ids diamond)
  ∧ r.2 = None
  ∧ txids r.1 = VBytes <$> ["A"; "B1"; "B2"; "B3"; "B4"; "B5"; "B6"]
  ∧ include_all_flag r.1 = false.
Proof.
  cbv zeta. split; [by vm_compute|]. split; [apply graph_rows_in_ids|].
  by vm_compute.
Qed.

(** C7 (amended): for every hop count and every storage, the walk is a
    total function of its inputs that makes at most 90 storage calls and
    enters at most 60 layers; no transaction id is looked up in storage
    more than once; and, when the walk does not raise, the flag is set
    exactly when the hop count is at most 60 and every requested layer was
    entered, a layer being entered exactly when the ids visited so far and
    the candidates of the layer, repetitions counted, number at most 30. *)
Theorem C7_terminates_resolves_once dh txid ag uid dir h :
  let r := traverse dh txid ag uid dir h in
  NoDup (searched (calls r.1))
  ∧ (length (calls r.1) ≤ 90)%nat
  ∧ (hops r.1 ≤ 60)%nat
  ∧ (r.2 = None →
     (include_all_flag r.1 = true ↔ (h ≤ 60)%Z ∧ hops r.1 = Z.to_nat h))
  ∧ (∀ n w,
       (hops w < hops (traverse_loop dh ag uid (eq_one dir) (S n) w).1)%nat
       ↔ (tx_count w + length (current_txids w) ≤ 30)%nat).
Proof.
  intros r.
  destruct (traverse_inv dh txid ag uid dir h) as ((Hc & Hn & Hs & Hl) & Hcap & Hh & _).
  fold r in Hc, Hn, Hs, Hl, Hcap, Hh.
  split; [by rewrite Hs|].
  split; [unfold TX_TRAVERSAL_MAX in Hcap; lia|].
  split; [exact Hh|].
  split; [apply traverse_flag|].
  intros n w. apply traverse_loop_enters.
Qed.

(** ** The filter *)

(** The loop over the asset records leaves [flag] set exactly when a record
    matches all the filters that are set. *)
Lemma asset_filter_spec ag uid infos :
  asset_filter ag uid infos false = true
  ↔ ∃ record, record ∈ infos ∧ asset_matches ag uid record.
Proof.
  induction infos as [|[[asgid aid] u] infos IH]; cbn [asset_filter].
  - split; [done|]. intros (r & Hr & _). by apply elem_of_nil in Hr.
  - assert (Hhead :
      (if bool_decide (uid ≠ VNone) && bool_decide (VBytes u ≠ uid) then false
       else if bool_decide (ag ≠ VNone) && bool_decide (VBytes asgid ≠ ag)
            then false else true) = true
      ↔ asset_matches ag uid (asgid, aid, u)).
    { unfold asset_matches. simpl.
      repeat case_bool_decide; simpl;
        repeat match goal with H : ¬ (_ ≠ _) |- _ => apply dec_stable in H end;
        intuition congruence. }
    destruct (if bool_decide (uid ≠ VNone) && bool_decide (VBytes u ≠ uid) then false
              else if bool_decide (ag ≠ VNone) && bool_decide (VBytes asgid ≠ ag)
                   then false else true) eqn:E.
    + split; [|done]. intros _. exists (asgid, aid, u). split; [left|by apply Hhead].
    + rewrite IH. split.
      * intros (r & Hr & Hm). exists r. split; [by right|done].
      * intros (r & Hr & Hm). apply elem_of_cons in Hr as [->|Hr].
        -- apply Hhead in Hm. done.
        -- by exists r.
Qed.

(** One visit: either nothing changes, or the id is new and marked, and
    then the transaction joins the layer and has its topology rows fetched
    exactly when it is kept. *)
Lemma visit_result dh ag uid past w txid :
  let w' := (visit dh ag uid past w txid).1 in
  w' = w
  ∨ ((txid ∉ txids w) ∧ txids w' = txids w ++ [txid]
     ∧ match kept dh ag uid txid with
       | Some data =>
           tx_brothers w' = tx_brothers w ++ [data]
           ∧ expanded (calls w') = expanded (calls w) ++ [txid]
       | None =>
           tx_brothers w' = tx_brothers w ∧ next_txids w' = next_txids w
           ∧ expanded (calls w') = expanded (calls w)
       end).
Proof.
  unfold visit, kept.
  destruct (negb (hashable txid)); [by left|].
  case_bool_decide as Hin; [by left|]. right. split; [done|].
  assert (Hsearch : ∀ cs, expanded (cs ++ [call_search_transaction txid]) = expanded cs).
  { intros cs. rewrite expanded_app. simpl. by rewrite app_nil_r. }
  assert (Hasset : ∀ cs t, expanded (cs ++ [call_get_asset_info t]) = expanded cs).
  { intros cs t. rewrite expanded_app. simpl. by rewrite app_nil_r. }
  assert (Htopo : ∀ cs, expanded (cs ++ [call_search_transaction_topology txid past])
                        = expanded cs ++ [txid]).
  { intros cs. by rewrite expanded_app. }
  destruct (search_transaction dh txid) as [ret_txobj|]; [|simpl; by rewrite Hsearch].
  destruct (length ret_txobj =? 0)%nat; [simpl; by rewrite Hsearch|].
  destruct (dict_get ret_txobj txid) as [txobj|]; [|simpl; by rewrite Hsearch].
  cbv zeta.
  destruct (bool_decide (ag ≠ VNone) || bool_decide (uid ≠ VNone)) eqn:Hf;
    [destruct (asset_filter ag uid (get_asset_info dh txobj) false)|]; simpl.
  - destruct (search_transaction_topology dh txid past); simpl; through_rows; simpl;
      by rewrite Htopo, Hasset, Hsearch.
  - by rewrite Hasset, Hsearch.
  - destruct (search_transaction_topology dh txid past); simpl; through_rows; simpl;
      by rewrite Htopo, Hsearch.
Qed.

(** A kept transaction is stored and, when a filter is set, has an asset
    record that matches all the filters set. *)
Lemma kept_Some dh ag uid id data :
  kept dh ag uid id = Some data →
  ∃ ret_txobj txobj,
    search_transaction dh id = Some ret_txobj
    ∧ dict_get ret_txobj id = Some txobj
    ∧ data = transaction_data txobj
    ∧ ((ag = VNone ∧ uid = VNone)
       ∨ ∃ record, record ∈ get_asset_info dh txobj ∧ asset_matches ag uid record).
Proof.
  unfold kept. intros H.
  destruct (search_transaction dh id) as [ret_txobj|] eqn:Hs; [|done].
  destruct (length ret_txobj =? 0)%nat; [done|].
  destruct (dict_get ret_txobj id) as [txobj|] eqn:Hd; [|done].
  exists ret_txobj, txobj. split; [done|]. split; [done|].
  destruct (bool_decide (ag ≠ VNone) || bool_decide (uid ≠ VNone)) eqn:Hf.
  - destruct (asset_filter ag uid (get_asset_info dh txobj) false) eqn:Ha;
      simpl in H; [|done].
    injection H as <-. split; [done|]. right. by apply asset_filter_spec.
  - simpl in H. injection H as <-. split; [done|]. left.
    apply orb_false_iff in Hf as [H1 H2].
    apply bool_decide_eq_false in H1, H2. split; by apply dec_stable.
Qed.

Lemma kept_for_mono dh ag uid ids ids' data :
  ids ⊆ ids' → kept_for dh ag uid ids data → kept_for dh ag uid ids' data.
Proof. intros Hsub (id & Hid & Hk). exists id. split; [by apply Hsub|done]. Qed.

Lemma visit_kept_inv dh ag uid past w txid :
  kept_inv dh ag uid w → kept_inv dh ag uid (visit dh ag uid past w txid).1.
Proof.
  intros (He & Hb & Ht).
  pose proof (visit_frame dh ag uid past w txid) as (_ & Htree & _).
  destruct (visit_result dh ag uid past w txid) as [->|(Hnew & Hids & Hk)]; [done|].
  assert (Hsub : txids w ⊆ txids (visit dh ag uid past w txid).1).
  { rewrite Hids. intros x Hx. apply elem_of_app. by left. }
  unfold kept_inv. rewrite Htree.
  assert (Htree' : Forall (Forall (kept_for dh ag uid (txids (visit dh ag uid past w txid).1)))
                     (txtree w)).
  { eapply Forall_impl; [exact Ht|]. intros layer Hl.
    eapply Forall_impl; [exact Hl|]. intros data. by apply kept_for_mono. }
  assert (Hb' : Forall (kept_for dh ag uid (txids (visit dh ag uid past w txid).1))
                  (tx_brothers w)).
  { eapply Forall_impl; [exact Hb|]. intros data. by apply kept_for_mono. }
  destruct (kept dh ag uid txid) as [data|] eqn:Hkept.
  - destruct Hk as (-> & ->). split; [|split; [|done]].
    + apply Forall_app. split; [done|]. apply Forall_singleton. by rewrite Hkept.
    + apply Forall_app. split; [done|]. apply Forall_singleton.
      exists txid. split; [|done]. rewrite Hids. apply elem_of_app. right. by left.
  - destruct Hk as (-> & _ & ->). done.
Qed.

Lemma visit_all_kept_inv dh ag uid past ids w :
  kept_inv dh ag uid w → kept_inv dh ag uid (visit_all dh ag uid past w ids).1.
Proof.
  revert w. induction ids as [|txid ids IH]; intros w Hw; simpl; [done|].
  pose proof (visit_kept_inv dh ag uid past w txid Hw) as Hv.
  destruct (visit dh ag uid past w txid) as [w' [e|]]; simpl in *; [done|].
  by apply IH.
Qed.

Lemma traverse_loop_kept_inv dh ag uid past n w :
  kept_inv dh ag uid w → kept_inv dh ag uid (traverse_loop dh ag uid past n w).1.
Proof.
  revert w. induction n as [|n IH]; intros w Hw; cbn [traverse_loop]; [done|].
  cbv zeta. destruct Hw as (He & Hb & Ht).
  destruct (_ <? _)%nat; [by repeat split|].
  pose proof (visit_all_kept_inv dh ag uid past (current_txids w) (count_hop (begin_layer w)))
    as Hv.
  cbn [current_txids begin_layer].
  destruct (visit_all _ _ _ _ _ _) as [w1 [e|]]; simpl in *.
  - apply Hv. by repeat split.
  - apply IH. destruct Hv as (He1 & Hb1 & Ht1); [by repeat split|].
    unfold kept_inv. simpl. split; [done|]. split; [done|].
    destruct (0 <? length (tx_brothers w1))%nat; [|done].
    apply Forall_app. split; [done|]. by apply Forall_singleton.
Qed.

Lemma traverse_kept_inv dh txid ag uid dir h :
  kept_inv dh ag uid (traverse dh txid ag uid dir h).1.
Proof.
  rewrite traverse_unfold.
  destruct (60 <? h)%Z; apply traverse_loop_kept_inv; by repeat split.
Qed.

(** C3 (counterexample): in [two_groups], [A] refers to [B]; with the
    filter on asset group [g2], the visited transaction [A] has no matching
    record, the three layers asked for are entered, and yet [B], which has
    a matching record, is never looked up: the edges of [A] are not
    expanded and the tree is empty. *)
Lemma C3_neighbour_of_filtered_not_explored :
  let dh := graph_dh two_groups in
  let r := traverse dh (VBytes "A") (VBytes "g2") VNone (VInt 1) 3 in
  search_transaction_topology dh (VBytes "A") true = Some [(0, "A", "B")]
  ∧ asset_filter (VBytes "g2") VNone (get_asset_info dh (tx "A")) false = false
  ∧ asset_filter (VBytes "g2") VNone (get_asset_info dh (tx "B")) false = true
  ∧ r.2 = None ∧ hops r.1 = 3%nat
  ∧ searched (calls r.1) = [VBytes "A"]
  ∧ expanded (calls r.1) = []
  ∧ (VBytes "B" ∉ searched (calls r.1))
  ∧ txtree r.1 = [].
Proof.
  cbv zeta. repeat (split; [by vm_compute|]).
  split; [|by vm_compute].
  replace (searched _) with [VBytes "A"] by (by vm_compute).
  intros H. apply list_elem_of_singleton in H. discriminate.
Qed.

(** C3 (amended): when an asset group or user filter is given, every
    serialized transaction of the returned tree belongs to a visited
    transaction that has an asset record matching all the filters set, and
    topology rows are fetched only for such transactions; the visit of a
    stored transaction without a matching record adds nothing to its layer,
    adds no candidate for the next layer and fetches no topology rows. *)
Theorem C3_filter_limits_tree_and_expansion dh txid ag uid dir h :
  ag ≠ VNone ∨ uid ≠ VNone →
  let w := (traverse dh txid ag uid dir h).1 in
  (∀ layer data, layer ∈ txtree w → data ∈ layer →
     ∃ id ret_txobj txobj,
       id ∈ txids w ∧ search_transaction dh id = Some ret_txobj
       ∧ dict_get ret_txobj id = Some txobj ∧ data = transaction_data txobj
       ∧ ∃ record, record ∈ get_asset_info dh txobj ∧ asset_matches ag uid record)
  ∧ (∀ id, id ∈ expanded (calls w) →
       ∃ ret_txobj txobj,
         search_transaction dh id = Some ret_txobj
         ∧ dict_get ret_txobj id = Some txobj
         ∧ ∃ record, record ∈ get_asset_info dh txobj ∧ asset_matches ag uid record)
  ∧ (∀ w0 id ret_txobj txobj,
       search_transaction dh id = Some ret_txobj →
       dict_get ret_txobj id = Some txobj →
       (¬ ∃ record, record ∈ get_asset_info dh txobj ∧ asset_matches ag uid record) →
       let w1 := (visit dh ag uid (eq_one dir) w0 id).1 in
       tx_brothers w1 = tx_brothers w0 ∧ next_txids w1 = next_txids w0
       ∧ expanded (calls w1) = expanded (calls w0)).
Proof.
  intros Hfilter w.
  destruct (traverse_kept_inv dh txid ag uid dir h) as (He & _ & Ht). fold w in He, Ht.
  assert (Hset : ¬ (ag = VNone ∧ uid = VNone)) by (intros [-> ->]; by destruct Hfilter).
  split; [|split].
  - intros layer data Hl Hd.
    rewrite Forall_forall in Ht. specialize (Ht layer Hl).
    rewrite Forall_forall in Ht. destruct (Ht data Hd) as (id & Hid & Hk).
    apply kept_Some in Hk as (ret_txobj & txobj & Hs & Hg & -> & [Hno|Hrec]); [done|].
    by exists id, ret_txobj, txobj.
  - intros id Hid. rewrite Forall_forall in He. destruct (He id Hid) as [data Hk].
    apply kept_Some in Hk as (ret_txobj & txobj & Hs & Hg & _ & [Hno|Hrec]); [done|].
    by exists ret_txobj, txobj.
  - intros w0 id ret_txobj txobj Hs Hg Hno w1.
    destruct (visit_result dh ag uid (eq_one dir) w0 id) as [Hsame|(_ & _ & Hk)].
    + subst w1. by rewrite Hsame.
    + destruct (kept dh ag uid id) as [data|] eqn:Hkept; [|done].
      apply kept_Some in Hkept as (r' & t' & Hs' & Hg' & _ & [Hnone|Hrec]); [done|].
      rewrite Hs in Hs'. injection Hs' as <-. rewrite Hg in Hg'. injection Hg' as <-.
      done.
Qed.

Lemma C3_filter_limits_tree_and_expansion_witness :
  (VBytes "g1" ≠ VNone ∨ VNone ≠ VNone)
  ∧ let dh := graph_dh two_groups in
    let w := (traverse dh (VBytes "A") (VBytes "g1") VNone (VInt 1) 3).1 in
    ∀ id, id ∈ expanded (calls w) →
      ∃ ret_txobj txobj,
        search_transaction dh id = Some ret_txobj
        ∧ dict_get ret_txobj id = Some txobj
        ∧ ∃ record, record ∈ get_asset_info dh txobj
                    ∧ asset_matches (VBytes "g1") VNone record.
Proof.
  assert (H : VBytes "g1" ≠ VNone ∨ VNone ≠ VNone) by (left; discriminate).
  split; [exact H|].
  exact (proj1 (proj2 (C3_filter_limits_tree_and_expansion (graph_dh two_groups)
                         (VBytes "A") (VBytes "g1") VNone (VInt 1) 3 H))).
Defined.

(** ** The dispatcher on well-formed requests *)

Lemma param_check_present core param dat log :
  Forall (λ p, is_Some (dat !! p)) param →
  _param_check core param dat log = (Ok true, log).
Proof.
  induction 1 as [|p param [v Hp] _ IH]; cbn [_param_check]; [done|].
  rewrite bool_decide_eq_false_2 by (by rewrite Hp). exact IH.
Qed.

Lemma getitem_Some dat key v log :
  dat !! key = Some v → getitem dat key log = (Ok v, log).
Proof. intros H. unfold getitem. by rewrite H. Qed.

Lemma resolve_umr_registered core b d log :
  domains core !! b = Some d →
  resolve_umr core (VBytes b) log = (Ok (umr_of_domain b d), log).
Proof.
  intros Hd. unfold resolve_umr, bind, domains_contains, domains_getitem. simpl.
  rewrite Hd. unfold ret. rewrite bool_decide_eq_true_2 by eauto. done.
Qed.

(** An error reply on a message of a registered domain goes through the
    routing table of the domain. *)
Lemma error_reply_or_direct_registered core socket retmsg err_code txt b d log :
  retmsg !! KeyType.domain_id = Some (VBytes b) →
  domains core !! b = Some d →
  let reply := <[KeyType.reason := VStr txt]>
                 (<[KeyType.status := VError err_code]> retmsg) in
  error_reply_or_direct core socket retmsg err_code txt log =
    (Ok tt, log ++ [ev_send_message_to_user b reply (delivers d reply)]).
Proof.
  intros Hdom Hd reply.
  unfold error_reply_or_direct, _error_reply, bind.
  rewrite (getitem_Some _ _ (VBytes b)).
  2: { rewrite !lookup_insert_ne by done. exact Hdom. }
  unfold domains_contains, domains_getitem. simpl. rewrite Hd. unfold ret.
  rewrite bool_decide_eq_true_2 by eauto. done.
Qed.


Lemma bind_Ok {A B} (c : M A) (k : A → M B) a log log' :
  c log = (Ok a, log') → bind c k log = k a log'.
Proof. intros H. unfold bind. by rewrite H. Qed.

Lemma bind_Raise {A B} (c : M A) (k : A → M B) e log log' :
  c log = (Raise e, log') → bind c k log = (Raise e, log').
Proof. intros H. unfold bind. by rewrite H. Qed.

Lemma get_Some dat key v dflt : dat !! key = Some v → get dat key dflt = v.
Proof. intros H. unfold get. by rewrite H. Qed.

(** The head of [_process] on a message of a registered domain that has
    its command and its sender. *)
Lemma process_registered core socket dat b d cmd src log :
  dat !! KeyType.command = Some cmd →
  dat !! KeyType.source_user_id = Some src →
  dat !! KeyType.domain_id = Some (VBytes b) →
  domains core !! b = Some d →
  _process core socket dat log =
    dispatch core socket (umr_of_domain b d) (VBytes b) dat cmd
      (log ++ [ev_stats_increment "client" "num_message_receive"]).
Proof.
  intros Hcmd Hsrc Hdom Hd. unfold _process.
  erewrite bind_Ok by reflexivity.
  erewrite bind_Ok by (apply param_check_present; repeat constructor; eauto).
  cbn [negb]. cbv zeta. rewrite (get_Some _ _ _ _ Hdom).
  erewrite bind_Ok by (by apply resolve_umr_registered).
  erewrite bind_Ok by (by apply getitem_Some).
  reflexivity.
Qed.

(** A traversal request with every required key, on a registered domain,
    for a start id that is not [None] and an integer hop count: the walk
    is run, and its outcome is answered through the routing table of the
    domain, by an error when the tree is empty. *)
Lemma process_traverse core socket dat b d src qid txid dir h log :
  dat !! KeyType.command = Some (VMsgType MsgType.REQUEST_TRAVERSE_TRANSACTIONS) →
  dat !! KeyType.source_user_id = Some src →
  dat !! KeyType.query_id = Some qid →
  dat !! KeyType.domain_id = Some (VBytes b) →
  domains core !! b = Some d →
  dat !! KeyType.transaction_id = Some txid → txid ≠ VNone →
  dat !! KeyType.direction = Some dir →
  dat !! KeyType.hop_count = Some (VInt h) →
  let r := traverse (data d) txid (get dat KeyType.asset_group_id VNone)
             (get dat KeyType.user_id VNone) dir h in
  let retmsg := <[KeyType.transaction_id := txid]>
                  (_make_message_structure (VBytes b)
                     MsgType.RESPONSE_TRAVERSE_TRANSACTIONS src qid) in
  let not_found := <[KeyType.reason := VStr "Cannot find transaction"]>
                     (<[KeyType.status := VError ENOTRANSACTION]> retmsg) in
  let found := <[KeyType.all_included := VBool (include_all_flag r.1)]>
                 (<[KeyType.transaction_tree := VTree (txtree r.1)]> retmsg) in
  _process core socket dat log =
    (match r.2 with
     | Some e => Raise e
     | None => Ok (false, None)
     end,
     log ++ [ev_stats_increment "client" "num_message_receive";
             ev_stats_increment "transaction" "search_count"]
         ++ (ev_storage b <$> calls r.1)
         ++ match r.2 with
            | Some _ => []
            | None =>
                if (length (txtree r.1) =? 0)%nat
                then [ev_send_message_to_user b not_found (delivers d not_found)]
                else [ev_send_message_to_user b found (delivers d found)]
            end).
Proof.
  intros Hcmd Hsrc Hqid Hdom Hd Htx Hne Hdir Hhop r retmsg not_found found.
  rewrite (process_registered _ _ _ b d _ src) by done.
  cbn [dispatch]. unfold on_traverse_transactions.
  erewrite bind_Ok by (apply param_check_present; repeat constructor; eauto).
  cbn [negb].
  erewrite bind_Ok by (by apply getitem_Some).
  erewrite bind_Ok by (by apply getitem_Some).
  erewrite bind_Ok by (by apply getitem_Some).
  cbv zeta.
  erewrite bind_Ok by (by apply getitem_Some).
  erewrite bind_Ok by (by apply getitem_Some).
  unfold bind at 1. rewrite (traverse_transactions_registered _ _ d) by done.
  cbv zeta. fold r.
  destruct r as [w [e|]] eqn:Hr; cbn [fst snd].
  - f_equal. rewrite <- !app_assoc. simpl. by rewrite app_nil_r.
  - subst not_found found retmsg. cbn [fst snd].
    destruct (length (txtree w) =? 0)%nat eqn:Hlen.
    + erewrite bind_Ok.
      2: { apply (error_reply_or_direct_registered _ _ _ _ _ b d); [|done].
           by vm_compute. }
      unfold ret. f_equal. by rewrite <- !app_assoc.
    + erewrite bind_Ok by reflexivity.
      unfold ret. f_equal. by rewrite <- !app_assoc.
Qed.

(** ** A hop count that asks for no layer *)

Lemma traverse_nonpositive dh txid ag uid dir h :
  (h ≤ 0)%Z → traverse dh txid ag uid dir h = (initial_walk txid, None).
Proof.
  intros Hh. rewrite traverse_unfold.
  destruct (60 <? h)%Z eqn:E; [apply Z.ltb_lt in E; lia|].
  replace (Z.to_nat h) with 0%nat by lia. reflexivity.
Qed.

(** C10: on a registered domain and for a start id that is not [None], a
    hop count of zero or less makes [_traverse_transactions] return the
    set flag with an empty tree without any call on the storage, whatever
    the storage holds; and a traversal request with such a hop count is
    answered, through the routing table of the domain, by the error
    ENOTRANSACTION with the reason "Cannot find transaction". *)
Theorem C10_no_hop_no_lookup core socket dat b d src qid txid dir h log :
  domains core !! b = Some d → txid ≠ VNone → (h ≤ 0)%Z →
  dat !! KeyType.command = Some (VMsgType MsgType.REQUEST_TRAVERSE_TRANSACTIONS) →
  dat !! KeyType.source_user_id = Some src →
  dat !! KeyType.query_id = Some qid →
  dat !! KeyType.domain_id = Some (VBytes b) →
  dat !! KeyType.transaction_id = Some txid →
  dat !! KeyType.direction = Some dir →
  dat !! KeyType.hop_count = Some (VInt h) →
  (∀ ag uid,
     calls (traverse (data d) txid ag uid dir h).1 = []
     ∧ _traverse_transactions core (VBytes b) txid ag uid dir (VInt h) log =
         (Ok (Some (true, [])),
          log ++ [ev_stats_increment "transaction" "search_count"]))
  ∧ let not_found :=
      <[KeyType.reason := VStr "Cannot find transaction"]>
        (<[KeyType.status := VError ENOTRANSACTION]>
           (<[KeyType.transaction_id := txid]>
              (_make_message_structure (VBytes b)
                 MsgType.RESPONSE_TRAVERSE_TRANSACTIONS src qid))) in
    _process core socket dat log =
      (Ok (false, None),
       log ++ [ev_stats_increment "client" "num_message_receive";
               ev_stats_increment "transaction" "search_count";
               ev_send_message_to_user b not_found (delivers d not_found)]).
Proof.
  intros Hd Hne Hh Hcmd Hsrc Hqid Hdom Htx Hdir Hhop. split.
  - intros ag uid. rewrite (traverse_transactions_registered _ _ d) by done.
    rewrite traverse_nonpositive by done. split; [done|].
    cbn [fst snd initial_walk calls include_all_flag txtree fmap list_fmap].
    done.
  - cbv zeta. rewrite (process_traverse _ _ _ b d src qid txid dir h) by done.
    rewrite traverse_nonpositive by done.
    cbn [fst snd initial_walk calls include_all_flag txtree fmap list_fmap length Nat.eqb].
    reflexivity.
Qed.

Lemma C10_no_hop_no_lookup_witness :
  search_transaction (graph_dh lone) (VBytes "A") = Some [("A", tx "A")]
  ∧ _traverse_transactions (graph_core lone) (VBytes "D") (VBytes "A") VNone VNone
      (VInt 1) (VInt 0) []
    = (Ok (Some (true, [])), [ev_stats_increment "transaction" "search_count"]).
Proof.
  split; [reflexivity|].
  exact (proj2 (proj1 (C10_no_hop_no_lookup (graph_core lone) 0%nat
                         (traverse_request "A" 0) "D" (graph_domain lone)
                         (VBytes "user1") (VBytes "q1") (VBytes "A") (VInt 1) 0 []
                         eq_refl ltac:(discriminate) ltac:(lia)
                         eq_refl eq_refl eq_refl eq_refl eq_refl eq_refl eq_refl)
                      VNone VNone)).
Defined.

(** ** The layers of the tree *)

(** A visit that does not raise: the id was visited before and nothing
    changes, or it is marked and joins the layer when it is kept. *)
Lemma visit_ok dh ag uid past w txid :
  (visit dh ag uid past w txid).2 = None →
  let w' := (visit dh ag uid past w txid).1 in
  (txid ∈ txids w ∧ w' = w)
  ∨ ((txid ∉ txids w) ∧ txids w' = txids w ++ [txid]
     ∧ tx_brothers w' = tx_brothers w ++ option_list (kept dh ag uid txid)).
Proof.
  intros Hok w'.
  destruct (decide (txid ∈ txids w)) as [Hin|Hnin].
  - left. split; [done|]. subst w'. unfold visit in *.
    destruct (negb (hashable txid)); [done|].
    by rewrite bool_decide_eq_true_2.
  - right. split; [done|].
    destruct (visit_result dh ag uid past w txid) as [Hsame|(_ & Hids & Hk)].
    + exfalso. subst w'. unfold visit in Hok, Hsame.
      destruct (negb (hashable txid)); [done|].
      rewrite bool_decide_eq_false_2 in Hsame by done.
      assert (Hc : tx_count w = S (tx_count w)); [|lia].
      rewrite <- Hsame at 1.
      repeat (case_match; simpl; through_rows; simpl; try done).
    + split; [done|]. subst w'.
      destruct (kept dh ag uid txid); simpl; [apply Hk|].
      rewrite app_nil_r. apply Hk.
Qed.

(** A layer that is processed without an exception: the ids visited are
    the fresh candidates, and the layer holds those of them that are
    kept. *)
Lemma visit_all_layer dh ag uid past ids w :
  (visit_all dh ag uid past w ids).2 = None →
  let w' := (visit_all dh ag uid past w ids).1 in
  txids w' = txids w ++ fresh (txids w) ids
  ∧ tx_brothers w' = tx_brothers w ++ omap (kept dh ag uid) (fresh (txids w) ids).
Proof.
  revert w. induction ids as [|txid ids IH]; intros w; cbn [visit_all fresh].
  - intros _. simpl. by rewrite !app_nil_r.
  - pose proof (visit_ok dh ag uid past w txid) as Hv.
    destruct (visit dh ag uid past w txid) as [w1 [e|]] eqn:Hvis; [done|].
    intros Hok. specialize (IH w1 Hok). cbv zeta in IH.
    specialize (Hv eq_refl). simpl in Hv.
    destruct Hv as [(Hin & ->)|(Hnin & Hids & Hb)].
    + rewrite bool_decide_eq_true_2 by done. exact IH.
    + rewrite bool_decide_eq_false_2 by done.
      destruct IH as (IH1 & IH2). rewrite IH1, IH2, Hids, Hb.
      split; [by rewrite <- app_assoc|].
      cbn [omap list_omap].
      destruct (kept dh ag uid txid); simpl; by rewrite <- app_assoc.
Qed.

(** The outcome of one layer that fits and is processed without an
    exception. *)
Lemma traverse_loop_layer dh ag uid past n w :
  (tx_count w + length (current_txids w) ≤ TX_TRAVERSAL_MAX)%nat →
  let v := visit_all dh ag uid past (count_hop (begin_layer w)) (current_txids w) in
  v.2 = None →
  traverse_loop dh ag uid past (S n) w
    = traverse_loop dh ag uid past n (end_layer v.1)
  ∧ layers (end_layer v.1)
    = layers w ++ [omap (kept dh ag uid) (fresh (txids w) (current_txids w))].
Proof.
  intros Hfit v Hok. cbn [traverse_loop]. cbv zeta.
  cbn [tx_count current_txids begin_layer].
  apply Nat.ltb_ge in Hfit. rewrite Hfit.
  pose proof (visit_all_layer dh ag uid past (current_txids w) (count_hop (begin_layer w)) Hok)
    as (_ & Hb).
  pose proof (visit_all_frame dh ag uid past (current_txids w) (count_hop (begin_layer w)))
    as (_ & _ & _ & Hl & _).
  fold v in Hb, Hl. fold v.
  destruct v as [w1 [e|]]; [done|]. simpl in *.
  split; [done|]. by rewrite Hl, Hb.
Qed.

Lemma traverse_loop_layers_hops dh ag uid past n w :
  (traverse_loop dh ag uid past n w).2 = None →
  length (layers w) = hops w →
  length (layers (traverse_loop dh ag uid past n w).1)
  = hops (traverse_loop dh ag uid past n w).1.
Proof.
  revert w. induction n as [|n IH]; intros w; cbn [traverse_loop]; [done|].
  cbv zeta. destruct (_ <? _)%nat; [done|].
  pose proof (visit_all_frame dh ag uid past (current_txids w) (count_hop (begin_layer w)))
    as (_ & _ & Hh & Hl & _).
  cbn [current_txids begin_layer].
  destruct (visit_all _ _ _ _ _ _) as [w1 [e|]]; [done|]. simpl in *.
  intros Hok Hlen. apply IH; [done|]. simpl. rewrite length_app, Hl, Hh. simpl. lia.
Qed.

(** The tree of a walk: its layers without the empty ones, which all come
    last. *)
Lemma traverse_tree dh txid ag uid dir h :
  let r := traverse dh txid ag uid dir h in
  (∃ k, layers r.1 = txtree r.1 ++ replicate k [])
  ∧ Forall (λ layer, layer ≠ []) (txtree r.1)
  ∧ (r.2 = None → length (layers r.1) = hops r.1).
Proof.
  cbv zeta. rewrite traverse_unfold.
  destruct (60 <? h)%Z.
  - destruct (traverse_loop_tree dh ag uid (eq_one dir) 60 (clear_flag (initial_walk txid)))
      as (k & Hk & Hne & _); [apply (initial_walk_tree txid)|].
    split; [by exists k|]. split; [done|].
    intros Hok. by apply traverse_loop_layers_hops.
  - destruct (traverse_loop_tree dh ag uid (eq_one dir) (Z.to_nat h) (initial_walk txid))
      as (k & Hk & Hne & _); [apply initial_walk_tree|].
    split; [by exists k|]. split; [done|].
    intros Hok. by apply traverse_loop_layers_hops.
Qed.

(** A walk with no candidate left runs its remaining layers without
    effect on the tree and on the flag. *)
Lemma traverse_loop_idle dh ag uid past n w :
  current_txids w = [] → (tx_count w ≤ TX_TRAVERSAL_MAX)%nat →
  let r := traverse_loop dh ag uid past n w in
  r.2 = None ∧ txtree r.1 = txtree w ∧ include_all_flag r.1 = include_all_flag w.
Proof.
  revert w. induction n as [|n IH]; intros w Hcur Hc; cbn [traverse_loop]; [done|].
  cbv zeta. cbn [tx_count current_txids begin_layer]. rewrite Hcur.
  cbn [length visit_all]. rewrite Nat.add_0_r.
  apply Nat.ltb_ge in Hc. rewrite Hc.
  destruct (IH (end_layer (count_hop (begin_layer w)))) as (H1 & H2 & H3);
    [done|simpl; by apply Nat.ltb_ge|].
  done.
Qed.

(** The visit of a kept transaction that has no topology row in the
    direction walked. *)
Lemma visit_kept_leaf dh ag uid past w txid data :
  hashable txid = true → txid ∉ txids w →
  kept dh ag uid txid = Some data →
  default [] (search_transaction_topology dh txid past) = [] →
  ∃ w1, visit dh ag uid past w txid = (w1, None)
        ∧ tx_brothers w1 = tx_brothers w ++ [data]
        ∧ next_txids w1 = next_txids w
        ∧ tx_count w1 = S (tx_count w).
Proof.
  intros Hh Hnin Hk Hrows. unfold visit, kept in *. rewrite Hh. cbn [negb].
  rewrite bool_decide_eq_false_2 by done.
  destruct (search_transaction dh txid) as [ret_txobj|]; [|done].
  destruct (length ret_txobj =? 0)%nat; [done|].
  destruct (dict_get ret_txobj txid) as [txobj|]; [|done].
  cbv zeta.
  destruct ((bool_decide (ag ≠ VNone) || bool_decide (uid ≠ VNone))
            && negb (asset_filter ag uid (get_asset_info dh txobj) false)); [done|].
  injection Hk as <-.
  destruct (search_transaction_topology dh txid past) as [rows|]; simpl in Hrows.
  - subst rows. eexists. split; [reflexivity|]. cbn [fold_left].
    by destruct (bool_decide (ag ≠ VNone) || bool_decide (uid ≠ VNone)).
  - eexists. split; [reflexivity|].
    by destruct (bool_decide (ag ≠ VNone) || bool_decide (uid ≠ VNone)).
Qed.

(** A walk of 1 to 60 hops from a kept transaction without topology rows
    in the direction walked: the tree is the one layer of the start
    transaction. *)
Lemma traverse_single dh txid ag uid dir h data :
  (1 ≤ h ≤ 60)%Z → hashable txid = true →
  kept dh ag uid txid = Some data →
  default [] (search_transaction_topology dh txid (eq_one dir)) = [] →
  let r := traverse dh txid ag uid dir h in
  r.2 = None ∧ include_all_flag r.1 = true ∧ txtree r.1 = [[data]].
Proof.
  intros Hh Hhash Hk Hrows. cbv zeta. rewrite traverse_unfold.
  destruct (60 <? h)%Z eqn:E; [apply Z.ltb_lt in E; lia|].
  destruct (Z.to_nat h) as [|n] eqn:Hn; [lia|].
  cbn [traverse_loop]. cbv zeta.
  cbn [tx_count current_txids begin_layer initial_walk length Nat.add].
  change (TX_TRAVERSAL_MAX <? 1)%nat with false. cbn [visit_all].
  destruct (visit_kept_leaf dh ag uid (eq_one dir)
              (count_hop (begin_layer (initial_walk txid))) txid data)
    as (w1 & Hv & Hb & Hnext & Hc); [done|apply not_elem_of_nil|done|done|].
  pose proof (visit_frame dh ag uid (eq_one dir)
                (count_hop (begin_layer (initial_walk txid))) txid) as Hf.
  rewrite Hv in Hf. rewrite Hv. simpl in Hb, Hnext, Hc, Hf.
  destruct Hf as (Hfl & Htree & _).
  destruct (traverse_loop_idle dh ag uid (eq_one dir) n (end_layer w1)) as (H1 & H2 & H3).
  - simpl. exact Hnext.
  - simpl. rewrite Hc. unfold TX_TRAVERSAL_MAX. lia.
  - split; [done|]. rewrite H2, H3. simpl. rewrite Hb, Hfl, Htree. done.
Qed.

(** C8 (the code at the failing input): the storage [lone] holds the
    transaction [A], which has no topology row towards the past; a
    backward walk of three hops from [A] returns the set flag with a tree
    that is not empty: its first list holds [A] itself, the base of the
    walk, where the docstring announces the transactions one hop from the
    base. *)
Lemma C8_start_without_ancestors_in_tree :
  let dh := graph_dh lone in
  let r := traverse dh (VBytes "A") VNone VNone (VInt 1) 3 in
  search_transaction dh (VBytes "A") = Some [("A", tx "A")]
  ∧ search_transaction_topology dh (VBytes "A") true = Some []
  ∧ r.2 = None ∧ include_all_flag r.1 = true
  ∧ txtree r.1 = [[transaction_data (tx "A")]]
  ∧ txtree r.1 ≠ [].
Proof. cbv zeta. repeat split; by vm_compute. Qed.

(** The layers of the code: the tree of a walk is the list of its layers,
    indexed by hop with the start transaction at hop 0, cut before the
    first empty layer (all the layers after it are empty too); the layer of a hop holds
    the serialized transactions kept, that is stored and passing the
    filter, among the candidates visited for the first time at that hop;
    a traversal request whose walk returns an empty tree is answered by
    the error ENOTRANSACTION; and a walk of 1 to 60 hops from a kept
    transaction that has no topology row in the direction walked returns
    the set flag with the one-layer tree of the start transaction. *)
Theorem traverse_layers_by_hop core socket dat b d src qid txid dir h log :
  domains core !! b = Some d → txid ≠ VNone →
  dat !! KeyType.command = Some (VMsgType MsgType.REQUEST_TRAVERSE_TRANSACTIONS) →
  dat !! KeyType.source_user_id = Some src →
  dat !! KeyType.query_id = Some qid →
  dat !! KeyType.domain_id = Some (VBytes b) →
  dat !! KeyType.transaction_id = Some txid →
  dat !! KeyType.direction = Some dir →
  dat !! KeyType.hop_count = Some (VInt h) →
  let ag := get dat KeyType.asset_group_id VNone in
  let uid := get dat KeyType.user_id VNone in
  let r := traverse (data d) txid ag uid dir h in
  let not_found :=
    <[KeyType.reason := VStr "Cannot find transaction"]>
      (<[KeyType.status := VError ENOTRANSACTION]>
         (<[KeyType.transaction_id := txid]>
            (_make_message_structure (VBytes b)
               MsgType.RESPONSE_TRAVERSE_TRANSACTIONS src qid))) in
  (∃ k, layers r.1 = txtree r.1 ++ replicate k [])
  ∧ Forall (λ layer, layer ≠ []) (txtree r.1)
  ∧ (r.2 = None → length (layers r.1) = hops r.1)
  ∧ (∀ n w,
       (tx_count w + length (current_txids w) ≤ TX_TRAVERSAL_MAX)%nat →
       let v := visit_all (data d) ag uid (eq_one dir)
                  (count_hop (begin_layer w)) (current_txids w) in
       v.2 = None →
       traverse_loop (data d) ag uid (eq_one dir) (S n) w
         = traverse_loop (data d) ag uid (eq_one dir) n (end_layer v.1)
       ∧ layers (end_layer v.1)
         = layers w ++ [omap (kept (data d) ag uid) (fresh (txids w) (current_txids w))])
  ∧ (r.2 = None → txtree r.1 = [] →
     _process core socket dat log =
       (Ok (false, None),
        log ++ [ev_stats_increment "client" "num_message_receive";
                ev_stats_increment "transaction" "search_count"]
            ++ (ev_storage b <$> calls r.1)
            ++ [ev_send_message_to_user b not_found (delivers d not_found)]))
  ∧ (∀ txdata,
       (1 ≤ h ≤ 60)%Z → hashable txid = true →
       kept (data d) ag uid txid = Some txdata →
       default [] (search_transaction_topology (data d) txid (eq_one dir)) = [] →
       r.2 = None ∧ include_all_flag r.1 = true ∧ txtree r.1 = [[txdata]]).
Proof.
  intros Hd Hne Hcmd Hsrc Hqid Hdom Htx Hdir Hhop ag uid r not_found.
  destruct (traverse_tree (data d) txid ag uid dir h) as (Hk & Hnonempty & Hlen).
  split; [exact Hk|]. split; [exact Hnonempty|]. split; [exact Hlen|].
  split; [intros n w; apply traverse_loop_layer|].
  split.
  - intros Hok Hempty.
    rewrite (process_traverse _ _ _ b d src qid txid dir h) by done.
    cbv zeta. fold ag uid r. rewrite Hok, Hempty. reflexivity.
  - intros txdata. apply traverse_single.
Qed.

Lemma traverse_layers_by_hop_witness :
  let r := traverse (graph_dh lone) (VBytes "A") VNone VNone (VInt 1) 3 in
  kept (graph_dh lone) VNone VNone (VBytes "A") = Some (transaction_data (tx "A"))
  ∧ r.2 = None ∧ include_all_flag r.1 = true
  ∧ txtree r.1 = [[transaction_data (tx "A")]].
Proof.
  split; [reflexivity|].
  exact (proj2 (proj2 (proj2 (proj2 (proj2
    (traverse_layers_by_hop (graph_core lone) 0%nat (traverse_request "A" 3)
       "D" (graph_domain lone) (VBytes "user1") (VBytes "q1") (VBytes "A") (VInt 1) 3 []
       eq_refl ltac:(discriminate) eq_refl eq_refl eq_refl eq_refl eq_refl eq_refl eq_refl)))))
    (transaction_data (tx "A")) ltac:(lia) eq_refl eq_refl eq_refl).
Defined.

(** ** Signature gathering *)

(** The message for a destination does not depend on the destinations
    served before: they are overwritten. *)
Lemma sign_request_msg_overwrite dat txdata dst dst' msg :
  sign_request_msg dat txdata dst (sign_request_msg dat txdata dst' msg)
  = sign_request_msg dat txdata dst msg.
Proof.
  unfold sign_request_msg.
  destruct (dat !! KeyType.hint), (dat !! KeyType.transactions);
    apply map_eq; intros k; repeat (rewrite lookup_insert; case_decide); done.
Qed.

Lemma sign_request_step b d dat msg dst src txdata log :
  dat !! KeyType.source_user_id = Some src →
  dat !! KeyType.transaction_data = Some txdata →
  sign_request (umr_of_domain b d) dat msg dst log =
    if bool_decide (dst = src) then (Ok msg, log)
    else let m := sign_request_msg dat txdata dst msg in
         (Ok m, log ++ [ev_send_message_to_user b m (delivers d m)]).
Proof.
  intros Hsrc Htx. unfold sign_request.
  erewrite bind_Ok by (by apply getitem_Some).
  case_bool_decide; [done|].
  erewrite bind_Ok by (by apply getitem_Some).
  reflexivity.
Qed.

Lemma sign_requests_spec b d dat msg0 msg dests src txdata log :
  dat !! KeyType.source_user_id = Some src →
  dat !! KeyType.transaction_data = Some txdata →
  (∀ dst, sign_request_msg dat txdata dst msg = sign_request_msg dat txdata dst msg0) →
  ∃ msg',
    sign_requests (umr_of_domain b d) dat msg (VBytes <$> dests) log =
      (Ok msg',
       log ++ ((λ dst, let m := sign_request_msg dat txdata (VBytes dst) msg0 in
                       ev_send_message_to_user b m (delivers d m))
               <$> filter (λ dst, VBytes dst ≠ src) dests)).
Proof.
  intros Hsrc Htx. revert msg log.
  induction dests as [|dst dests IH]; intros msg log Hmsg; cbn [fmap list_fmap sign_requests].
  - exists msg. unfold ret. by rewrite app_nil_r.
  - rewrite filter_cons.
    unfold bind. rewrite (sign_request_step _ _ _ _ _ src txdata) by done.
    case_bool_decide as Hdst.
    + rewrite decide_False by (intros H; by apply H).
      by apply IH.
    + rewrite decide_True by done.
      cbv zeta. rewrite Hmsg.
      destruct (IH (sign_request_msg dat txdata (VBytes dst) msg0)
                  (log ++ [ev_send_message_to_user b
                             (sign_request_msg dat txdata (VBytes dst) msg0)
                             (delivers d (sign_request_msg dat txdata (VBytes dst) msg0))]))
        as [msg' Hmsg'].
      { intros dst'. apply sign_request_msg_overwrite. }
      exists msg'. rewrite Hmsg'. cbn [fmap list_fmap]. by rewrite <- app_assoc.
Qed.

(** C9: on a registered domain, for a request that lists its destinations
    and has its sender, query id and transaction data,
    [_distribute_transaction_to_gather_signatures] hands to the routing
    table of the domain, in order, one REQUEST_SIGNATURE message carrying
    the transaction data for every listed destination other than the
    sender, none for the sender, and returns true whatever the routing
    table answers for each message. *)
Theorem C9_fan_out_skips_requester core b d dat dests src qid txdata log :
  domains core !! b = Some d →
  dat !! KeyType.destination_user_ids = Some (VList dests) →
  dat !! KeyType.source_user_id = Some src →
  dat !! KeyType.query_id = Some qid →
  dat !! KeyType.transaction_data = Some txdata →
  let msg_for dst :=
    sign_request_msg dat txdata (VBytes dst)
      (<[KeyType.source_user_id := src]>
         (_make_message_structure (VBytes b) MsgType.REQUEST_SIGNATURE VNone qid)) in
  _distribute_transaction_to_gather_signatures core (VBytes b) dat log =
    (Ok true,
     log ++ ((λ dst, ev_send_message_to_user b (msg_for dst) (delivers d (msg_for dst)))
             <$> filter (λ dst, VBytes dst ≠ src) dests))
  ∧ (∀ dst, msg_for dst !! KeyType.command = Some (VMsgType MsgType.REQUEST_SIGNATURE)
            ∧ msg_for dst !! KeyType.transaction_data = Some txdata
            ∧ msg_for dst !! KeyType.destination_user_id = Some (VBytes dst)
            ∧ msg_for dst !! KeyType.source_user_id = Some src)
  ∧ Forall (λ dst, VBytes dst ≠ src) (filter (λ dst, VBytes dst ≠ src) dests)
  ∧ (∀ dst, dst ∈ dests → VBytes dst ≠ src →
            dst ∈ filter (λ dst, VBytes dst ≠ src) dests).
Proof.
  intros Hd Hdests Hsrc Hqid Htx msg_for. split; [|split; [|split]].
  - unfold _distribute_transaction_to_gather_signatures.
    erewrite bind_Ok by (by apply getitem_Some).
    erewrite bind_Ok by (by apply getitem_Some).
    erewrite bind_Ok by (by apply getitem_Some).
    erewrite bind_Ok.
    2: { unfold domains_getitem. simpl. rewrite Hd. reflexivity. }
    cbn [iterate].
    destruct (sign_requests_spec b d dat
                (<[KeyType.source_user_id := src]>
                   (_make_message_structure (VBytes b) MsgType.REQUEST_SIGNATURE VNone qid))
                (<[KeyType.source_user_id := src]>
                   (_make_message_structure (VBytes b) MsgType.REQUEST_SIGNATURE VNone qid))
                dests src txdata log Hsrc Htx (λ _, eq_refl)) as [msg' Hmsg'].
    erewrite bind_Ok by exact Hmsg'. reflexivity.
  - intros dst. subst msg_for. cbv beta. unfold sign_request_msg, _make_message_structure.
    destruct (dat !! KeyType.hint), (dat !! KeyType.transactions);
      repeat split; repeat (rewrite lookup_insert; case_decide; try done).
  - apply Forall_forall. intros dst Hin. by apply list_elem_of_filter in Hin as [? _].
  - intros dst Hin Hne. by apply list_elem_of_filter.
Qed.

Lemma C9_fan_out_skips_requester_witness :
  gather_request !! KeyType.destination_user_ids = Some (VList ["user1"; "user2"; "user3"])
  ∧ gather_request !! KeyType.source_user_id = Some (VBytes "user1")
  ∧ ∃ m2 m3,
      _distribute_transaction_to_gather_signatures deaf_core (VBytes "D") gather_request []
      = (Ok true, [ev_send_message_to_user "D" m2 false;
                   ev_send_message_to_user "D" m3 false])
      ∧ m2 !! KeyType.destination_user_id = Some (VBytes "user2")
      ∧ m3 !! KeyType.destination_user_id = Some (VBytes "user3").
Proof.
  split; [reflexivity|]. split; [reflexivity|].
  destruct (C9_fan_out_skips_requester deaf_core "D"
              {| data := graph_dh lone; name := "testdomain"; delivers := λ _, false |}
              gather_request ["user1"; "user2"; "user3"] (VBytes "user1") (VBytes "q1")
              (VBytes "A") [] eq_refl eq_refl eq_refl eq_refl eq_refl)
    as (Hrun & Hmsg & _).
  eexists _, _. split; [exact Hrun|].
  split; [apply (Hmsg "user2")|apply (Hmsg "user3")].
Defined.

(** ** Search by conditions *)

Lemma create_search_result_lists_only lib d : lists_only (_create_search_result lib d).
Proof. apply (fold_classify_listed lib d ∅ lists_only_empty). Qed.

Lemma lists_only_lookup r k :
  lists_only r → r !! k = if decide (listed k r = []) then None else Some (VList (listed k r)).
Proof.
  intros Hr. unfold listed. destruct (r !! k) as [v|] eqn:E; [|done].
  destruct (Hr _ _ E) as (_ & l & -> & Hl). by rewrite decide_False.
Qed.

(** The valid key is present exactly when some pair has agreeing ids. *)
Lemma create_search_result_has_valid lib d :
  is_Some (_create_search_result lib d !! KeyType.transactions) ↔ agreeing d ≠ [].
Proof.
  rewrite (lists_only_lookup _ _ (create_search_result_lists_only lib d)).
  rewrite create_search_result_transactions.
  case_decide as H.
  - apply fmap_nil_inv in H. rewrite H. split; [by intros [? ?]|done].
  - split; [|by eauto]. intros _ Hnil. apply H. by rewrite Hnil.
Qed.

Lemma create_search_result_other_key lib d k :
  k ≠ KeyType.transactions → k ≠ KeyType.compromised_transactions →
  _create_search_result lib d !! k = None.
Proof.
  intros H1 H2. destruct (_ !! k) as [v|] eqn:E; [|done].
  destruct (create_search_result_lists_only lib d _ _ E) as ([|] & _); done.
Qed.

Lemma search_with_condition_registered core b d ag aid uid dir cnt log :
  domains core !! b = Some d →
  search_transaction_with_condition core (VBytes b) ag aid uid dir cnt log =
    (Ok (match search_transaction_by_condition (data d) ag aid uid dir cnt with
         | Some (item :: items) => Some (_create_search_result (lib core) (item :: items))
         | _ => None
         end),
     log ++ [ev_search_by_condition b ag aid uid dir cnt]).
Proof.
  intros Hd. unfold search_transaction_with_condition.
  rewrite bool_decide_eq_false_2 by done. cbv beta iota.
  unfold bind at 1. unfold domains_getitem. cbn [hashable negb]. rewrite Hd.
  unfold ret at 1. unfold bind at 1. unfold emit.
  by destruct (search_transaction_by_condition _ _ _ _ _ _) as [[|item items]|].
Qed.

Lemma make_message_structure_domain domain_id cmd dstid qid :
  _make_message_structure domain_id cmd dstid qid !! KeyType.domain_id = Some domain_id.
Proof. by vm_compute. Qed.

(** C6 (counterexample): the storage finds one match for the request, a
    transaction stored under the id [T1] whose recomputed id is [T2]; the
    result set is not empty, and yet the request is answered with the
    status ENOTRANSACTION and without any list. *)
Lemma C6_compromised_only_answered_not_found :
  let core := condition_core (Some [("T1", tx "T2")]) in
  let not_found :=
    <[KeyType.reason := VStr "Cannot find transaction"]>
      (<[KeyType.status := VError ENOTRANSACTION]>
         (_make_message_structure (VBytes "D") MsgType.RESPONSE_SEARCH_WITH_CONDITIONS
            (VBytes "user1") (VBytes "q1"))) in
  search_transaction_with_condition core (VBytes "D") (VBytes "g1") VNone VNone
    (VInt 0) (VInt 1) []
  = (Ok (Some {[ KeyType.compromised_transactions := VList [transaction_data (tx "T2")] ]}),
     [ev_search_by_condition "D" (VBytes "g1") VNone VNone (VInt 0) (VInt 1)])
  ∧ _process core 0%nat search_request []
    = (Ok (false, None),
       [ev_stats_increment "client" "num_message_receive";
        ev_search_by_condition "D" (VBytes "g1") VNone VNone (VInt 0) (VInt 1);
        ev_send_message_to_user "D" not_found true])
  ∧ not_found !! KeyType.compromised_transactions = None
  ∧ not_found !! KeyType.transactions = None.
Proof. cbv zeta. repeat split; by vm_compute. Qed.

(** What the code does with a search-by-conditions request that has its
    sender, query id and domain, on a registered domain: one
    RESPONSE_SEARCH_WITH_CONDITIONS message through the routing table of
    the domain, which carries the two lists of the classification when
    the list under the valid key is not empty, that is when some match
    has agreeing ids, and is an ENOTRANSACTION without any list
    otherwise. *)
Lemma process_search_with_conditions core socket dat b d src qid log :
  domains core !! b = Some d →
  dat !! KeyType.command = Some (VMsgType MsgType.REQUEST_SEARCH_WITH_CONDITIONS) →
  dat !! KeyType.source_user_id = Some src →
  dat !! KeyType.query_id = Some qid →
  dat !! KeyType.domain_id = Some (VBytes b) →
  let ag := get dat KeyType.asset_group_id VNone in
  let aid := get dat KeyType.asset_id VNone in
  let uid := get dat KeyType.user_id VNone in
  let dir := get dat KeyType.direction (VInt 0) in
  let cnt := get dat KeyType.count (VInt 1) in
  let found := default [] (search_transaction_by_condition (data d) ag aid uid dir cnt) in
  let retmsg := _make_message_structure (VBytes b)
                  MsgType.RESPONSE_SEARCH_WITH_CONDITIONS src qid in
  let reply :=
    if bool_decide (agreeing found ≠ [])
    then _create_search_result (lib core) found ∪ retmsg
    else <[KeyType.reason := VStr "Cannot find transaction"]>
           (<[KeyType.status := VError ENOTRANSACTION]> retmsg) in
  _process core socket dat log =
    (Ok (false, None),
     log ++ [ev_stats_increment "client" "num_message_receive";
             ev_search_by_condition b ag aid uid dir cnt;
             ev_send_message_to_user b reply (delivers d reply)])
  ∧ reply !! KeyType.command = Some (VMsgType MsgType.RESPONSE_SEARCH_WITH_CONDITIONS)
  ∧ (agreeing found ≠ [] →
     reply !! KeyType.status = Some (VError ESUCCESS)
     ∧ reply !! KeyType.transactions
       = Some (VList ((transaction_data ∘ snd) <$> agreeing found))
     ∧ listed KeyType.compromised_transactions reply
       = (transaction_data ∘ snd) <$> disagreeing found)
  ∧ (agreeing found = [] →
     reply !! KeyType.status = Some (VError ENOTRANSACTION)
     ∧ reply !! KeyType.reason = Some (VStr "Cannot find transaction")
     ∧ reply !! KeyType.transactions = None
     ∧ reply !! KeyType.compromised_transactions = None).
Proof.
  intros Hd Hcmd Hsrc Hqid Hdom ag aid uid dir cnt found retmsg reply.
  split; [|split; [|split]].
  - rewrite (process_registered _ _ _ b d _ src) by done.
    cbn [dispatch]. unfold on_search_with_conditions.
    erewrite bind_Ok by (apply param_check_present; repeat constructor; eauto).
    cbn [negb].
    erewrite bind_Ok by (by apply getitem_Some).
    erewrite bind_Ok by (by apply getitem_Some).
    cbv zeta.
    erewrite bind_Ok by (by apply search_with_condition_registered).
    fold ag aid uid dir cnt retmsg. subst reply found.
    destruct (search_transaction_by_condition (data d) ag aid uid dir cnt)
      as [[|item items]|] eqn:Hfound; cbn [default].
    + rewrite bool_decide_eq_false_2 by (intros H; by apply H).
      erewrite bind_Ok
        by (apply (error_reply_or_direct_registered _ _ _ _ _ b d);
            [apply make_message_structure_domain|done]).
      unfold ret. by rewrite <- !app_assoc.
    + destruct (decide (agreeing (item :: items) ≠ [])) as [Hsome|Hnone].
      * rewrite (bool_decide_eq_true_2 (agreeing _ ≠ [])) by done.
        rewrite bool_decide_eq_true_2 by (by apply create_search_result_has_valid).
        erewrite bind_Ok by reflexivity.
        unfold ret. by rewrite <- !app_assoc.
      * rewrite (bool_decide_eq_false_2 (agreeing _ ≠ [])) by done.
        rewrite bool_decide_eq_false_2 by (by rewrite create_search_result_has_valid).
        erewrite bind_Ok
        by (apply (error_reply_or_direct_registered _ _ _ _ _ b d);
            [apply make_message_structure_domain|done]).
        unfold ret. by rewrite <- !app_assoc.
    + rewrite bool_decide_eq_false_2 by (intros H; by apply H).
      erewrite bind_Ok
        by (apply (error_reply_or_direct_registered _ _ _ _ _ b d);
            [apply make_message_structure_domain|done]).
      unfold ret. by rewrite <- !app_assoc.
  - subst reply. case_bool_decide.
    + rewrite lookup_union_r by (by apply create_search_result_other_key).
      done.
    + done.
  - intros Hsome. subst reply. rewrite bool_decide_eq_true_2 by done.
    pose proof (create_search_result_lists_only (lib core) found) as Hshape.
    split; [|split].
    + rewrite lookup_union_r by (by apply create_search_result_other_key). done.
    + assert (Hl : _create_search_result (lib core) found !! KeyType.transactions
                   = Some (VList ((transaction_data ∘ snd) <$> agreeing found))).
      { rewrite (lists_only_lookup _ _ Hshape), create_search_result_transactions.
        rewrite decide_False; [done|]. intros H. apply fmap_nil_inv in H. done. }
      by rewrite (lookup_union_Some_l _ _ _ _ Hl).
    + rewrite <- create_search_result_compromised with (lib := lib core).
      unfold listed.
      destruct (_create_search_result (lib core) found !! KeyType.compromised_transactions)
        as [v|] eqn:E.
      * by rewrite (lookup_union_Some_l _ _ _ _ E).
      * by rewrite lookup_union_r.
  - intros Hnone. subst reply. rewrite bool_decide_eq_false_2 by (intros H; by apply H).
    done.
Qed.

(** When the ids settle the classification, the items with agreeing ids
    are the valid matches and the others the compromised ones. *)
Lemma settled_by_ids_matches lib d :
  settled_by_ids lib d →
  valid_matches lib d = agreeing d ∧ compromised_matches lib d = disagreeing d.
Proof.
  unfold settled_by_ids, valid_matches, compromised_matches, agreeing, disagreeing.
  induction 1 as [|kv d Hkv _ [IH1 IH2]]; [done|].
  rewrite !filter_cons, IH1, IH2.
  destruct (decide (kv.1 = transaction_id kv.2)) as [Heq|Hne].
  - rewrite decide_True by (split; [done|by apply Hkv]).
    rewrite decide_False by (intros H; apply H; split; [done|by apply Hkv]).
    rewrite decide_False by (intros H; by apply H).
    done.
  - rewrite decide_False by (by intros [? _]).
    rewrite decide_True by (by intros [? _]).
    rewrite decide_True by done.
    done.
Qed.

(** C6 (amended): a search-by-conditions request with its sender, query id
    and domain, on a registered domain, is answered through the routing
    table of the domain by one RESPONSE_SEARCH_WITH_CONDITIONS message.
    When at least one match is valid, that is has a recomputed id that
    agrees with its claimed id and passes the validation, the message has
    the status of success and carries the list of the valid matches,
    together with the list of the compromised matches when there are any;
    when the storage finds nothing, or compromised matches only, the
    message has the status ENOTRANSACTION and carries no list.  This is
    stated for the result sets whose classification the ids settle: a
    match with agreeing ids whose validation fails is outside, with
    C1. *)
Theorem C6_search_with_conditions_reply core socket dat b d src qid log :
  domains core !! b = Some d →
  dat !! KeyType.command = Some (VMsgType MsgType.REQUEST_SEARCH_WITH_CONDITIONS) →
  dat !! KeyType.source_user_id = Some src →
  dat !! KeyType.query_id = Some qid →
  dat !! KeyType.domain_id = Some (VBytes b) →
  let ag := get dat KeyType.asset_group_id VNone in
  let aid := get dat KeyType.asset_id VNone in
  let uid := get dat KeyType.user_id VNone in
  let dir := get dat KeyType.direction (VInt 0) in
  let cnt := get dat KeyType.count (VInt 1) in
  let found := default [] (search_transaction_by_condition (data d) ag aid uid dir cnt) in
  settled_by_ids (lib core) found →
  let valid := valid_matches (lib core) found in
  let compromised := compromised_matches (lib core) found in
  let retmsg := _make_message_structure (VBytes b)
                  MsgType.RESPONSE_SEARCH_WITH_CONDITIONS src qid in
  let reply :=
    if bool_decide (valid ≠ [])
    then _create_search_result (lib core) found ∪ retmsg
    else <[KeyType.reason := VStr "Cannot find transaction"]>
           (<[KeyType.status := VError ENOTRANSACTION]> retmsg) in
  _process core socket dat log =
    (Ok (false, None),
     log ++ [ev_stats_increment "client" "num_message_receive";
             ev_search_by_condition b ag aid uid dir cnt;
             ev_send_message_to_user b reply (delivers d reply)])
  ∧ reply !! KeyType.command = Some (VMsgType MsgType.RESPONSE_SEARCH_WITH_CONDITIONS)
  ∧ (valid ≠ [] →
     reply !! KeyType.status = Some (VError ESUCCESS)
     ∧ reply !! KeyType.transactions = Some (VList ((transaction_data ∘ snd) <$> valid))
     ∧ listed KeyType.compromised_transactions reply
       = (transaction_data ∘ snd) <$> compromised)
  ∧ (valid = [] →
     reply !! KeyType.status = Some (VError ENOTRANSACTION)
     ∧ reply !! KeyType.reason = Some (VStr "Cannot find transaction")
     ∧ reply !! KeyType.transactions = None
     ∧ reply !! KeyType.compromised_transactions = None).
Proof.
  intros Hd Hcmd Hsrc Hqid Hdom ag aid uid dir cnt found Hsettled valid compromised.
  destruct (settled_by_ids_matches _ _ Hsettled) as [Hvalid Hcompromised].
  subst valid compromised. rewrite Hvalid, Hcompromised.
  exact (process_search_with_conditions core socket dat b d src qid log
           Hd Hcmd Hsrc Hqid Hdom).
Qed.

Lemma C6_search_with_conditions_reply_witness :
  let core := condition_core (Some [("T1", tx "T1"); ("T2", tx "T3")]) in
  ∃ reply,
    _process core 0%nat search_request []
    = (Ok (false, None),
       [ev_stats_increment "client" "num_message_receive";
        ev_search_by_condition "D" (VBytes "g1") VNone VNone (VInt 0) (VInt 1);
        ev_send_message_to_user "D" reply true])
    ∧ reply !! KeyType.command = Some (VMsgType MsgType.RESPONSE_SEARCH_WITH_CONDITIONS)
    ∧ reply !! KeyType.status = Some (VError ESUCCESS)
    ∧ reply !! KeyType.transactions = Some (VList [transaction_data (tx "T1")])
    ∧ listed KeyType.compromised_transactions reply = [transaction_data (tx "T3")].
Proof.
  cbv zeta.
  assert (Hsettled : settled_by_ids accepting_lib [("T1", tx "T1"); ("T2", tx "T3")])
    by (repeat constructor).
  destruct (C6_search_with_conditions_reply
              (condition_core (Some [("T1", tx "T1"); ("T2", tx "T3")])) 0%nat
              search_request "D" (condition_domain (Some [("T1", tx "T1"); ("T2", tx "T3")]))
              (VBytes "user1") (VBytes "q1") [] eq_refl eq_refl eq_refl eq_refl eq_refl
              Hsettled)
    as (Hrun & Hcmd & Hsome & _).
  destruct Hsome as (Hstatus & Hvalid & Hcompromised); [by vm_compute|].
  eexists. split; [exact Hrun|]. split; [exact Hcmd|]. split; [exact Hstatus|].
  split; [exact Hvalid|exact Hcompromised].
Defined.

(** ** Missing mandatory keys *)

(** On a message of a registered domain, a missing key is answered through
    the routing table of the domain with the received message itself,
    marked with the status and the reason. *)
Lemma param_check_missing_registered core param dat b d log :
  domains core !! b = Some d →
  dat !! KeyType.domain_id = Some (VBytes b) →
  Exists (λ p, dat !! p = None) param →
  let reply := <[KeyType.reason := VStr "lack of mandatory params"]>
                 (<[KeyType.status := VError EINVALID_COMMAND]> dat) in
  _param_check core param dat log =
    (Ok false, log ++ [ev_send_message_to_user b reply (delivers d reply)]).
Proof.
  intros Hd Hdom Hmiss reply.
  induction param as [|p param IH]; [by apply Exists_nil in Hmiss|].
  cbn [_param_check]. case_bool_decide as Hp.
  - unfold _error_reply.
    erewrite bind_Ok; [reflexivity|].
    erewrite bind_Ok.
    2: { apply getitem_Some. rewrite !lookup_insert_ne by done. exact Hdom. }
    unfold bind, domains_contains, domains_getitem. cbn [hashable negb].
    rewrite Hd. unfold ret. rewrite bool_decide_eq_true_2 by eauto. reflexivity.
  - apply IH. apply Exists_cons in Hmiss as [Hmiss|Hmiss]; done.
Qed.

(** C4 (the code at the failing inputs), on a core that hosts the domain
    ["D"] only.  A search request without its required domain id makes
    [_process] raise [KeyError] before any reply is sent, and the
    connection loop ends there: the socket is closed and the next message
    of the same read is never processed.  A search request on the unknown
    domain ["X"] without its required transaction id gets no reply at
    all, neither through a routing table nor directly on the socket. *)
Theorem C4_missing_key_without_known_domain :
  let core := graph_core lone in
  search_without_domain !! KeyType.domain_id = None
  ∧ _process core 0%nat search_without_domain []
    = (Raise KeyError, [ev_stats_increment "client" "num_message_receive"])
  ∧ _handler core 0%nat [[search_without_domain; traverse_request "A" 3]] []
    = (Ok tt, [ev_stats_increment "client" "total_num";
               ev_stats_increment "client" "num_message_receive";
               ev_socket_closed 0%nat;
               ev_stats_decrement "client" "total_num"])
  ∧ search_without_txid_on_X !! KeyType.transaction_id = None
  ∧ domains core !! "X" = None
  ∧ _process core 0%nat search_without_txid_on_X []
    = (Ok (false, None), [ev_stats_increment "client" "num_message_receive"]).
Proof. cbv zeta. repeat split; by vm_compute. Qed.

(** ** Transaction admission *)

Lemma insert_transaction_None core txdata log :
  insert_transaction core VNone txdata log =
    (Ok (inl "Set up the domain, first!"),
     log ++ [ev_stats_increment "transaction" "insert_count";
             ev_stats_increment "transaction" "insert_fail_count"]).
Proof.
  unfold insert_transaction, bind, update_stats_increment, emit, ret. simpl.
  by rewrite <- app_assoc.
Qed.

(** On a registered domain the result has one of the shapes of the
    docstring, unless a length does not fit the one-byte fields of the
    notification. *)
Lemma insert_transaction_registered core b d txdata log :
  domains core !! b = Some d →
  let r := (insert_transaction core (VBytes b) txdata log).1 in
  r = Ok (inl "Bad transaction format")
  ∨ r = Ok (inl "Failed to insert a transaction into the ledger")
  ∨ (∃ txid, r = Ok (inr {[ KeyType.transaction_id := VBytes txid ]}))
  ∨ r = Raise OverflowError.
Proof.
  intros Hd. unfold insert_transaction, validate_transaction, send_inserted_notification,
    to_bytes_1, domains_getitem, bind, update_stats_increment, emit, ret, raise.
  simpl. rewrite Hd.
  destruct (deserialize (lib core) txdata) as [txobj|]; simpl; [|by left].
  destruct (validate_transaction_object _ _) as [[[|] valid] invalid]; simpl; [|by left].
  destruct (insert_transaction_in (data d) txdata _) as [groups|]; simpl; [|by right; left].
  repeat (destruct (_ <? 256)%nat; simpl; [|by right; right; right]).
  right. right. left. eexists. rewrite insert_empty. reflexivity.
Qed.

(** C5 (the code at the failing input), on a core that hosts the domain
    ["D"] only: the insertion of a transaction that deserializes and
    validates, on the domain ["X"], raises [KeyError] instead of returning
    a reason; the dispatcher lets the exception through and the
    connection loop ends. *)
Theorem C5_unregistered_domain_raises :
  let core := graph_core lone in
  domains core !! "X" = None
  ∧ (∃ txobj, deserialize (lib core) (VBytes "T1") = Some txobj
              ∧ validate_transaction_object (lib core) txobj = (true, [], []))
  ∧ insert_transaction core (VBytes "X") (VBytes "T1") []
    = (Raise KeyError, [ev_stats_increment "transaction" "insert_count"])
  ∧ _process core 0%nat insert_on_X []
    = (Raise KeyError, [ev_stats_increment "client" "num_message_receive";
                        ev_stats_increment "transaction" "insert_count"])
  ∧ _handler core 0%nat [[insert_on_X; traverse_request "A" 3]] []
    = (Ok tt, [ev_stats_increment "client" "total_num";
               ev_stats_increment "client" "num_message_receive";
               ev_stats_increment "transaction" "insert_count";
               ev_socket_closed 0%nat;
               ev_stats_decrement "client" "total_num"]).
Proof.
  cbv zeta. split; [by vm_compute|]. split; [eexists; split; reflexivity|].
  repeat split; by vm_compute.
Qed.

(** * Further properties of the core *)

(** ** The size of the tree *)

Lemma visit_tree_size dh ag uid past w txid :
  (length (concat (txtree w)) + length (tx_brothers w) ≤ length (txids w))%nat →
  let w' := (visit dh ag uid past w txid).1 in
  (length (concat (txtree w')) + length (tx_brothers w') ≤ length (txids w'))%nat.
Proof.
  intros Hw w'.
  pose proof (visit_frame dh ag uid past w txid) as (_ & Htree & _).
  fold w' in Htree. rewrite Htree.
  destruct (visit_result dh ag uid past w txid) as [Hsame|(_ & Hids & Hk)];
    fold w' in Hsame || fold w' in Hids, Hk.
  - by rewrite Hsame.
  - rewrite Hids, length_app. simpl.
    destruct (kept dh ag uid txid).
    + destruct Hk as (-> & _). rewrite length_app. simpl. lia.
    + destruct Hk as (-> & _). lia.
Qed.

Lemma visit_all_tree_size dh ag uid past ids w :
  (length (concat (txtree w)) + length (tx_brothers w) ≤ length (txids w))%nat →
  let w' := (visit_all dh ag uid past w ids).1 in
  (length (concat (txtree w')) + length (tx_brothers w') ≤ length (txids w'))%nat.
Proof.
  revert w. induction ids as [|txid ids IH]; intros w Hw; simpl; [done|].
  pose proof (visit_tree_size dh ag uid past w txid Hw) as Hv.
  destruct (visit dh ag uid past w txid) as [w' [e|]]; simpl in *; [done|].
  by apply IH.
Qed.

Lemma traverse_loop_tree_size dh ag uid past n w :
  (length (concat (txtree w)) ≤ length (txids w))%nat →
  let w' := (traverse_loop dh ag uid past n w).1 in
  (length (concat (txtree w')) ≤ length (txids w'))%nat.
Proof.
  revert w. induction n as [|n IH]; intros w Hw; cbn [traverse_loop]; [done|].
  cbv zeta. destruct (_ <? _)%nat; [done|].
  pose proof (visit_all_tree_size dh ag uid past (current_txids w) (count_hop (begin_layer w)))
    as Hv.
  cbn [current_txids begin_layer].
  destruct (visit_all _ _ _ _ _ _) as [w1 [e|]]; simpl in *.
  - assert (H : (length (concat (txtree w1)) + length (tx_brothers w1)
                 ≤ length (txids w1))%nat) by (apply Hv; lia). lia.
  - apply IH. simpl.
    assert (H : (length (concat (txtree w1)) + length (tx_brothers w1)
                 ≤ length (txids w1))%nat) by (apply Hv; lia).
    destruct (0 <? length (tx_brothers w1))%nat; [|lia].
    rewrite concat_app, length_app. simpl. rewrite app_nil_r. lia.
Qed.

Lemma traverse_loop_layers_le dh ag uid past n w :
  (length (layers w) ≤ hops w)%nat →
  let w' := (traverse_loop dh ag uid past n w).1 in
  (length (layers w') ≤ hops w')%nat.
Proof.
  revert w. induction n as [|n IH]; intros w Hw; cbn [traverse_loop]; [done|].
  cbv zeta. destruct (_ <? _)%nat; [done|].
  pose proof (visit_all_frame dh ag uid past (current_txids w) (count_hop (begin_layer w)))
    as (_ & _ & Hh & Hl & _).
  cbn [current_txids begin_layer].
  destruct (visit_all _ _ _ _ _ _) as [w1 [e|]]; simpl in *.
  - rewrite Hl, Hh. lia.
  - apply IH. simpl. rewrite length_app, Hl, Hh. simpl. lia.
Qed.

(** X1: the tree of a walk, raised exception or not, holds at most as many
    serialized transactions as ids were visited, hence at most 30, in at
    most as many layers as were entered, hence at most 60 and at most the
    hop count asked for. *)
Theorem traverse_tree_size dh txid ag uid dir h :
  let w := (traverse dh txid ag uid dir h).1 in
  (length (concat (txtree w)) ≤ length (txids w) ≤ 30)%nat
  ∧ (length (txtree w) ≤ hops w ≤ 60)%nat
  ∧ (Z.of_nat (length (txtree w)) ≤ Z.max 0 h)%Z.
Proof.
  intros w.
  destruct (traverse_inv dh txid ag uid dir h) as ((Hc & _) & Hcap & Hh & Hhz).
  fold w in Hc, Hcap, Hh, Hhz.
  destruct (traverse_tree dh txid ag uid dir h) as ((k & Hk) & _ & _). fold w in Hk.
  assert (Hsize : (length (concat (txtree w)) ≤ length (txids w))%nat).
  { subst w. rewrite traverse_unfold.
    destruct (60 <? h)%Z; apply traverse_loop_tree_size; simpl; lia. }
  assert (Hlay : (length (layers w) ≤ hops w)%nat).
  { subst w. rewrite traverse_unfold.
    destruct (60 <? h)%Z; apply traverse_loop_layers_le; simpl; lia. }
  assert (Hlen : (length (txtree w) ≤ hops w)%nat).
  { rewrite Hk, length_app in Hlay. lia. }
  unfold TX_TRAVERSAL_MAX in *. repeat split; lia.
Qed.

(** ** What the tree holds *)

(** X2: with or without a filter, every serialized transaction of the tree
    is the [transaction_data] of the object the storage returned under an
    id that the walk visited. *)
Theorem traverse_tree_from_storage dh txid ag uid dir h :
  let w := (traverse dh txid ag uid dir h).1 in
  ∀ layer txdata, layer ∈ txtree w → txdata ∈ layer →
    ∃ id ret_txobj txobj,
      id ∈ txids w ∧ search_transaction dh id = Some ret_txobj
      ∧ dict_get ret_txobj id = Some txobj ∧ txdata = transaction_data txobj.
Proof.
  intros w layer txdata Hl Hd.
  destruct (traverse_kept_inv dh txid ag uid dir h) as (_ & _ & Ht). fold w in Ht.
  rewrite Forall_forall in Ht. specialize (Ht layer Hl).
  rewrite Forall_forall in Ht. destruct (Ht txdata Hd) as (id & Hid & Hk).
  apply kept_Some in Hk as (ret_txobj & txobj & Hs & Hg & -> & _).
  by exists id, ret_txobj, txobj.
Qed.

Lemma traverse_tree_from_storage_witness :
  ∃ id ret_txobj txobj,
    id ∈ txids (traverse (graph_dh lone) (VBytes "A") VNone VNone (VInt 1) 1).1
    ∧ search_transaction (graph_dh lone) id = Some ret_txobj
    ∧ dict_get ret_txobj id = Some txobj
    ∧ "data:A" = transaction_data txobj.
Proof.
  apply (traverse_tree_from_storage (graph_dh lone) (VBytes "A") VNone VNone (VInt 1) 1
           ["data:A"] "data:A"); vm_compute; constructor.
Defined.

(** ** A start transaction that the storage does not hold *)

Lemma traverse_loop_idle_calls dh ag uid past n w :
  current_txids w = [] → (tx_count w ≤ TX_TRAVERSAL_MAX)%nat →
  let r := traverse_loop dh ag uid past n w in
  calls r.1 = calls w ∧ txids r.1 = txids w.
Proof.
  revert w. induction n as [|n IH]; intros w Hcur Hc; cbn [traverse_loop]; [done|].
  cbv zeta. cbn [tx_count current_txids begin_layer]. rewrite Hcur.
  cbn [length visit_all]. rewrite Nat.add_0_r.
  apply Nat.ltb_ge in Hc. rewrite Hc.
  destruct (IH (end_layer (count_hop (begin_layer w)))) as (H1 & H2);
    [done|simpl; by apply Nat.ltb_ge|].
  done.
Qed.

Lemma visit_unknown dh ag uid past w txid :
  hashable txid = true → txid ∉ txids w →
  default [] (search_transaction dh txid) = [] →
  visit dh ag uid past w txid
  = (log_call (call_search_transaction txid) (mark_visited txid w), None).
Proof.
  intros Hh Hnin Hs. unfold visit. rewrite Hh. cbn [negb].
  rewrite bool_decide_eq_false_2 by done.
  destruct (search_transaction dh txid) as [ret_txobj|]; [|done].
  simpl in Hs. by subst ret_txobj.
Qed.

(** X3: a walk of at least one hop from an id under which the storage holds
    nothing looks this id up, makes no other storage call and returns an
    empty tree; the flag is set unless the hop count is above 60. *)
Theorem traverse_unknown_start dh txid ag uid dir h :
  (1 ≤ h)%Z → hashable txid = true →
  default [] (search_transaction dh txid) = [] →
  let r := traverse dh txid ag uid dir h in
  r.2 = None ∧ txtree r.1 = [] ∧ calls r.1 = [call_search_transaction txid]
  ∧ include_all_flag r.1 = bool_decide (h ≤ 60)%Z.
Proof.
  intros Hh Hhash Hs. cbv zeta. rewrite traverse_unfold.
  assert (Hstep : ∀ n w0,
    w0 = initial_walk txid ∨ w0 = clear_flag (initial_walk txid) →
    let r := traverse_loop dh ag uid (eq_one dir) (S n) w0 in
    r.2 = None ∧ txtree r.1 = [] ∧ calls r.1 = [call_search_transaction txid]
    ∧ include_all_flag r.1 = include_all_flag w0).
  { intros n w0 Hw0. cbn [traverse_loop]. cbv zeta.
    assert (Hcap : (TX_TRAVERSAL_MAX <? tx_count (begin_layer w0)
                      + length (current_txids (begin_layer w0)))%nat = false)
      by (by destruct Hw0 as [-> | ->]).
    rewrite Hcap.
    assert (Hcur : current_txids (begin_layer w0) = [txid]) by (by destruct Hw0 as [-> | ->]).
    rewrite Hcur. cbn [visit_all].
    rewrite visit_unknown; [|done| |done].
    2: { destruct Hw0 as [-> | ->]; apply not_elem_of_nil. }
    destruct (traverse_loop_idle dh ag uid (eq_one dir) n
                (end_layer (log_call (call_search_transaction txid)
                              (mark_visited txid (count_hop (begin_layer w0))))))
      as (H1 & H2 & H3);
      [by destruct Hw0 as [-> | ->]|by destruct Hw0 as [-> | ->]; vm_compute; lia|].
    destruct (traverse_loop_idle_calls dh ag uid (eq_one dir) n
                (end_layer (log_call (call_search_transaction txid)
                              (mark_visited txid (count_hop (begin_layer w0))))))
      as (H4 & _);
      [by destruct Hw0 as [-> | ->]|by destruct Hw0 as [-> | ->]; vm_compute; lia|].
    split; [done|]. rewrite H2, H3, H4. by destruct Hw0 as [-> | ->]. }
  destruct (60 <? h)%Z eqn:E.
  - apply Z.ltb_lt in E. rewrite bool_decide_eq_false_2 by lia.
    apply (Hstep 59%nat). by right.
  - apply Z.ltb_ge in E. rewrite bool_decide_eq_true_2 by lia.
    destruct (Z.to_nat h) as [|n] eqn:Hn; [lia|].
    apply (Hstep n). by left.
Qed.

Lemma traverse_unknown_start_witness :
  let r := traverse (graph_dh lone) (VBytes "Z") VNone VNone (VInt 1) 3 in
  search_transaction (graph_dh lone) (VBytes "Z") = Some []
  ∧ r.2 = None ∧ txtree r.1 = [] ∧ calls r.1 = [call_search_transaction (VBytes "Z")]
  ∧ include_all_flag r.1 = true.
Proof.
  split; [reflexivity|].
  exact (traverse_unknown_start (graph_dh lone) (VBytes "Z") VNone VNone (VInt 1) 3
           ltac:(lia) eq_refl eq_refl).
Defined.

(** ** Identifiers that are None *)

(** X4: [_traverse_transactions] answers [None], without any call on the
    storage, when the domain id or the transaction id is [None]; the
    dispatcher then fails to unpack the answer: a traversal request on a
    registered domain whose transaction id is [None] raises [TypeError] in
    [_process]. *)
Theorem traverse_None_sentinel core socket dat b d src qid dir hop log :
  domains core !! b = Some d →
  dat !! KeyType.command = Some (VMsgType MsgType.REQUEST_TRAVERSE_TRANSACTIONS) →
  dat !! KeyType.source_user_id = Some src →
  dat !! KeyType.query_id = Some qid →
  dat !! KeyType.domain_id = Some (VBytes b) →
  dat !! KeyType.transaction_id = Some VNone →
  dat !! KeyType.direction = Some dir →
  dat !! KeyType.hop_count = Some hop →
  (∀ domain_id txid ag uid,
     domain_id = VNone ∨ txid = VNone →
     _traverse_transactions core domain_id txid ag uid dir hop log
     = (Ok None, log ++ [ev_stats_increment "transaction" "search_count"]))
  ∧ _process core socket dat log
    = (Raise TypeError,
       log ++ [ev_stats_increment "client" "num_message_receive";
               ev_stats_increment "transaction" "search_count"]).
Proof.
  intros Hd Hcmd Hsrc Hqid Hdom Htx Hdir Hhop.
  assert (Hnone : ∀ domain_id txid ag uid l,
     domain_id = VNone ∨ txid = VNone →
     _traverse_transactions core domain_id txid ag uid dir hop l
     = (Ok None, l ++ [ev_stats_increment "transaction" "search_count"])).
  { intros domain_id txid ag uid l Hor. unfold _traverse_transactions.
    erewrite bind_Ok by reflexivity.
    destruct Hor as [-> | ->]; [done|]. by case_bool_decide. }
  split; [intros; by apply Hnone|].
  rewrite (process_registered _ _ _ b d _ src) by done.
  cbn [dispatch]. unfold on_traverse_transactions.
  erewrite bind_Ok by (apply param_check_present; repeat constructor; eauto).
  cbn [negb].
  erewrite bind_Ok by (by apply getitem_Some).
  erewrite bind_Ok by (by apply getitem_Some).
  erewrite bind_Ok by (by apply getitem_Some).
  cbv zeta.
  erewrite bind_Ok by (by apply getitem_Some).
  erewrite bind_Ok by (by apply getitem_Some).
  erewrite bind_Ok by (apply Hnone; by right).
  unfold raise. by rewrite <- app_assoc.
Qed.

Lemma traverse_None_sentinel_witness :
  _process (graph_core lone) 0%nat traverse_None_request []
  = (Raise TypeError,
     [ev_stats_increment "client" "num_message_receive";
      ev_stats_increment "transaction" "search_count"]).
Proof.
  exact (proj2 (traverse_None_sentinel (graph_core lone) 0%nat traverse_None_request
                  "D" (graph_domain lone) (VBytes "user1") (VBytes "q1") (VInt 1) (VInt 3) []
                  eq_refl eq_refl eq_refl eq_refl eq_refl eq_refl eq_refl eq_refl)).
Defined.

(** ** The classification of search results *)

Lemma agreeing_disagreeing_length (d : list (bytes * BBcTransaction)) :
  (length (agreeing d) + length (disagreeing d) = length d)%nat.
Proof.
  unfold agreeing, disagreeing. induction d as [|[k o] d IH]; [done|].
  rewrite !filter_cons. simpl.
  destruct (decide (k = transaction_id o)).
  - rewrite decide_False by (intros H; by apply H). simpl. lia.
  - rewrite decide_True by done. simpl. lia.
Qed.

(** X5: [_create_search_result] splits the items it is given, keeping their
    order: the data of the pairs whose ids agree under the valid key, the
    data of the others under the compromised key; a key is present exactly
    when its list is not empty, and the result holds no other key. *)
Theorem create_search_result_partition lib d :
  let r := _create_search_result lib d in
  listed KeyType.transactions r = (transaction_data ∘ snd) <$> agreeing d
  ∧ listed KeyType.compromised_transactions r = (transaction_data ∘ snd) <$> disagreeing d
  ∧ (is_Some (r !! KeyType.transactions) ↔ agreeing d ≠ [])
  ∧ (is_Some (r !! KeyType.compromised_transactions) ↔ disagreeing d ≠ [])
  ∧ (∀ k, k ≠ KeyType.transactions → k ≠ KeyType.compromised_transactions → r !! k = None)
  ∧ (length (listed KeyType.transactions r)
     + length (listed KeyType.compromised_transactions r) = length d)%nat.
Proof.
  intros r. subst r.
  split; [apply create_search_result_transactions|].
  split; [apply create_search_result_compromised|].
  split; [apply create_search_result_has_valid|].
  split.
  - rewrite (lists_only_lookup _ _ (create_search_result_lists_only lib d)).
    rewrite create_search_result_compromised.
    case_decide as H.
    + apply fmap_nil_inv in H. rewrite H. split; [by intros [? ?]|done].
    + split; [|by eauto]. intros _ Hnil. apply H. by rewrite Hnil.
  - split; [intros k; apply create_search_result_other_key|].
    rewrite create_search_result_transactions, create_search_result_compromised.
    rewrite !length_fmap. apply agreeing_disagreeing_length.
Qed.

(** ** Search by transaction id *)

Lemma create_search_result_lookup_valid lib d :
  _create_search_result lib d !! KeyType.transactions
  = match agreeing d with
    | [] => None
    | items => Some (VList ((transaction_data ∘ snd) <$> items))
    end.
Proof.
  rewrite (lists_only_lookup _ _ (create_search_result_lists_only lib d)).
  rewrite create_search_result_transactions.
  by destruct (agreeing d).
Qed.

Lemma create_search_result_lookup_compromised lib d :
  _create_search_result lib d !! KeyType.compromised_transactions
  = match disagreeing d with
    | [] => None
    | items => Some (VList ((transaction_data ∘ snd) <$> items))
    end.
Proof.
  rewrite (lists_only_lookup _ _ (create_search_result_lists_only lib d)).
  rewrite create_search_result_compromised.
  by destruct (disagreeing d).
Qed.

Lemma search_by_txid_registered core b d txid log :
  domains core !! b = Some d → txid ≠ VNone →
  _search_transaction_by_txid core (VBytes b) txid log =
    (Ok (match search_transaction (data d) txid with
         | Some (item :: items) => Some (unwrapped (lib core) txid (item :: items))
         | _ => None
         end),
     log ++ [ev_stats_increment "transaction" "search_count";
             ev_storage b (call_search_transaction txid)]).
Proof.
  intros Hd Hne. unfold _search_transaction_by_txid.
  erewrite bind_Ok by reflexivity.
  rewrite bool_decide_eq_false_2 by done.
  rewrite (bool_decide_eq_false_2 (txid = VNone)) by done. cbv beta iota.
  unfold bind at 1. unfold domains_getitem. cbn [hashable negb]. rewrite Hd.
  unfold ret at 1. unfold bind at 1. unfold emit at 1.
  rewrite <- app_assoc. cbn [app].
  destruct (search_transaction (data d) txid) as [[|item items]|]; [done| |done].
  cbn [length Nat.eqb]. cbv zeta.
  rewrite !lookup_insert_ne by done.
  rewrite create_search_result_lookup_valid, create_search_result_lookup_compromised.
  unfold unwrapped.
  pose proof (agreeing_disagreeing_length (item :: items)) as Hlen.
  destruct (agreeing (item :: items)) as [|[k o] rest] eqn:Ha.
  - destruct (disagreeing (item :: items)) as [|[k o] rest] eqn:Hdis;
      [simpl in Hlen; lia|].
    rewrite bool_decide_eq_false_2 by (by intros [? ?]).
    rewrite bool_decide_eq_true_2 by eauto.
    unfold bind, unwrap_first.
    rewrite lookup_insert_ne by done.
    by rewrite create_search_result_lookup_compromised, Hdis.
  - rewrite bool_decide_eq_true_2 by eauto.
    unfold bind, unwrap_first.
    rewrite lookup_insert_ne by done.
    by rewrite create_search_result_lookup_valid, Ha.
Qed.

Lemma disagreeing_all (d : list (bytes * BBcTransaction)) :
  agreeing d = [] → disagreeing d = d.
Proof.
  unfold agreeing, disagreeing. induction d as [|[k o] d IH]; [done|].
  rewrite !filter_cons. simpl.
  destruct (decide (k = transaction_id o)); [done|].
  intros H. rewrite decide_True by done. by rewrite IH.
Qed.

(** X6: on a registered domain and for a transaction id that is not [None],
    [_search_transaction_by_txid] looks the id up once and answers [None]
    when the storage finds nothing; otherwise it answers a dict with the
    transaction id, without the key [transactions], and with the data of
    the first item whose ids agree under [transaction_data], or, when no
    item has agreeing ids, with the data of the first item under
    [compromised_transaction_data]; it never holds both. *)
Theorem search_by_txid_result core b d txid log :
  domains core !! b = Some d → txid ≠ VNone →
  let items := default [] (search_transaction (data d) txid) in
  let log' := log ++ [ev_stats_increment "transaction" "search_count";
                      ev_storage b (call_search_transaction txid)] in
  (items = [] → _search_transaction_by_txid core (VBytes b) txid log = (Ok None, log'))
  ∧ (items ≠ [] →
     ∃ r, _search_transaction_by_txid core (VBytes b) txid log = (Ok (Some r), log')
          ∧ r !! KeyType.transaction_id = Some txid
          ∧ r !! KeyType.transactions = None
          ∧ match agreeing items with
            | (_, txobj) :: _ =>
                r !! KeyType.transaction_data = Some (VBytes (transaction_data txobj))
                ∧ r !! KeyType.compromised_transaction_data = None
            | [] =>
                r !! KeyType.transaction_data = None
                ∧ r !! KeyType.compromised_transactions = None
                ∧ ∃ txobj, (transaction_data ∘ snd) <$> head items
                           = Some (transaction_data txobj)
                           ∧ r !! KeyType.compromised_transaction_data
                             = Some (VBytes (transaction_data txobj))
            end).
Proof.
  intros Hd Hne items log'. subst log'.
  rewrite (search_by_txid_registered _ _ d) by done.
  subst items.
  destruct (search_transaction (data d) txid) as [[|item items]|];
    cbn [default from_option id];
    (split; [try done|]); try done.
  intros _. eexists. split; [reflexivity|].
  unfold unwrapped.
  pose proof (agreeing_disagreeing_length (item :: items)) as Hlen.
  pose proof (create_search_result_other_key (lib core) (item :: items)) as Hother.
  destruct (agreeing (item :: items)) as [|[k o] rest] eqn:Ha.
  - destruct (disagreeing (item :: items)) as [|[k o] rest] eqn:Hdis;
      [simpl in Hlen; lia|].
    rewrite disagreeing_all in Hdis by done. injection Hdis as -> ->.
    repeat split.
    + by rewrite lookup_delete_ne, lookup_insert_ne, lookup_insert_eq.
    + rewrite lookup_delete_ne, !lookup_insert_ne by done.
      rewrite create_search_result_lookup_valid. by rewrite Ha.
    + rewrite lookup_delete_ne, !lookup_insert_ne by done. by apply Hother.
    + by rewrite lookup_delete_eq.
    + exists o. split; [done|].
      by rewrite lookup_delete_ne, lookup_insert_eq.
  - repeat split.
    + by rewrite lookup_delete_ne, lookup_insert_ne, lookup_insert_eq.
    + by rewrite lookup_delete_eq.
    + by rewrite lookup_delete_ne, lookup_insert_eq.
    + rewrite lookup_delete_ne, !lookup_insert_ne by done. by apply Hother.
Qed.

Lemma search_by_txid_result_witness :
  ∃ r, _search_transaction_by_txid (graph_core lone) (VBytes "D") (VBytes "A") []
       = (Ok (Some r), [ev_stats_increment "transaction" "search_count";
                        ev_storage "D" (call_search_transaction (VBytes "A"))])
       ∧ r !! KeyType.transaction_id = Some (VBytes "A")
       ∧ r !! KeyType.transactions = None.
Proof.
  destruct (proj2 (search_by_txid_result (graph_core lone) "D" (graph_domain lone)
                     (VBytes "A") [] eq_refl ltac:(discriminate)) ltac:(discriminate))
    as (r & Hrun & Hid & Htxs & _).
  exists r. exact (conj Hrun (conj Hid Htxs)).
Defined.

Lemma unwrapped_other_key lib txid items k :
  k ≠ KeyType.transaction_id → k ≠ KeyType.transaction_data →
  k ≠ KeyType.compromised_transaction_data →
  k ≠ KeyType.transactions → k ≠ KeyType.compromised_transactions →
  unwrapped lib txid items !! k = None.
Proof.
  intros H1 H2 H3 H4 H5. unfold unwrapped.
  destruct (agreeing items) as [|[? ?] ?], (disagreeing items) as [|[? ?] ?];
    rewrite ?lookup_delete_ne, ?lookup_insert_ne by done;
    by apply create_search_result_other_key.
Qed.

Lemma unwrapped_compromised_data lib txid items :
  items ≠ [] →
  (is_Some (unwrapped lib txid items !! KeyType.compromised_transaction_data)
   ↔ agreeing items = []).
Proof.
  intros Hne. unfold unwrapped.
  pose proof (agreeing_disagreeing_length items) as Hlen.
  pose proof (create_search_result_other_key lib items
                KeyType.compromised_transaction_data) as Hother.
  destruct (agreeing items) as [|[? ?] ?] eqn:Ha.
  - destruct (disagreeing items) as [|[? ?] ?] eqn:Hdis.
    + destruct items; [done|simpl in Hlen; lia].
    + rewrite lookup_delete_ne, lookup_insert_eq by done. split; eauto.
  - rewrite lookup_delete_ne, !lookup_insert_ne by done.
    rewrite Hother by done. split; [by intros [? ?]|done].
Qed.

(** X7: a search request by id with its sender, query id and a transaction id
    that is not [None], on a registered domain, is answered through the
    routing table of the domain by one RESPONSE_SEARCH_TRANSACTION message
    addressed to the sender with the query id of the request; its status is
    ENOTRANSACTION when the storage finds nothing, success when some item
    found has agreeing ids, and EBADTRANSACTION when none has. *)
Theorem process_search_by_id core socket dat b d src qid txid log :
  domains core !! b = Some d →
  dat !! KeyType.command = Some (VMsgType MsgType.REQUEST_SEARCH_TRANSACTION) →
  dat !! KeyType.source_user_id = Some src →
  dat !! KeyType.query_id = Some qid →
  dat !! KeyType.domain_id = Some (VBytes b) →
  dat !! KeyType.transaction_id = Some txid → txid ≠ VNone →
  let items := default [] (search_transaction (data d) txid) in
  ∃ reply,
    _process core socket dat log =
      (Ok (false, None),
       log ++ [ev_stats_increment "client" "num_message_receive";
               ev_stats_increment "transaction" "search_count";
               ev_storage b (call_search_transaction txid);
               ev_send_message_to_user b reply (delivers d reply)])
    ∧ reply !! KeyType.command = Some (VMsgType MsgType.RESPONSE_SEARCH_TRANSACTION)
    ∧ reply !! KeyType.destination_user_id = Some src
    ∧ reply !! KeyType.query_id = Some qid
    ∧ reply !! KeyType.status
      = Some (VError (match items with
                      | [] => ENOTRANSACTION
                      | _ => if decide (agreeing items = []) then EBADTRANSACTION
                             else ESUCCESS
                      end)).
Proof.
  intros Hd Hcmd Hsrc Hqid Hdom Htx Hne items.
  rewrite (process_registered _ _ _ b d _ src) by done.
  cbn [dispatch]. unfold on_search_transaction.
  erewrite bind_Ok by (apply param_check_present; repeat constructor; eauto).
  cbn [negb].
  erewrite bind_Ok by (by apply getitem_Some).
  erewrite bind_Ok by (by apply getitem_Some).
  cbv zeta.
  erewrite bind_Ok by (by apply getitem_Some).
  erewrite bind_Ok by (by apply (search_by_txid_registered _ _ d)).
  subst items.
  destruct (search_transaction (data d) txid) as [[|item items]|];
    cbn [default from_option id].
  - erewrite bind_Ok
      by (apply (error_reply_or_direct_registered _ _ _ _ _ b d);
          [apply make_message_structure_domain|done]).
    eexists. split; [unfold ret; by rewrite <- !app_assoc|]. by vm_compute.
  - erewrite bind_Ok by reflexivity.
    eexists. split; [unfold ret; by rewrite <- !app_assoc|].
    pose proof (unwrapped_other_key (lib core) txid (item :: items)) as Hother.
    pose proof (unwrapped_compromised_data (lib core) txid (item :: items)
                  ltac:(done)) as Hcomp.
    rewrite !lookup_union_r by (by apply Hother).
    case_decide as Ha.
    + rewrite bool_decide_eq_true_2 by (by apply Hcomp). by vm_compute.
    + rewrite bool_decide_eq_false_2 by (by rewrite Hcomp). by vm_compute.
  - erewrite bind_Ok
      by (apply (error_reply_or_direct_registered _ _ _ _ _ b d);
          [apply make_message_structure_domain|done]).
    eexists. split; [unfold ret; by rewrite <- !app_assoc|]. by vm_compute.
Qed.

Lemma process_search_by_id_witness :
  ∃ reply,
    _process (graph_core lone) 0%nat (search_by_id_request "A") []
    = (Ok (false, None),
       [ev_stats_increment "client" "num_message_receive";
        ev_stats_increment "transaction" "search_count";
        ev_storage "D" (call_search_transaction (VBytes "A"));
        ev_send_message_to_user "D" reply true])
    ∧ reply !! KeyType.status = Some (VError ESUCCESS).
Proof.
  destruct (process_search_by_id (graph_core lone) 0%nat (search_by_id_request "A")
              "D" (graph_domain lone) (VBytes "user1") (VBytes "q1") (VBytes "A") []
              eq_refl eq_refl eq_refl eq_refl eq_refl eq_refl ltac:(discriminate))
    as (reply & Hrun & _ & _ & _ & Hstatus).
  exists reply. split; [exact Hrun|exact Hstatus].
Defined.

(** ** The insertion notification *)

Lemma string_append_cons c (s1 s2 : string) :
  String c s1 +:+ s2 = String c (s1 +:+ s2).
Proof. reflexivity. Qed.

Lemma string_length_append (s1 s2 : string) :
  String.length (s1 +:+ s2) = (String.length s1 + String.length s2)%nat.
Proof.
  induction s1 as [|c s1 IH]; [done|].
  rewrite string_append_cons. simpl. by rewrite IH.
Qed.

Lemma string_append_assoc (s1 s2 s3 : string) :
  (s1 +:+ s2) +:+ s3 = s1 +:+ (s2 +:+ s3).
Proof.
  induction s1 as [|c s1 IH]; [done|].
  rewrite !string_append_cons. by rewrite IH.
Qed.

Lemma string_append_empty_r (s : string) : s +:+ "" = s.
Proof.
  induction s as [|c s IH]; [done|].
  rewrite string_append_cons. by rewrite IH.
Qed.

Lemma fold_left_append (groups : list string) (acc : string) :
  fold_left (λ acc a, acc +:+ a) groups acc
  = acc +:+ fold_right String.append "" groups.
Proof.
  revert acc. induction groups as [|g groups IH]; intros acc; cbn [fold_left fold_right].
  - by rewrite string_append_empty_r.
  - by rewrite IH, string_append_assoc.
Qed.

Lemma fold_right_append_length (groups : list string) :
  String.length (fold_right String.append "" groups)
  = sum_list (String.length <$> groups).
Proof.
  induction groups as [|g groups IH]; simpl; [done|].
  by rewrite string_length_append, IH.
Qed.

Lemma send_inserted_notification_run core domain_id groups txid log :
  send_inserted_notification core domain_id groups txid log
  = if (String.length txid <? 256)%nat && (String.length domain_id <? 256)%nat
       && (length groups <? 256)%nat
    then (Ok tt, log ++ [ev_broadcast_notification_message domain_id
                           (notification_frame txid domain_id groups)])
    else (Raise OverflowError, log).
Proof.
  unfold send_inserted_notification, to_bytes_1, bind, ret, raise, emit.
  destruct (String.length txid <? 256)%nat; [|done].
  destruct (String.length domain_id <? 256)%nat; [|done].
  destruct (length groups <? 256)%nat; [|done].
  cbn [andb]. do 3 f_equal. unfold notification_frame.
  rewrite fold_left_append. reflexivity.
Qed.

(** X8: [send_inserted_notification] broadcasts one record on the domain when
    the length of the transaction id, the length of the domain id and the
    number of asset groups are all below 256; the record is three bytes
    longer than the ids it carries.  Otherwise it raises [OverflowError]
    and broadcasts nothing. *)
Theorem send_inserted_notification_frame core domain_id groups txid log :
  let fits := (String.length txid <? 256)%nat && (String.length domain_id <? 256)%nat
              && (length groups <? 256)%nat in
  let frame := notification_frame txid domain_id groups in
  send_inserted_notification core domain_id groups txid log
  = (if fits then (Ok tt, log ++ [ev_broadcast_notification_message domain_id frame])
     else (Raise OverflowError, log))
  ∧ String.length frame
    = (3 + String.length txid + String.length domain_id
       + sum_list (String.length <$> groups))%nat.
Proof.
  cbv zeta. split.
  - apply send_inserted_notification_run.
  - unfold notification_frame. simpl.
    rewrite !string_length_append. simpl.
    rewrite fold_right_append_length. lia.
Qed.

Lemma send_inserted_notification_frame_witness :
  send_inserted_notification ledger_core "D" ["g1"] "T1" []
  = (Ok tt, [ev_broadcast_notification_message "D" (notification_frame "T1" "D" ["g1"])])
  ∧ String.length (notification_frame "T1" "D" ["g1"]) = 8%nat.
Proof.
  exact (send_inserted_notification_frame ledger_core "D" ["g1"] "T1" []).
Defined.

(** ** Admission: validate, then store, then notify *)

(** X9: a successful insertion: the data deserialize, the validation flag of
    the object with its recomputed id is set, the domain is registered
    and its storage has accepted the object; the record holds the
    recomputed id, and the insertion is followed by one notification on
    the domain. *)
Theorem insert_success_sound core domain_id txdata log record log' :
  insert_transaction core domain_id txdata log = (Ok (inr record), log') →
  ∃ b d parsed groups,
    domain_id = VBytes b ∧ domains core !! b = Some d
    ∧ deserialize (lib core) txdata = Some parsed
    ∧ (validate_transaction_object (lib core) (digested (lib core) parsed)).1.1 = true
    ∧ insert_transaction_in (data d) txdata (digested (lib core) parsed) = Some groups
    ∧ record = {[ KeyType.transaction_id := VBytes (digest (lib core) parsed) ]}
    ∧ log' = log ++ [ev_stats_increment "transaction" "insert_count";
                     ev_insert_transaction b txdata;
                     ev_broadcast_notification_message b
                       (notification_frame (digest (lib core) parsed) b groups)].
Proof.
  unfold insert_transaction. erewrite bind_Ok by reflexivity.
  case_bool_decide as Hnone.
  { unfold bind, update_stats_increment, emit, ret. intros [=]. }
  unfold validate_transaction, bind at 1.
  destruct (deserialize (lib core) txdata) as [parsed|] eqn:Hparse.
  2: { unfold bind, update_stats_increment, emit, ret. intros [=]. }
  fold (digested (lib core) parsed).
  destruct (validate_transaction_object (lib core) (digested (lib core) parsed))
    as [[flag valid] invalid] eqn:Hvalid.
  destruct flag.
  2: { unfold bind, update_stats_increment, emit, ret. intros [=]. }
  unfold ret at 1. unfold bind at 1, domains_getitem.
  destruct domain_id as [| | |b| | | | |]; try (by intros [=]).
  cbn [hashable negb].
  destruct (domains core !! b) as [d|] eqn:Hd; [|by intros [=]].
  unfold ret at 1. erewrite bind_Ok by reflexivity.
  destruct (insert_transaction_in (data d) txdata (digested (lib core) parsed))
    as [groups|] eqn:Hins.
  2: { unfold bind, update_stats_increment, emit, ret. intros [=]. }
  unfold bind at 1.
  rewrite (send_inserted_notification_run core b groups
                    (transaction_id (digested (lib core) parsed))).
  destruct (_ && _); [|intros [=]].
  unfold ret. intros [= <- <-].
  exists b, d, parsed, groups. rewrite Hvalid.
  split; [done|]. split; [done|]. split; [done|]. split; [done|]. split; [done|].
  split; [apply insert_empty|]. by rewrite <- !app_assoc.
Qed.

Lemma insert_success_sound_witness :
  ∃ b d parsed groups,
    VBytes "D" = VBytes b ∧ domains ledger_core !! b = Some d
    ∧ deserialize (lib ledger_core) (VBytes "T1") = Some parsed
    ∧ (validate_transaction_object (lib ledger_core)
         (digested (lib ledger_core) parsed)).1.1 = true
    ∧ insert_transaction_in (data d) (VBytes "T1") (digested (lib ledger_core) parsed)
      = Some groups
    ∧ ({[ KeyType.transaction_id := VBytes "T1" ]} : gmap string Value)
      = {[ KeyType.transaction_id := VBytes (digest (lib ledger_core) parsed) ]}
    ∧ [ev_stats_increment "transaction" "insert_count";
       ev_insert_transaction "D" (VBytes "T1");
       ev_broadcast_notification_message "D" (notification_frame "T1" "D" ["g1"])]
      = [] ++ [ev_stats_increment "transaction" "insert_count";
               ev_insert_transaction b (VBytes "T1");
               ev_broadcast_notification_message b
                 (notification_frame (digest (lib ledger_core) parsed) b groups)].
Proof.
  apply (insert_success_sound ledger_core (VBytes "D") (VBytes "T1") []).
  by vm_compute.
Defined.

(** X10: a refused insertion: the reason is one of three; the failure counter
    is incremented last and nothing is broadcast; and for "Bad transaction
    format" the data do not deserialize or the validation flag is not set,
    and the storage is not called. *)
Theorem insert_failure_accounts core domain_id txdata log reason log' :
  insert_transaction core domain_id txdata log = (Ok (inl reason), log') →
  (reason = "Set up the domain, first!" ∧ domain_id = VNone
   ∧ log' = log ++ [ev_stats_increment "transaction" "insert_count";
                    ev_stats_increment "transaction" "insert_fail_count"])
  ∨ (reason = "Bad transaction format"
     ∧ match deserialize (lib core) txdata with
       | None => True
       | Some parsed =>
           (validate_transaction_object (lib core) (digested (lib core) parsed)).1.1 = false
       end
     ∧ log' = log ++ [ev_stats_increment "transaction" "insert_count";
                      ev_stats_increment "transaction" "invalid";
                      ev_stats_increment "transaction" "insert_fail_count"])
  ∨ (reason = "Failed to insert a transaction into the ledger"
     ∧ ∃ b d parsed,
         domain_id = VBytes b ∧ domains core !! b = Some d
         ∧ deserialize (lib core) txdata = Some parsed
         ∧ insert_transaction_in (data d) txdata (digested (lib core) parsed) = None
         ∧ log' = log ++ [ev_stats_increment "transaction" "insert_count";
                          ev_insert_transaction b txdata;
                          ev_stats_increment "transaction" "insert_fail_count"]).
Proof.
  unfold insert_transaction. erewrite bind_Ok by reflexivity.
  case_bool_decide as Hnone.
  { unfold bind, update_stats_increment, emit, ret. intros [= <- <-].
    left. by rewrite <- !app_assoc. }
  unfold validate_transaction, bind at 1.
  destruct (deserialize (lib core) txdata) as [parsed|] eqn:Hparse.
  2: { unfold bind, update_stats_increment, emit, ret. intros [= <- <-].
       right. left. by rewrite <- !app_assoc. }
  fold (digested (lib core) parsed).
  destruct (validate_transaction_object (lib core) (digested (lib core) parsed))
    as [[flag valid] invalid] eqn:Hvalid.
  destruct flag.
  2: { unfold bind, update_stats_increment, emit, ret. intros [= <- <-].
       right. left. by rewrite <- !app_assoc. }
  unfold ret at 1. unfold bind at 1, domains_getitem.
  destruct domain_id as [| | |b| | | | |]; try (by intros [=]).
  cbn [hashable negb].
  destruct (domains core !! b) as [d|] eqn:Hd; [|by intros [=]].
  unfold ret at 1. erewrite bind_Ok by reflexivity.
  destruct (insert_transaction_in (data d) txdata (digested (lib core) parsed))
    as [groups|] eqn:Hins.
  - unfold bind at 1.
    rewrite (send_inserted_notification_run core b groups
                      (transaction_id (digested (lib core) parsed))).
    destruct (_ && _); intros [=].
  - unfold bind, update_stats_increment, emit, ret. intros [= <- <-].
    right. right. split; [done|]. exists b, d, parsed.
    repeat split; try done. by rewrite <- !app_assoc.
Qed.

Lemma insert_failure_accounts_witness :
  ∃ b d parsed,
    VBytes "D" = VBytes b ∧ domains (graph_core lone) !! b = Some d
    ∧ deserialize (lib (graph_core lone)) (VBytes "T1") = Some parsed
    ∧ insert_transaction_in (data d) (VBytes "T1")
        (digested (lib (graph_core lone)) parsed) = None.
Proof.
  assert (Hrun : insert_transaction (graph_core lone) (VBytes "D") (VBytes "T1") []
                 = (Ok (inl "Failed to insert a transaction into the ledger"),
                    [ev_stats_increment "transaction" "insert_count";
                     ev_insert_transaction "D" (VBytes "T1");
                     ev_stats_increment "transaction" "insert_fail_count"]))
    by (by vm_compute).
  destruct (insert_failure_accounts _ _ _ _ _ _ Hrun)
    as [(H & _)|[(H & _)|(_ & b & d & parsed & H1 & H2 & H3 & H4 & _)]];
    [discriminate H|discriminate H|].
  by exists b, d, parsed.
Defined.

(** ** Error replies *)

Lemma error_reply_hosted core msg err_code txt v log :
  msg !! KeyType.domain_id = Some v →
  _error_reply core msg err_code txt log =
    if hashable v then
      match hosted core v with
      | Some (b, d) =>
          (Ok (true, error_marked msg err_code txt),
           log ++ [ev_send_message_to_user b (error_marked msg err_code txt)
                     (delivers d (error_marked msg err_code txt))])
      | None => (Ok (false, error_marked msg err_code txt), log)
      end
    else (Raise TypeError, log).
Proof.
  intros Hdom. unfold _error_reply.
  erewrite bind_Ok.
  2: { apply getitem_Some. rewrite !lookup_insert_ne by done. exact Hdom. }
  unfold bind, domains_contains, domains_getitem, hosted.
  destruct v as [| | |b| | | | |]; try reflexivity.
  cbn [hashable negb]. unfold ret.
  destruct (domains core !! b) as [d|] eqn:Hd; cbn [fmap option_fmap option_map].
  - rewrite bool_decide_eq_true_2 by eauto. reflexivity.
  - rewrite bool_decide_eq_false_2 by (by intros [? ?]). reflexivity.
Qed.

Lemma error_reply_no_domain core msg err_code txt log :
  msg !! KeyType.domain_id = None →
  _error_reply core msg err_code txt log = (Raise KeyError, log).
Proof.
  intros Hdom. unfold _error_reply, bind, getitem.
  rewrite !lookup_insert_ne by done. by rewrite Hdom.
Qed.

Lemma error_reply_or_direct_run core socket domain_id cmd dstid qid err_code txt log :
  let reply := error_marked (_make_message_structure domain_id cmd dstid qid) err_code txt in
  error_reply_or_direct core socket (_make_message_structure domain_id cmd dstid qid)
    err_code txt log
  = if hashable domain_id then
      (Ok tt, log ++ [match hosted core domain_id with
                      | Some (b, d) => ev_send_message_to_user b reply (delivers d reply)
                      | None => ev_direct_send_to_user socket reply
                      end])
    else (Raise TypeError, log).
Proof.
  intros reply.
  unfold error_reply_or_direct. unfold bind.
  rewrite (error_reply_hosted _ _ _ _ domain_id) by apply make_message_structure_domain.
  destruct (hashable domain_id); [|done].
  fold reply. destruct (hosted core domain_id) as [[b d]|]; reflexivity.
Qed.

Ltac lookup_inserts :=
  repeat (rewrite lookup_insert; case_decide; try done).

(** X11: an error reply to a response built by [_make_message_structure]
    reaches the requester exactly once: through the routing table of the
    domain when the core hosts it, directly on the socket of the
    connection otherwise (also when the domain id is [None]); only a
    domain id that cannot be a dictionary key raises [TypeError], and then
    nothing is sent.  The reply carries the error code and the text, and
    keeps the command, the destination, the query id and the domain id of
    the response. *)
Theorem error_reply_one_answer core socket domain_id cmd dstid qid err_code txt log :
  let reply := error_marked (_make_message_structure domain_id cmd dstid qid) err_code txt in
  error_reply_or_direct core socket (_make_message_structure domain_id cmd dstid qid)
    err_code txt log
  = (if hashable domain_id then
       (Ok tt, log ++ [match hosted core domain_id with
                       | Some (b, d) => ev_send_message_to_user b reply (delivers d reply)
                       | None => ev_direct_send_to_user socket reply
                       end])
     else (Raise TypeError, log))
  ∧ reply !! KeyType.status = Some (VError err_code)
  ∧ reply !! KeyType.reason = Some (VStr txt)
  ∧ reply !! KeyType.command = Some (VMsgType cmd)
  ∧ reply !! KeyType.destination_user_id = Some dstid
  ∧ reply !! KeyType.query_id = Some qid
  ∧ reply !! KeyType.domain_id = Some domain_id.
Proof.
  intros reply. split; [apply error_reply_or_direct_run|].
  subst reply. unfold error_marked, _make_message_structure.
  repeat split; by lookup_inserts.
Qed.

(** X12: [_param_check] answers true, and does nothing else, when the
    message has every key of the list.  When a key is missing, however
    many are, the message itself is handed back once, marked
    EINVALID_COMMAND, to the routing table of its domain if the core hosts
    it, and the answer is false; for a domain id the core does not host
    (or [None]) the answer is false and nothing is sent; a message without
    a domain id raises [KeyError], one whose domain id cannot be a
    dictionary key raises [TypeError]. *)
Theorem param_check_outcome core param dat log :
  (Forall (λ p, is_Some (dat !! p)) param →
   _param_check core param dat log = (Ok true, log))
  ∧ (Exists (λ p, dat !! p = None) param →
     let reply := error_marked dat EINVALID_COMMAND "lack of mandatory params" in
     _param_check core param dat log =
       match dat !! KeyType.domain_id with
       | None => (Raise KeyError, log)
       | Some v =>
           if hashable v then
             match hosted core v with
             | Some (b, d) =>
                 (Ok false, log ++ [ev_send_message_to_user b reply (delivers d reply)])
             | None => (Ok false, log)
             end
           else (Raise TypeError, log)
       end).
Proof.
  split; [apply param_check_present|].
  intros Hmiss reply.
  induction param as [|p param IH]; [by apply Exists_nil in Hmiss|].
  cbn [_param_check]. case_bool_decide as Hp.
  - unfold bind. destruct (dat !! KeyType.domain_id) as [v|] eqn:Hdom.
    + rewrite (error_reply_hosted _ _ _ _ v) by done.
      destruct (hashable v); [|done].
      destruct (hosted core v) as [[b d]|]; reflexivity.
    + by rewrite error_reply_no_domain.
  - apply IH. apply Exists_cons in Hmiss as [Hmiss|Hmiss]; done.
Qed.

(** ** What the dispatcher returns *)

Lemma bind_Ok_inv {A B} (c : M A) (k : A → M B) log b log' :
  bind c k log = (Ok b, log') →
  ∃ a log1, c log = (Ok a, log1) ∧ k a log1 = (Ok b, log').
Proof.
  unfold bind. destruct (c log) as [[a|e] log1]; [|done]. intros H. by exists a, log1.
Qed.

Lemma returns_ret {A} (a : A) (P : A → Prop) : P a → returns (ret a) P.
Proof. intros HP log a' log' [= <- _]. exact HP. Qed.

Lemma returns_raise {A} e (P : A → Prop) : returns (raise e) P.
Proof. intros log a log' [=]. Qed.

Lemma returns_bind {A B} (c : M A) (k : A → M B) (P : B → Prop) :
  (∀ a, returns (k a) P) → returns (bind c k) P.
Proof.
  intros Hk log b log' H. apply bind_Ok_inv in H as (a & log1 & _ & H).
  by eapply Hk.
Qed.

Lemma returns_getitem dat key :
  returns (getitem dat key) (λ v, dat !! key = Some v).
Proof.
  intros log v log'. unfold getitem. destruct (dat !! key); [|done]. by intros [= <- _].
Qed.

Ltac returns_step :=
  match goal with
  | |- returns (bind _ _) _ => apply returns_bind; intros
  | |- returns (ret _) _ => by apply returns_ret
  | |- returns (raise _) _ => apply returns_raise
  | |- returns (let _ := _ in _) _ => cbv zeta
  | |- returns (match ?x with _ => _ end) _ => destruct x
  end.

Lemma on_search_transaction_returns core socket umr domain_id dat :
  returns (on_search_transaction core socket umr domain_id dat) (λ r, r = (false, None)).
Proof. unfold on_search_transaction. repeat returns_step. Qed.

Lemma on_search_with_conditions_returns core socket umr domain_id dat :
  returns (on_search_with_conditions core socket umr domain_id dat) (λ r, r = (false, None)).
Proof. unfold on_search_with_conditions. repeat returns_step. Qed.

Lemma on_count_transactions_returns core socket umr domain_id dat :
  returns (on_count_transactions core socket umr domain_id dat) (λ r, r = (false, None)).
Proof. unfold on_count_transactions. repeat returns_step. Qed.

Lemma on_traverse_transactions_returns core socket umr domain_id dat :
  returns (on_traverse_transactions core socket umr domain_id dat) (λ r, r = (false, None)).
Proof. unfold on_traverse_transactions. repeat returns_step. Qed.

Lemma on_gather_signature_returns core socket umr domain_id dat :
  returns (on_gather_signature core socket umr domain_id dat) (λ r, r = (false, None)).
Proof. unfold on_gather_signature. repeat returns_step. Qed.

Lemma on_insert_returns core socket umr domain_id dat :
  returns (on_insert core socket umr domain_id dat) (λ r, r = (false, None)).
Proof. unfold on_insert. repeat returns_step. Qed.

Lemma on_message_returns core socket umr domain_id dat :
  returns (on_message core socket umr domain_id dat) (λ r, r = (false, None)).
Proof. unfold on_message. repeat returns_step. Qed.

Lemma on_unregister_returns core socket umr domain_id dat :
  returns (on_unregister core socket umr domain_id dat) (λ r, r = (true, None)).
Proof. unfold on_unregister. repeat returns_step. Qed.

Lemma param_check_true_inv core param dat log log' :
  _param_check core param dat log = (Ok true, log') →
  Forall (λ p, is_Some (dat !! p)) param ∧ log' = log.
Proof.
  revert log'. induction param as [|p param IH]; intros log'; cbn [_param_check].
  - intros [= <-]. by split.
  - case_bool_decide as Hp.
    + intros H. apply bind_Ok_inv in H as (a & log1 & _ & [=]).
    + intros H. destruct (IH _ H) as [Hall ->]. split; [|done].
      constructor; [|done]. by destruct (dat !! p); [eexists|].
Qed.

Lemma resolve_umr_run core b log :
  resolve_umr core (VBytes b) log = (Ok (umr_for core b), log).
Proof.
  unfold resolve_umr, umr_for, bind, domains_contains, domains_getitem. simpl. unfold ret.
  destruct (domains core !! b) as [d|] eqn:Hd.
  - by rewrite bool_decide_eq_true_2 by eauto.
  - by rewrite bool_decide_eq_false_2 by (by intros [? ?]).
Qed.

(** The head of [_process] on a message that has its command and its
    sender, for a domain id that is a byte string. *)
Lemma process_bytes_domain core socket dat b cmd src log :
  dat !! KeyType.command = Some cmd →
  dat !! KeyType.source_user_id = Some src →
  dat !! KeyType.domain_id = Some (VBytes b) →
  _process core socket dat log =
    dispatch core socket (umr_for core b) (VBytes b) dat cmd
      (log ++ [ev_stats_increment "client" "num_message_receive"]).
Proof.
  intros Hcmd Hsrc Hdom. unfold _process.
  erewrite bind_Ok by reflexivity.
  erewrite bind_Ok by (apply param_check_present; repeat constructor; eauto).
  cbn [negb]. cbv zeta. rewrite (get_Some _ _ _ _ Hdom).
  erewrite bind_Ok by apply resolve_umr_run.
  erewrite bind_Ok by (by apply getitem_Some).
  reflexivity.
Qed.

(** The same for a domain id that is [None], in the message or by
    default. *)
Lemma process_None_domain core socket dat cmd src log :
  dat !! KeyType.command = Some cmd →
  dat !! KeyType.source_user_id = Some src →
  get dat KeyType.domain_id VNone = VNone →
  _process core socket dat log =
    dispatch core socket umr_None VNone dat cmd
      (log ++ [ev_stats_increment "client" "num_message_receive"]).
Proof.
  intros Hcmd Hsrc Hdom. unfold _process.
  erewrite bind_Ok by reflexivity.
  erewrite bind_Ok by (apply param_check_present; repeat constructor; eauto).
  cbn [negb]. cbv zeta. rewrite Hdom.
  erewrite bind_Ok by reflexivity.
  erewrite bind_Ok by (by apply getitem_Some).
  reflexivity.
Qed.

Lemma process_returns core socket dat log disconnection info log' :
  _process core socket dat log = (Ok (disconnection, info), log') →
  match disconnection, info with
  | false, None => True
  | true, None => dat !! KeyType.command = Some (VMsgType MsgType.UNREGISTER)
  | false, Some (domain_id, user_id) =>
      registers dat
      ∧ ∃ b u,
          domain_id = VBytes b ∧ user_id = VBytes u
          ∧ dat !! KeyType.domain_id = Some (VBytes b)
          ∧ dat !! KeyType.source_user_id = Some (VBytes u)
          ∧ log' = log ++ [ev_stats_increment "client" "num_message_receive";
                           ev_register_user (bool_decide (domains core !! b = None))
                             (VBytes b) (VBytes u) socket
                             (get dat KeyType.on_multinodes (VBool false))]
  | true, Some _ => False
  end.
Proof.
  intros H. unfold _process in H.
  apply bind_Ok_inv in H as ([] & log1 & Hstat & H).
  injection Hstat as <-.
  apply bind_Ok_inv in H as (ok & log2 & Hok & H).
  destruct ok; cbn [negb] in H; [|by injection H as <- <- _].
  apply param_check_true_inv in Hok as [_ ->].
  cbv zeta in H.
  apply bind_Ok_inv in H as (umr & log3 & Humr & H).
  apply bind_Ok_inv in H as (cmd & log4 & Hcmd & H).
  unfold getitem in Hcmd. destruct (dat !! KeyType.command) as [cmd'|] eqn:Hc; [|done].
  injection Hcmd as -> ->.
  destruct cmd as [| | | | |t| | |]; try (by injection H as <- <- _).
  destruct t; cbn [dispatch] in H; try (by injection H as <- <- _).
  - by apply on_search_transaction_returns in H as [= -> ->].
  - by apply on_search_with_conditions_returns in H as [= -> ->].
  - by apply on_count_transactions_returns in H as [= -> ->].
  - by apply on_traverse_transactions_returns in H as [= -> ->].
  - by apply on_gather_signature_returns in H as [= -> ->].
  - by apply on_insert_returns in H as [= -> ->].
  - by apply on_message_returns in H as [= -> ->].
  - unfold on_register in H. case_bool_decide as Hnone; [by injection H as <- <- _|].
    apply bind_Ok_inv in H as (ok & log5 & Hok & H).
    destruct ok; cbn [negb] in H; [|by injection H as <- <- _].
    apply param_check_true_inv in Hok as [Hall ->].
    apply bind_Ok_inv in H as (user_id & log6 & Huser & H).
    unfold getitem in Huser.
    destruct (dat !! KeyType.source_user_id) as [user_id'|] eqn:Hsrc; [|done].
    injection Huser as -> ->.
    apply bind_Ok_inv in H as ([] & log7 & Hb1 & H).
    apply bind_Ok_inv in H as ([] & log8 & Hb2 & H).
    apply bind_Ok_inv in H as ([] & log9 & Hreg & H).
    injection H as <- <- <-.
    unfold get in Humr, Hnone, Hb1 |- *.
    destruct (dat !! KeyType.domain_id) as [[| | |b| | | | |]|] eqn:Hdom;
      cbn [default from_option id] in *; try done.
    destruct user_id as [| | |u| | | | |]; try done.
    injection Hb1 as <-. injection Hb2 as <-.
    rewrite resolve_umr_run in Humr. injection Humr as <- <-.
    split; [exact Hc|]. exists b, u. repeat (split; [done|]).
    unfold umr_for in Hreg.
    destruct (domains core !! b) as [d|] eqn:Hd; injection Hreg as <-.
    + rewrite bool_decide_eq_false_2 by done. by rewrite <- app_assoc.
    + rewrite bool_decide_eq_true_2 by done. by rewrite <- app_assoc.
  - by apply on_unregister_returns in H as [= -> ->].
Qed.

(** X13: what [_process] returns when it does not raise, for a message
    whose command is one of those embedded here (the searches, the count,
    the traversal, the gathering of signatures, the insertion, MESSAGE,
    REGISTER, UNREGISTER and the commands [_process] has no branch for) or
    that has no command.  It reports a disconnection for an UNREGISTER
    only, and never together with a user.  It reports a user for a
    REGISTER only: the domain id and the sender of the message, both byte
    strings, and then the registration on the routing table of that
    domain (a dummy one when the core does not host the domain) is the
    one thing it has done besides counting the message. *)
Theorem process_outcome core socket dat log disconnection info log' :
  embedded dat →
  _process core socket dat log = (Ok (disconnection, info), log') →
  match disconnection, info with
  | false, None => True
  | true, None => dat !! KeyType.command = Some (VMsgType MsgType.UNREGISTER)
  | false, Some (domain_id, user_id) =>
      registers dat
      ∧ ∃ b u,
          domain_id = VBytes b ∧ user_id = VBytes u
          ∧ dat !! KeyType.domain_id = Some (VBytes b)
          ∧ dat !! KeyType.source_user_id = Some (VBytes u)
          ∧ log' = log ++ [ev_stats_increment "client" "num_message_receive";
                           ev_register_user (bool_decide (domains core !! b = None))
                             (VBytes b) (VBytes u) socket
                             (get dat KeyType.on_multinodes (VBool false))]
  | true, Some _ => False
  end.
Proof. intros _. apply process_returns. Qed.

Lemma process_outcome_witness :
  registers (register_request "D")
  ∧ ∃ b u,
      VBytes "D" = VBytes b ∧ VBytes "user1" = VBytes u
      ∧ register_request "D" !! KeyType.domain_id = Some (VBytes b)
      ∧ register_request "D" !! KeyType.source_user_id = Some (VBytes u)
      ∧ [ev_stats_increment "client" "num_message_receive";
         ev_register_user false (VBytes "D") (VBytes "user1") 7%nat (VBool false)]
        = [] ++ [ev_stats_increment "client" "num_message_receive";
                 ev_register_user (bool_decide (domains (graph_core lone) !! b = None))
                   (VBytes b) (VBytes u) 7%nat
                   (get (register_request "D") KeyType.on_multinodes (VBool false))].
Proof.
  apply (process_outcome (graph_core lone) 7%nat (register_request "D") [] false
           (Some (VBytes "D", VBytes "user1"))).
  - intros cmd H. vm_compute in H. injection H as <-. by eexists.
  - by vm_compute.
Defined.

(** ** What the dispatcher adds to the log *)

Lemma emits_ret {A} (a : A) Q : emits (ret a) Q.
Proof. intros log. exists []. by rewrite app_nil_r. Qed.

Lemma emits_raise {A} e Q : emits (raise (A := A) e) Q.
Proof. intros log. exists []. by rewrite app_nil_r. Qed.

Lemma emits_emit e (Q : Event → Prop) : Q e → emits (emit e) Q.
Proof. intros HQ log. exists [e]. split; [done|]. by constructor. Qed.

Lemma emits_emit_all es (Q : Event → Prop) : Forall Q es → emits (emit_all es) Q.
Proof. intros HQ log. by exists es. Qed.

Lemma emits_bind_returns {A B} (c : M A) (k : A → M B) (P : A → Prop) Q :
  returns c P → emits c Q → (∀ a, P a → emits (k a) Q) → emits (bind c k) Q.
Proof.
  intros HP Hc Hk log. unfold bind.
  destruct (Hc log) as (evs & Hlog & Hevs).
  destruct (c log) as [[a|e] log1] eqn:Hrun; cbn [snd] in Hlog; subst log1.
  - destruct (Hk a (HP _ _ _ Hrun) (log ++ evs)) as (evs' & Hlog' & Hevs').
    exists (evs ++ evs'). rewrite Hlog', app_assoc. split; [done|]. by apply Forall_app.
  - by exists evs.
Qed.

Lemma emits_bind {A B} (c : M A) (k : A → M B) Q :
  emits c Q → (∀ a, emits (k a) Q) → emits (bind c k) Q.
Proof.
  intros Hc Hk. apply (emits_bind_returns c k (λ _, True)); [done|done|].
  intros a _. apply Hk.
Qed.

Ltac emits_step :=
  match goal with
  | |- emits (bind _ _) _ => apply emits_bind; [|intros]
  | |- emits (ret _) _ => apply emits_ret
  | |- emits (raise _) _ => apply emits_raise
  | |- emits (emit _) _ => apply emits_emit; first [exact I | reflexivity]
  | |- emits (let _ := _ in _) _ => cbv zeta
  | |- emits (match ?x with _ => _ end) _ => destruct x
  end.

Lemma emits_getitem dat key Q : emits (getitem dat key) Q.
Proof. unfold getitem. repeat emits_step. Qed.

Lemma emits_domains_contains core domain_id Q : emits (domains_contains core domain_id) Q.
Proof. unfold domains_contains. repeat emits_step. Qed.

Lemma emits_domains_getitem core domain_id Q : emits (domains_getitem core domain_id) Q.
Proof. unfold domains_getitem. repeat emits_step. Qed.

Lemma emits_resolve_umr core domain_id Q : emits (resolve_umr core domain_id) Q.
Proof.
  unfold resolve_umr. destruct (bool_decide _); [apply emits_ret|].
  apply emits_bind; [apply emits_domains_contains|]. intros [|]; [|apply emits_ret].
  apply emits_bind; [apply emits_domains_getitem|]. intros [b d]. apply emits_ret.
Qed.

Lemma emits_error_reply core msg err_code txt (Q : Event → Prop) :
  (∀ b dl, Q (ev_send_message_to_user b (error_marked msg err_code txt) dl)) →
  emits (_error_reply core msg err_code txt) Q.
Proof.
  intros HQ. unfold _error_reply. cbv zeta.
  apply emits_bind; [apply emits_getitem|]. intros domain_id.
  apply emits_bind; [apply emits_domains_contains|]. intros [|]; [|apply emits_ret].
  apply emits_bind; [apply emits_domains_getitem|]. intros [b d].
  apply emits_bind; [|intros; apply emits_ret].
  apply emits_emit. apply HQ.
Qed.

Lemma emits_param_check core param dat (Q : Event → Prop) :
  (∀ b dl, Q (ev_send_message_to_user b
                (error_marked dat EINVALID_COMMAND "lack of mandatory params") dl)) →
  emits (_param_check core param dat) Q.
Proof.
  intros HQ. induction param as [|p param IH]; cbn [_param_check]; [apply emits_ret|].
  destruct (bool_decide _); [|done].
  apply emits_bind; [by apply emits_error_reply|]. intros; apply emits_ret.
Qed.

Create HintDb emits.

#[local] Hint Resolve emits_getitem emits_domains_contains emits_domains_getitem
  emits_resolve_umr : emits.

Ltac emits_auto := repeat first [emits_step | solve [eauto with emits]].

Lemma emits_send_message_to_user socket umr msg :
  emits (send_message_to_user umr msg) (service_event socket).
Proof. unfold send_message_to_user. emits_auto. Qed.

Lemma emits_error_reply_or_direct core socket retmsg err_code txt :
  emits (error_reply_or_direct core socket retmsg err_code txt) (service_event socket).
Proof.
  unfold error_reply_or_direct.
  apply emits_bind; [by apply emits_error_reply|]. intros [[|] m]; [apply emits_ret|].
  unfold direct_send_to_user. emits_auto.
Qed.

Lemma emits_param_check_service core socket param dat :
  emits (_param_check core param dat) (service_event socket).
Proof. by apply emits_param_check. Qed.

#[local] Hint Resolve emits_send_message_to_user emits_error_reply_or_direct
  emits_param_check_service : emits.

Lemma emits_search_transaction_by_txid core socket domain_id txid :
  emits (_search_transaction_by_txid core domain_id txid) (service_event socket).
Proof.
  unfold _search_transaction_by_txid, update_stats_increment, unwrap_first. emits_auto.
Qed.

Lemma emits_search_transaction_with_condition core socket domain_id ag aid uid dir cnt :
  emits (search_transaction_with_condition core domain_id ag aid uid dir cnt)
    (service_event socket).
Proof. unfold search_transaction_with_condition. emits_auto. Qed.

Lemma emits_count_transactions core socket domain_id ag aid uid :
  emits (count_transactions core domain_id ag aid uid) (service_event socket).
Proof. unfold count_transactions. emits_auto. Qed.

Lemma emits_traverse_transactions core socket domain_id txid ag uid dir h :
  emits (_traverse_transactions core domain_id txid ag uid dir h) (service_event socket).
Proof.
  unfold _traverse_transactions, update_stats_increment. emits_auto.
  apply emits_emit_all. apply Forall_fmap, Forall_true. by intros.
Qed.

Lemma emits_insert_transaction core socket domain_id txdata :
  emits (insert_transaction core domain_id txdata) (service_event socket).
Proof.
  unfold insert_transaction, validate_transaction, send_inserted_notification,
    to_bytes_1, update_stats_increment.
  emits_auto.
Qed.

Lemma emits_sign_requests socket umr dat msg dests :
  emits (sign_requests umr dat msg dests) (service_event socket).
Proof.
  revert msg. induction dests as [|dst dests IH]; intros msg; cbn [sign_requests].
  - apply emits_ret.
  - apply emits_bind; [|intros; apply IH].
    unfold sign_request. emits_auto.
Qed.

Lemma emits_distribute core socket domain_id dat :
  emits (_distribute_transaction_to_gather_signatures core domain_id dat)
    (service_event socket).
Proof.
  unfold _distribute_transaction_to_gather_signatures. emits_auto.
  apply emits_sign_requests.
Qed.

#[local] Hint Resolve emits_search_transaction_by_txid
  emits_search_transaction_with_condition emits_count_transactions
  emits_traverse_transactions emits_insert_transaction emits_distribute : emits.

Lemma emits_dispatch core socket umr domain_id dat cmd :
  emits (dispatch core socket umr domain_id dat cmd) (service_event socket).
Proof.
  unfold dispatch, on_search_transaction, on_search_with_conditions,
    on_count_transactions, on_traverse_transactions, on_gather_signature, on_insert,
    on_message, on_register, on_unregister, b2a_hex_prefix, register_user,
    unregister_user.
  emits_auto.
Qed.

(** Whatever the message, [_process] only extends the log, never closes
    a socket nor decrements a counter, and sends directly on the socket
    of the connection only. *)
Lemma emits_process core socket dat :
  emits (_process core socket dat) (service_event socket).
Proof.
  unfold _process, update_stats_increment. emits_auto. apply emits_dispatch.
Qed.

(** ** Signature gathering through the dispatcher *)

Lemma sign_request_command b d dat msg dst :
  msg !! KeyType.command = Some (VMsgType MsgType.REQUEST_SIGNATURE) →
  returns (sign_request (umr_of_domain b d) dat msg dst)
    (λ m, m !! KeyType.command = Some (VMsgType MsgType.REQUEST_SIGNATURE))
  ∧ emits (sign_request (umr_of_domain b d) dat msg dst) (gather_event dat).
Proof.
  intros Hcmd.
  assert (Hkeep : ∀ txdata,
    (<[KeyType.transaction_data := txdata]>
       match dat !! KeyType.hint with
       | Some h => <[KeyType.hint := h]> (<[KeyType.destination_user_id := dst]> msg)
       | None => <[KeyType.destination_user_id := dst]> msg
       end) !! KeyType.command = Some (VMsgType MsgType.REQUEST_SIGNATURE)).
  { intros txdata. rewrite lookup_insert_ne by done.
    destruct (dat !! KeyType.hint); rewrite !lookup_insert_ne by done; exact Hcmd. }
  assert (Hkeep' : ∀ txdata,
    match dat !! KeyType.transactions with
    | Some txs =>
        <[KeyType.transactions := txs]>
          (<[KeyType.transaction_data := txdata]>
             match dat !! KeyType.hint with
             | Some h => <[KeyType.hint := h]> (<[KeyType.destination_user_id := dst]> msg)
             | None => <[KeyType.destination_user_id := dst]> msg
             end)
    | None =>
        <[KeyType.transaction_data := txdata]>
          match dat !! KeyType.hint with
          | Some h => <[KeyType.hint := h]> (<[KeyType.destination_user_id := dst]> msg)
          | None => <[KeyType.destination_user_id := dst]> msg
          end
    end !! KeyType.command = Some (VMsgType MsgType.REQUEST_SIGNATURE)).
  { intros txdata. destruct (dat !! KeyType.transactions);
      [rewrite lookup_insert_ne by done|]; apply Hkeep. }
  unfold sign_request. split.
  - apply returns_bind. intros src. case_bool_decide; [by apply returns_ret|].
    cbv zeta. apply returns_bind. intros txdata. apply returns_bind. intros _.
    apply returns_ret. apply Hkeep'.
  - apply emits_bind; [apply emits_getitem|]. intros src.
    case_bool_decide; [apply emits_ret|].
    cbv zeta. apply emits_bind; [apply emits_getitem|]. intros txdata.
    apply emits_bind; [|intros; apply emits_ret].
    apply emits_emit. left. apply Hkeep'.
Qed.

Lemma sign_requests_gather b d dat msg dests :
  msg !! KeyType.command = Some (VMsgType MsgType.REQUEST_SIGNATURE) →
  emits (sign_requests (umr_of_domain b d) dat msg dests) (gather_event dat).
Proof.
  revert msg. induction dests as [|dst dests IH]; intros msg Hcmd; cbn [sign_requests].
  - apply emits_ret.
  - destruct (sign_request_command b d dat msg dst Hcmd) as [Hret Hemits].
    eapply emits_bind_returns; [exact Hret|exact Hemits|]. intros m Hm. by apply IH.
Qed.

(** [_distribute_transaction_to_gather_signatures] returns true or
    raises. *)
Lemma distribute_gather core domain_id dat :
  returns (_distribute_transaction_to_gather_signatures core domain_id dat) (λ r, r = true)
  ∧ emits (_distribute_transaction_to_gather_signatures core domain_id dat)
      (gather_event dat).
Proof.
  unfold _distribute_transaction_to_gather_signatures. split.
  - repeat returns_step.
  - apply emits_bind; [apply emits_getitem|]. intros dests.
    apply emits_bind; [apply emits_getitem|]. intros qid. cbv zeta.
    apply emits_bind; [apply emits_getitem|]. intros src.
    apply emits_bind; [apply emits_domains_getitem|]. intros [b d].
    destruct (iterate dests) as [dsts|]; [|apply emits_raise].
    apply emits_bind; [|intros; apply emits_ret].
    apply sign_requests_gather. by rewrite lookup_insert_ne.
Qed.

(** X14: whatever a REQUEST_GATHER_SIGNATURE message holds and whatever
    the routing tables answer, all [_process] does with it, besides
    counting it, is to hand messages to the routing table of a hosted
    domain: REQUEST_SIGNATURE messages, or the request itself marked as
    lacking a mandatory key.  The sender is never answered with a
    RESPONSE_GATHER_SIGNATURE, and nothing is sent directly on the socket:
    the reply for a failed forwarding is never produced, since the
    forwarding returns true or raises. *)
Theorem gather_signature_never_answers core socket dat :
  dat !! KeyType.command = Some (VMsgType MsgType.REQUEST_GATHER_SIGNATURE) →
  emits (_process core socket dat) (gather_event dat)
  ∧ ∀ domain_id,
      returns (_distribute_transaction_to_gather_signatures core domain_id dat)
        (λ r, r = true).
Proof.
  intros Hcmd. split; [|intros; apply distribute_gather]. unfold _process.
  apply emits_bind; [by apply emits_emit|]. intros _.
  apply emits_bind; [apply emits_param_check; intros; by right|]. intros ok.
  destruct ok; cbn [negb]; [|apply emits_ret]. cbv zeta.
  apply emits_bind; [apply emits_resolve_umr|]. intros umr.
  eapply emits_bind_returns; [apply returns_getitem|apply emits_getitem|].
  intros cmd Hc. rewrite Hcmd in Hc. injection Hc as <-. cbn [dispatch].
  unfold on_gather_signature.
  apply emits_bind; [apply emits_param_check; intros; by right|]. intros ok.
  destruct ok; cbn [negb]; [|apply emits_ret].
  apply emits_bind; [apply emits_getitem|]. intros domain_id.
  destruct (distribute_gather core domain_id dat) as [Hret Hemits].
  eapply emits_bind_returns; [exact Hret|exact Hemits|].
  intros forwarded ->. cbn [negb]. apply emits_ret.
Qed.

Lemma gather_signature_never_answers_witness :
  emits (_process deaf_core 0%nat gather_request) (gather_event gather_request)
  ∧ ∀ domain_id,
      returns (_distribute_transaction_to_gather_signatures deaf_core domain_id
                 gather_request)
        (λ r, r = true).
Proof.
  apply gather_signature_never_answers. reflexivity.
Defined.

(** ** Insertion through the dispatcher *)

(** X15: a REQUEST_INSERT with its sender, query id and transaction data,
    on a hosted domain.  Unless the notification raises [OverflowError]
    (then nothing is answered), [_process] ends with exactly one
    RESPONSE_INSERT for the sender, handed to the routing table of the
    domain after everything [insert_transaction] does: with the status
    ESUCCESS, the transaction id of the record and no reason when the
    insertion gives a record; with the status EINVALID_COMMAND, one of
    the two reasons of a refusal and no transaction id otherwise. *)
Theorem process_insert_reply core socket dat b d src qid txdata log :
  dat !! KeyType.command = Some (VMsgType MsgType.REQUEST_INSERT) →
  dat !! KeyType.source_user_id = Some src →
  dat !! KeyType.query_id = Some qid →
  dat !! KeyType.domain_id = Some (VBytes b) →
  domains core !! b = Some d →
  dat !! KeyType.transaction_data = Some txdata →
  let served := insert_transaction core (VBytes b) txdata
                  (log ++ [ev_stats_increment "client" "num_message_receive"]) in
  let out := _process core socket dat log in
  (served.1 = Raise OverflowError ∧ out = (Raise OverflowError, served.2))
  ∨ ∃ reply,
      out = (Ok (false, None),
             served.2 ++ [ev_send_message_to_user b reply (delivers d reply)])
      ∧ reply !! KeyType.command = Some (VMsgType MsgType.RESPONSE_INSERT)
      ∧ reply !! KeyType.destination_user_id = Some src
      ∧ reply !! KeyType.query_id = Some qid
      ∧ reply !! KeyType.domain_id = Some (VBytes b)
      ∧ ((∃ txid, served.1 = Ok (inr {[ KeyType.transaction_id := VBytes txid ]})
                  ∧ reply !! KeyType.status = Some (VError ESUCCESS)
                  ∧ reply !! KeyType.transaction_id = Some (VBytes txid)
                  ∧ reply !! KeyType.reason = None)
         ∨ (∃ reason, served.1 = Ok (inl reason)
                      ∧ (reason = "Bad transaction format"
                         ∨ reason = "Failed to insert a transaction into the ledger")
                      ∧ reply !! KeyType.status = Some (VError EINVALID_COMMAND)
                      ∧ reply !! KeyType.reason = Some (VStr reason)
                      ∧ reply !! KeyType.transaction_id = None)).
Proof.
  intros Hcmd Hsrc Hqid Hdom Hd Htx served out.
  assert (Hout : out =
    match served.1 with
    | Ok (inl reason) =>
        let reply := error_marked (_make_message_structure (VBytes b)
                                     MsgType.RESPONSE_INSERT src qid)
                       EINVALID_COMMAND reason in
        (Ok (false, None), served.2 ++ [ev_send_message_to_user b reply (delivers d reply)])
    | Ok (inr record) =>
        let reply := record ∪ _make_message_structure (VBytes b)
                                MsgType.RESPONSE_INSERT src qid in
        (Ok (false, None), served.2 ++ [ev_send_message_to_user b reply (delivers d reply)])
    | Raise e => (Raise e, served.2)
    end).
  { subst out. rewrite (process_registered _ _ _ b d _ src) by done.
    cbn [dispatch]. unfold on_insert.
    erewrite bind_Ok by (apply param_check_present; repeat constructor; eauto).
    cbn [negb].
    erewrite bind_Ok by (by apply getitem_Some).
    erewrite bind_Ok by (by apply getitem_Some).
    erewrite bind_Ok by (by apply getitem_Some).
    cbv zeta.
    erewrite bind_Ok by (by apply getitem_Some).
    unfold bind at 1. fold served.
    destruct served as [[[reason|record]|e] log1]; cbn [fst snd]; [| |done].
    - erewrite bind_Ok.
      2: { apply (error_reply_or_direct_registered _ _ _ _ _ b d); [|done].
           apply make_message_structure_domain. }
      reflexivity.
    - erewrite bind_Ok by reflexivity. reflexivity. }
  destruct (insert_transaction_registered core b d txdata
              (log ++ [ev_stats_increment "client" "num_message_receive"]) Hd)
    as [Hr|[Hr|[[txid Hr]|Hr]]]; fold served in Hr; cbv zeta in Hr;
    rewrite Hr in Hout; cbv zeta in Hout.
  - right. eexists. split; [exact Hout|].
    unfold error_marked, _make_message_structure.
    split; [by lookup_inserts|]. split; [by lookup_inserts|].
    split; [by lookup_inserts|]. split; [by lookup_inserts|].
    right. exists "Bad transaction format". split; [done|]. split; [by left|].
    split; [by lookup_inserts|]. split; by lookup_inserts.
  - right. eexists. split; [exact Hout|].
    unfold error_marked, _make_message_structure.
    split; [by lookup_inserts|]. split; [by lookup_inserts|].
    split; [by lookup_inserts|]. split; [by lookup_inserts|].
    right. exists "Failed to insert a transaction into the ledger".
    split; [done|]. split; [by right|].
    split; [by lookup_inserts|]. split; by lookup_inserts.
  - right. eexists. split; [exact Hout|].
    rewrite <- insert_union_singleton_l. unfold _make_message_structure.
    split; [by lookup_inserts|]. split; [by lookup_inserts|].
    split; [by lookup_inserts|]. split; [by lookup_inserts|].
    left. exists txid. split; [done|].
    split; [by lookup_inserts|]. split; by lookup_inserts.
  - left. by split.
Qed.

Lemma process_insert_reply_witness :
  ∃ reply txid,
    _process ledger_core 0%nat (insert_request "T1") []
    = (Ok (false, None),
       [ev_stats_increment "client" "num_message_receive";
        ev_stats_increment "transaction" "insert_count";
        ev_insert_transaction "D" (VBytes "T1");
        ev_broadcast_notification_message "D" (notification_frame "T1" "D" ["g1"]);
        ev_send_message_to_user "D" reply true])
    ∧ reply !! KeyType.status = Some (VError ESUCCESS)
    ∧ reply !! KeyType.transaction_id = Some (VBytes txid).
Proof.
  destruct (process_insert_reply ledger_core 0%nat (insert_request "T1") "D" ledger_domain
              (VBytes "user1") (VBytes "q1") (VBytes "T1") []
              eq_refl eq_refl eq_refl eq_refl eq_refl eq_refl)
    as [[H _]|(reply & Hout & _ & _ & _ & _ & [(txid & _ & Hst & Htx & _)
                                                |(reason & Hs & _)])].
  - discriminate H.
  - exists reply, txid. split; [exact Hout|]. by split.
  - discriminate Hs.
Defined.

(** ** Relayed messages *)

(** X16: a MESSAGE with its sender and its destination, for a domain id
    that is a byte string, is handed as it is to the routing table of the
    domain (a dummy one when the core does not host the domain), and
    nothing is answered to the sender.  The one change is the key
    [anycast_ttl], set to 5 whenever the key [is_anycast] is present,
    whatever its value and whatever the message held under
    [anycast_ttl]. *)
Theorem process_message_relays core socket dat b src dst log :
  dat !! KeyType.command = Some (VMsgType MsgType.MESSAGE) →
  dat !! KeyType.source_user_id = Some src →
  dat !! KeyType.destination_user_id = Some dst →
  dat !! KeyType.domain_id = Some (VBytes b) →
  let relayed := if bool_decide (is_Some (dat !! KeyType.is_anycast))
                 then <[KeyType.anycast_ttl := VInt DEFAULT_ANYCAST_TTL]> dat
                 else dat in
  _process core socket dat log =
    (Ok (false, None),
     log ++ [ev_stats_increment "client" "num_message_receive";
             match domains core !! b with
             | Some d => ev_send_message_to_user b relayed (delivers d relayed)
             | None => ev_dummy_send_message_to_user (VBytes b) relayed
             end])
  ∧ (∀ k, k ≠ KeyType.anycast_ttl → relayed !! k = dat !! k)
  ∧ relayed !! KeyType.anycast_ttl =
      if bool_decide (is_Some (dat !! KeyType.is_anycast))
      then Some (VInt 5) else dat !! KeyType.anycast_ttl.
Proof.
  intros Hcmd Hsrc Hdst Hdom relayed. split; [|split].
  - rewrite (process_bytes_domain _ _ _ b _ src) by done.
    cbn [dispatch]. unfold on_message.
    erewrite bind_Ok by (apply param_check_present; repeat constructor; eauto).
    cbn [negb]. cbv zeta. fold relayed. unfold umr_for.
    destruct (domains core !! b) as [d|];
      (erewrite bind_Ok by reflexivity); unfold ret; by rewrite <- app_assoc.
  - intros k Hk. subst relayed. case_bool_decide; [|done]. by rewrite lookup_insert_ne.
  - subst relayed. case_bool_decide; [|done]. by rewrite lookup_insert_eq.
Qed.

Lemma process_message_relays_witness :
  ∃ relayed,
    _process (graph_core lone) 0%nat message_request []
    = (Ok (false, None),
       [ev_stats_increment "client" "num_message_receive";
        ev_send_message_to_user "D" relayed true])
    ∧ relayed !! KeyType.is_anycast = Some (VBool false)
    ∧ relayed !! KeyType.anycast_ttl = Some (VInt 5).
Proof.
  destruct (process_message_relays (graph_core lone) 0%nat message_request "D"
              (VBytes "user1") (VBytes "user2") [] eq_refl eq_refl eq_refl eq_refl)
    as (Hrun & Hkeep & Httl).
  eexists. split; [exact Hrun|]. split; [|exact Httl].
  rewrite Hkeep by done. reflexivity.
Defined.

(** ** Counting *)

(** X17: a REQUEST_COUNT_TRANSACTIONS with its sender and query id on a
    hosted domain asks the storage of the domain once, with the three
    conditions of the message ([None] for an absent one), and answers
    the sender through the routing table of the domain with what the
    storage counted, always with the status ESUCCESS and without a
    reason. *)
Theorem process_count_reply core socket dat b d src qid log :
  dat !! KeyType.command = Some (VMsgType MsgType.REQUEST_COUNT_TRANSACTIONS) →
  dat !! KeyType.source_user_id = Some src →
  dat !! KeyType.query_id = Some qid →
  dat !! KeyType.domain_id = Some (VBytes b) →
  domains core !! b = Some d →
  let asset_group_id := get dat KeyType.asset_group_id VNone in
  let asset_id := get dat KeyType.asset_id VNone in
  let user_id := get dat KeyType.user_id VNone in
  let counted := count_transactions_in (data d) asset_group_id asset_id user_id in
  ∃ reply,
    _process core socket dat log =
      (Ok (false, None),
       log ++ [ev_stats_increment "client" "num_message_receive";
               ev_count_transactions b asset_group_id asset_id user_id;
               ev_send_message_to_user b reply (delivers d reply)])
    ∧ reply !! KeyType.count = Some counted
    ∧ reply !! KeyType.status = Some (VError ESUCCESS)
    ∧ reply !! KeyType.command = Some (VMsgType MsgType.RESPONSE_COUNT_TRANSACTIONS)
    ∧ reply !! KeyType.destination_user_id = Some src
    ∧ reply !! KeyType.query_id = Some qid
    ∧ reply !! KeyType.reason = None.
Proof.
  intros Hcmd Hsrc Hqid Hdom Hd asset_group_id asset_id user_id counted.
  eexists. split.
  - rewrite (process_registered _ _ _ b d _ src) by done.
    cbn [dispatch]. unfold on_count_transactions.
    erewrite bind_Ok by (apply param_check_present; repeat constructor; eauto).
    cbn [negb].
    erewrite bind_Ok by (by apply getitem_Some).
    erewrite bind_Ok by (by apply getitem_Some).
    cbv zeta.
    erewrite bind_Ok.
    2: { unfold count_transactions. rewrite bool_decide_eq_false_2 by done.
         erewrite bind_Ok.
         2: { unfold domains_getitem. cbn [hashable negb]. rewrite Hd. reflexivity. }
         cbv beta iota. erewrite bind_Ok by reflexivity. reflexivity. }
    erewrite bind_Ok by reflexivity.
    unfold ret. rewrite <- !app_assoc. reflexivity.
  - unfold _make_message_structure. repeat split; by lookup_inserts.
Qed.

Lemma process_count_reply_witness :
  ∃ reply,
    _process ledger_core 0%nat count_request []
    = (Ok (false, None),
       [ev_stats_increment "client" "num_message_receive";
        ev_count_transactions "D" (VBytes "g1") VNone VNone;
        ev_send_message_to_user "D" reply true])
    ∧ reply !! KeyType.count = Some (VInt 2).
Proof.
  destruct (process_count_reply ledger_core 0%nat count_request "D" ledger_domain
              (VBytes "user1") (VBytes "q1") [] eq_refl eq_refl eq_refl eq_refl eq_refl)
    as (reply & Hrun & Hcount & _).
  exists reply. split; [exact Hrun|exact Hcount].
Defined.

(** ** Requests whose domain id is None *)

(** X18: what [_process] does with a message whose domain id is [None],
    sender and query id present.  An insertion is refused with the reason
    of a domain that is not set up, and a search by id or by conditions
    with ENOTRANSACTION; each refusal goes directly on the socket of the
    connection, and the storage is never asked.  A count and a MESSAGE
    raise [AttributeError], since there is no routing table to answer
    through.  A REGISTER is dropped without any effect, and an UNREGISTER
    reports the disconnection without unregistering anyone. *)
Theorem process_None_domain_table core socket dat src qid log :
  dat !! KeyType.source_user_id = Some src →
  dat !! KeyType.query_id = Some qid →
  dat !! KeyType.domain_id = Some VNone →
  let received := log ++ [ev_stats_increment "client" "num_message_receive"] in
  let refused cmd err_code txt :=
    ev_direct_send_to_user socket
      (error_marked (_make_message_structure VNone cmd src qid) err_code txt) in
  let run := _process core socket dat log in
  (dat !! KeyType.command = Some (VMsgType MsgType.REQUEST_INSERT) →
   is_Some (dat !! KeyType.transaction_data) →
   run = (Ok (false, None),
          received ++ [ev_stats_increment "transaction" "insert_count";
                       ev_stats_increment "transaction" "insert_fail_count";
                       refused MsgType.RESPONSE_INSERT EINVALID_COMMAND
                         "Set up the domain, first!"]))
  ∧ (dat !! KeyType.command = Some (VMsgType MsgType.REQUEST_SEARCH_TRANSACTION) →
     is_Some (dat !! KeyType.transaction_id) →
     run = (Ok (false, None),
            received ++ [ev_stats_increment "transaction" "search_count";
                         refused MsgType.RESPONSE_SEARCH_TRANSACTION ENOTRANSACTION
                           "Cannot find transaction"]))
  ∧ (dat !! KeyType.command = Some (VMsgType MsgType.REQUEST_SEARCH_WITH_CONDITIONS) →
     run = (Ok (false, None),
            received ++ [refused MsgType.RESPONSE_SEARCH_WITH_CONDITIONS ENOTRANSACTION
                           "Cannot find transaction"]))
  ∧ (dat !! KeyType.command = Some (VMsgType MsgType.REQUEST_COUNT_TRANSACTIONS) →
     run = (Raise AttributeError, received))
  ∧ (dat !! KeyType.command = Some (VMsgType MsgType.MESSAGE) →
     is_Some (dat !! KeyType.destination_user_id) →
     run = (Raise AttributeError, received))
  ∧ (dat !! KeyType.command = Some (VMsgType MsgType.REGISTER) →
     run = (Ok (false, None), received))
  ∧ (dat !! KeyType.command = Some (VMsgType MsgType.UNREGISTER) →
     run = (Ok (true, None), received)).
Proof.
  intros Hsrc Hqid Hdom received refused run.
  assert (Hget : get dat KeyType.domain_id VNone = VNone) by (by apply get_Some).
  assert (Hrefused : ∀ cmd err_code txt l,
    error_reply_or_direct core socket (_make_message_structure VNone cmd src qid)
      err_code txt l = (Ok tt, l ++ [refused cmd err_code txt])).
  { intros. by rewrite error_reply_or_direct_run. }
  subst run. split; [|split; [|split; [|split; [|split; [|split]]]]].
  - intros Hcmd [txdata Htx].
    rewrite (process_None_domain _ _ _ _ src) by done.
    cbn [dispatch]. unfold on_insert.
    erewrite bind_Ok by (apply param_check_present; repeat constructor; eauto).
    cbn [negb].
    erewrite bind_Ok by (by apply getitem_Some).
    erewrite bind_Ok by (by apply getitem_Some).
    erewrite bind_Ok by (by apply getitem_Some).
    cbv zeta.
    erewrite bind_Ok by (by apply getitem_Some).
    erewrite bind_Ok by apply insert_transaction_None.
    cbv beta iota.
    erewrite bind_Ok by apply Hrefused.
    unfold ret, received. by rewrite <- !app_assoc.
  - intros Hcmd [txid Htx].
    rewrite (process_None_domain _ _ _ _ src) by done.
    cbn [dispatch]. unfold on_search_transaction.
    erewrite bind_Ok by (apply param_check_present; repeat constructor; eauto).
    cbn [negb].
    erewrite bind_Ok by (by apply getitem_Some).
    erewrite bind_Ok by (by apply getitem_Some).
    cbv zeta.
    erewrite bind_Ok by (by apply getitem_Some).
    erewrite bind_Ok by reflexivity.
    cbv beta iota.
    erewrite bind_Ok by apply Hrefused.
    unfold ret, received. by rewrite <- !app_assoc.
  - intros Hcmd.
    rewrite (process_None_domain _ _ _ _ src) by done.
    cbn [dispatch]. unfold on_search_with_conditions.
    erewrite bind_Ok by (apply param_check_present; repeat constructor; eauto).
    cbn [negb].
    erewrite bind_Ok by (by apply getitem_Some).
    erewrite bind_Ok by (by apply getitem_Some).
    cbv zeta.
    erewrite bind_Ok by reflexivity.
    cbv beta iota.
    erewrite bind_Ok by apply Hrefused.
    reflexivity.
  - intros Hcmd.
    rewrite (process_None_domain _ _ _ _ src) by done.
    cbn [dispatch]. unfold on_count_transactions.
    erewrite bind_Ok by (apply param_check_present; repeat constructor; eauto).
    cbn [negb].
    erewrite bind_Ok by (by apply getitem_Some).
    erewrite bind_Ok by (by apply getitem_Some).
    cbv zeta.
    erewrite bind_Ok by reflexivity.
    reflexivity.
  - intros Hcmd [dst Hdst].
    rewrite (process_None_domain _ _ _ _ src) by done.
    cbn [dispatch]. unfold on_message.
    erewrite bind_Ok by (apply param_check_present; repeat constructor; eauto).
    reflexivity.
  - intros Hcmd.
    rewrite (process_None_domain _ _ _ _ src) by done.
    reflexivity.
  - intros Hcmd.
    rewrite (process_None_domain _ _ _ _ src) by done.
    reflexivity.
Qed.

Lemma process_None_domain_table_witness :
  _process ledger_core 0%nat insert_on_None []
  = (Ok (false, None),
     [ev_stats_increment "client" "num_message_receive";
      ev_stats_increment "transaction" "insert_count";
      ev_stats_increment "transaction" "insert_fail_count";
      ev_direct_send_to_user 0%nat
        (error_marked (_make_message_structure VNone MsgType.RESPONSE_INSERT
                         (VBytes "user1") (VBytes "q1"))
           EINVALID_COMMAND "Set up the domain, first!")]).
Proof.
  apply (proj1 (process_None_domain_table ledger_core 0%nat insert_on_None
                  (VBytes "user1") (VBytes "q1") [] eq_refl eq_refl eq_refl));
    [reflexivity|by eexists].
Defined.

(** ** A domain the core does not host *)

Lemma domains_getitem_unhosted core b log :
  domains core !! b = None →
  domains_getitem core (VBytes b) log = (Raise KeyError, log).
Proof. intros Hd. unfold domains_getitem. cbn [hashable negb]. by rewrite Hd. Qed.

(** X19: on a domain the core does not host, the search by id, the
    search by conditions, the count, the traversal and the distribution
    of signature requests all raise [KeyError] when they look the domain
    up, before any storage or routing table is used; the two searches
    that count themselves have done so.  An insertion raises [KeyError]
    as well, unless the data fail to deserialize or to validate, which is
    found out first and answered with its reason. *)
Theorem unhosted_domain_raises core b log :
  domains core !! b = None →
  (∀ txid, txid ≠ VNone →
     _search_transaction_by_txid core (VBytes b) txid log
     = (Raise KeyError, log ++ [ev_stats_increment "transaction" "search_count"]))
  ∧ (∀ ag aid uid dir cnt,
       search_transaction_with_condition core (VBytes b) ag aid uid dir cnt log
       = (Raise KeyError, log))
  ∧ (∀ ag aid uid,
       count_transactions core (VBytes b) ag aid uid log = (Raise KeyError, log))
  ∧ (∀ txid ag uid dir h, txid ≠ VNone →
       _traverse_transactions core (VBytes b) txid ag uid dir h log
       = (Raise KeyError, log ++ [ev_stats_increment "transaction" "search_count"]))
  ∧ (∀ dat dests qid src,
       dat !! KeyType.destination_user_ids = Some dests →
       dat !! KeyType.query_id = Some qid →
       dat !! KeyType.source_user_id = Some src →
       _distribute_transaction_to_gather_signatures core (VBytes b) dat log
       = (Raise KeyError, log))
  ∧ (∀ txdata,
       insert_transaction core (VBytes b) txdata log
       = (Raise KeyError, log ++ [ev_stats_increment "transaction" "insert_count"])
       ∨ insert_transaction core (VBytes b) txdata log
         = (Ok (inl "Bad transaction format"),
            log ++ [ev_stats_increment "transaction" "insert_count";
                    ev_stats_increment "transaction" "invalid";
                    ev_stats_increment "transaction" "insert_fail_count"])).
Proof.
  intros Hd. split; [|split; [|split; [|split; [|split]]]].
  - intros txid Hne. unfold _search_transaction_by_txid.
    erewrite bind_Ok by reflexivity.
    rewrite bool_decide_eq_false_2 by done. rewrite bool_decide_eq_false_2 by done.
    erewrite bind_Raise by (by apply domains_getitem_unhosted). reflexivity.
  - intros. unfold search_transaction_with_condition.
    rewrite bool_decide_eq_false_2 by done.
    erewrite bind_Raise by (by apply domains_getitem_unhosted). reflexivity.
  - intros. unfold count_transactions.
    rewrite bool_decide_eq_false_2 by done.
    erewrite bind_Raise by (by apply domains_getitem_unhosted). reflexivity.
  - intros txid ag uid dir h Hne. unfold _traverse_transactions.
    erewrite bind_Ok by reflexivity.
    rewrite bool_decide_eq_false_2 by done. rewrite bool_decide_eq_false_2 by done.
    erewrite bind_Raise by (by apply domains_getitem_unhosted). reflexivity.
  - intros dat dests qid src Hdests Hqid Hsrc.
    unfold _distribute_transaction_to_gather_signatures.
    erewrite bind_Ok by (by apply getitem_Some).
    erewrite bind_Ok by (by apply getitem_Some).
    cbv zeta.
    erewrite bind_Ok by (by apply getitem_Some).
    erewrite bind_Raise by (by apply domains_getitem_unhosted). reflexivity.
  - intros txdata.
    unfold insert_transaction, validate_transaction, domains_getitem, bind,
      update_stats_increment, emit, ret, raise.
    simpl. rewrite Hd.
    destruct (deserialize (lib core) txdata) as [parsed|]; simpl.
    + destruct (validate_transaction_object _ _) as [[[|] valid] invalid]; simpl.
      * by left.
      * right. by rewrite <- !app_assoc.
    + right. by rewrite <- !app_assoc.
Qed.

Lemma unhosted_domain_raises_witness :
  count_transactions (graph_core lone) (VBytes "X") (VBytes "g1") VNone VNone []
  = (Raise KeyError, []).
Proof.
  exact (proj1 (proj2 (proj2 (unhosted_domain_raises (graph_core lone) "X" [] eq_refl)))
           (VBytes "g1") VNone VNone).
Defined.

(** ** The connection loop *)

Lemma process_info_registers core socket dat log disconnection info log' :
  _process core socket dat log = (Ok (disconnection, Some info), log') →
  registers dat.
Proof.
  intros H. apply process_returns in H. destruct disconnection, info; [done|]. apply H.
Qed.

Lemma parse_loop_keeps core socket pending user_info log :
  Forall (λ m, ¬ registers m) pending →
  ∃ rest exn evs,
    parse_loop core socket pending user_info log = ((rest, user_info, exn), log ++ evs)
    ∧ Forall (service_event socket) evs
    ∧ Forall (λ m, ¬ registers m) rest.
Proof.
  intros Hp. revert log.
  induction Hp as [|msg pending Hmsg Hp IH]; intros log; cbn [parse_loop].
  - exists [], None, []. by rewrite app_nil_r.
  - destruct (emits_process core socket msg log) as (evs & Hlog & Hevs).
    destruct (_process core socket msg log) as [[[disconnection info]|e] log1] eqn:Hrun;
      cbn [snd] in Hlog; subst log1.
    + destruct disconnection; [by exists pending, None, evs|].
      destruct info as [info|];
        [by apply process_info_registers in Hrun|].
      destruct (IH (log ++ evs)) as (rest & exn & evs' & -> & Hevs' & Hrest).
      exists rest, exn, (evs ++ evs'). rewrite app_assoc.
      split; [done|]. split; [by apply Forall_app|done].
    + by exists pending, (Some e), evs.
Qed.

Lemma recv_loop_keeps core socket reads pending user_info log :
  Forall (λ m, ¬ registers m) pending →
  Forall (λ m, ¬ registers m) (concat reads) →
  ∃ exn evs,
    recv_loop core socket reads pending user_info log = ((user_info, exn), log ++ evs)
    ∧ Forall (service_event socket) evs.
Proof.
  revert pending log. induction reads as [|buf reads IH]; intros pending log Hp Hr;
    cbn [recv_loop].
  - exists None, []. by rewrite app_nil_r.
  - cbn [concat] in Hr. apply Forall_app in Hr as [Hbuf Hr].
    destruct (parse_loop_keeps core socket (pending ++ buf) user_info log)
      as (rest & exn & evs & -> & Hevs & Hrest); [by apply Forall_app|].
    destruct exn as [e|]; [by exists (Some e), evs|].
    destruct (IH rest (log ++ evs) Hrest Hr) as (exn & evs' & -> & Hevs').
    exists exn, (evs ++ evs'). rewrite app_assoc. split; [done|]. by apply Forall_app.
Qed.

(** X20: a connection on which no REGISTER arrives, and whose messages
    have commands among those embedded here (the searches, the count, the
    traversal, the gathering of signatures, the insertion, MESSAGE,
    UNREGISTER and the commands [_process] has no branch for) or no
    command at all, always goes through its whole teardown, whatever
    these messages hold and even when one of them makes [_process] raise:
    [_handler] returns, having counted the client, served the messages,
    reached the shutdown and close of the socket (whose own failures it
    swallows) and given the count back, in this order; the close is
    reached once, at the end, and nobody is unregistered by the
    teardown. *)
Theorem handler_without_register core socket reads log :
  Forall (λ m, embedded m ∧ ¬ registers m) (concat reads) →
  ∃ evs,
    _handler core socket reads log =
      (Ok tt, log ++ [ev_stats_increment "client" "total_num"] ++ evs
                  ++ [ev_socket_closed socket; ev_stats_decrement "client" "total_num"])
    ∧ Forall (service_event socket) evs.
Proof.
  intros Hr. unfold _handler.
  apply (Forall_impl _ (λ m, ¬ registers m)) in Hr; [|by intros m [_ ?]].
  destruct (recv_loop_keeps core socket reads [] None
              (log ++ [ev_stats_increment "client" "total_num"]) (Forall_nil_2 _) Hr)
    as (exn & evs & -> & Hevs).
  exists evs. split; [|done].
  unfold bind, ret, emit. by rewrite <- !app_assoc.
Qed.

Lemma handler_without_register_witness :
  ∃ evs,
    _handler (graph_core lone) 0%nat [[search_without_domain; traverse_request "A" 3]] []
    = (Ok tt, [] ++ [ev_stats_increment "client" "total_num"] ++ evs
                 ++ [ev_socket_closed 0%nat; ev_stats_decrement "client" "total_num"])
    ∧ Forall (service_event 0%nat) evs.
Proof.
  apply handler_without_register.
  apply Forall_cons_2; [split|apply Forall_cons_2; [split|apply Forall_nil_2]].
  - intros cmd H. vm_compute in H. injection H as <-. by eexists.
  - unfold registers. intros H. vm_compute in H. discriminate H.
  - intros cmd H. vm_compute in H. injection H as <-. by eexists.
  - unfold registers. intros H. vm_compute in H. discriminate H.
Defined.

Lemma process_register core socket dat b u log :
  registers dat →
  dat !! KeyType.domain_id = Some (VBytes b) →
  dat !! KeyType.source_user_id = Some (VBytes u) →
  _process core socket dat log =
    (Ok (false, Some (VBytes b, VBytes u)),
     log ++ [ev_stats_increment "client" "num_message_receive";
             ev_register_user (bool_decide (domains core !! b = None))
               (VBytes b) (VBytes u) socket
               (get dat KeyType.on_multinodes (VBool false))]).
Proof.
  intros Hcmd Hdom Hsrc.
  rewrite (process_bytes_domain _ _ _ b (VMsgType MsgType.REGISTER) (VBytes u) _
             Hcmd Hsrc Hdom).
  cbn [dispatch]. unfold on_register.
  rewrite bool_decide_eq_false_2 by done.
  erewrite bind_Ok by (apply param_check_present; repeat constructor; eauto).
  cbn [negb].
  erewrite bind_Ok by (by apply getitem_Some).
  erewrite bind_Ok by reflexivity.
  erewrite bind_Ok by reflexivity.
  unfold umr_for.
  destruct (domains core !! b) as [d|] eqn:Hd.
  - rewrite bool_decide_eq_false_2 by done.
    erewrite bind_Ok by reflexivity. unfold ret. by rewrite <- app_assoc.
  - rewrite bool_decide_eq_true_2 by done.
    erewrite bind_Ok by reflexivity. unfold ret. by rewrite <- app_assoc.
Qed.

(** X21: a connection whose first message is a REGISTER of the user [u]
    on the domain [b], both byte strings, on which no other REGISTER
    arrives, and during which the domains the core hosts do not change:
    the later messages have commands among those embedded here (the
    searches, the count, the traversal, the gathering of signatures, the
    insertion, MESSAGE, UNREGISTER and the commands [_process] has no
    branch for) or no command, so none is a SETUP_DOMAIN or a
    CLOSE_DOMAIN.  When the core hosts [b], the teardown unregisters [u]
    from the routing table of [b], then reaches the shutdown and close of
    the socket and gives the count back, whatever the later messages did.
    When the core does not host [b], the registration went to a dummy
    routing table, and the teardown raises [KeyError] when it looks the
    domain up: [_handler] ends without reaching the close of the socket
    and without giving the count back. *)
Theorem handler_after_register core socket dat buf reads b u log :
  registers dat →
  dat !! KeyType.domain_id = Some (VBytes b) →
  dat !! KeyType.source_user_id = Some (VBytes u) →
  Forall (λ m, embedded m ∧ ¬ registers m) (concat (buf :: reads)) →
  ∃ evs,
    Forall (service_event socket) evs
    ∧ _handler core socket ((dat :: buf) :: reads) log =
        let served :=
          log ++ [ev_stats_increment "client" "total_num";
                  ev_stats_increment "client" "num_message_receive";
                  ev_register_user (bool_decide (domains core !! b = None))
                    (VBytes b) (VBytes u) socket
                    (get dat KeyType.on_multinodes (VBool false))] ++ evs in
        match domains core !! b with
        | Some d =>
            (Ok tt, served ++ [ev_unregister_user false (VBytes b) (VBytes u) socket;
                               ev_socket_closed socket;
                               ev_stats_decrement "client" "total_num"])
        | None => (Raise KeyError, served)
        end.
Proof.
  intros Hcmd Hdom Hsrc Hr.
  apply (Forall_impl _ (λ m, ¬ registers m)) in Hr; [|by intros m [_ ?]].
  cbn [concat] in Hr. apply Forall_app in Hr as [Hbuf Hr].
  unfold _handler. cbn [recv_loop app parse_loop].
  rewrite (process_register _ _ _ b u) by done.
  destruct (parse_loop_keeps core socket buf (Some (VBytes b, VBytes u))
              ((log ++ [ev_stats_increment "client" "total_num"])
               ++ [ev_stats_increment "client" "num_message_receive";
                   ev_register_user (bool_decide (domains core !! b = None))
                     (VBytes b) (VBytes u) socket
                     (get dat KeyType.on_multinodes (VBool false))]) Hbuf)
    as (rest & exn & evs & -> & Hevs & Hrest).
  destruct exn as [e|].
  - exists evs. split; [done|].
    unfold bind, domains_getitem, unregister_user, emit, ret, raise. cbn [hashable negb].
    destruct (domains core !! b) as [d|]; simpl; f_equal;
      rewrite <- ?app_assoc; simpl; by rewrite <- ?app_assoc.
  - match goal with
    | |- context [recv_loop core socket reads rest ?ui ?l] =>
        destruct (recv_loop_keeps core socket reads rest ui l Hrest Hr)
          as (exn & evs' & -> & Hevs')
    end.
    exists (evs ++ evs'). split; [by apply Forall_app|].
    unfold bind, domains_getitem, unregister_user, emit, ret, raise. cbn [hashable negb].
    destruct (domains core !! b) as [d|]; simpl; f_equal;
      rewrite <- ?app_assoc; simpl; by rewrite <- ?app_assoc.
Qed.

Lemma handler_after_register_witness :
  ∃ evs,
    Forall (service_event 0%nat) evs
    ∧ _handler (graph_core lone) 0%nat [[register_request "X"]] []
      = (Raise KeyError,
         [] ++ [ev_stats_increment "client" "total_num";
                ev_stats_increment "client" "num_message_receive";
                ev_register_user true (VBytes "X") (VBytes "user1") 0%nat (VBool false)]
            ++ evs).
Proof.
  exact (handler_after_register (graph_core lone) 0%nat (register_request "X") [] []
           "X" "user1" [] eq_refl eq_refl eq_refl (Forall_nil_2 _)).
Defined.
